(** * vinted-gangas: the scrape / filter / persist / notify engine

    A shallow embedding of the execution engine of the repository:

    - [app/utils/filter_manager.py]          (module [Filter])
    - [app/scraper/vinted_client.py] and
      [app/utils/scraper_config.py]          (module [Client])
    - [app/notifications/notification_manager.py] (module [Notify])
    - [app/scraper/main_scraper.py]          (module [Scraper])
    - [app/scheduler/task_manager.py]        (modules [Scheduler] and
      [Maintenance])

    Conventions of the embedding.
    - Python [str] is [string], one character of the string for one code
      point below U+0100 (the Latin-1 range); [str.lower], [str.isspace] and
      [str.strip] are those of Python on that range. Text with a code point
      from U+0100 on is outside the model.
    - Prices are Python floats in the source; only their order is used, so a
      price is an integer number of cents.
    - [datetime] values are integers (seconds since the epoch; the
      microseconds are left out).
    - Python [int] is [Z].
    - The clock ([utcnow]) shows a time of the current era; the overflow of
      a subtraction from it is modelled where the span subtracted is read
      from the settings (module [Maintenance]).
    - [print] calls and wall-clock durations are not modelled.
    - The storage layer raises only on a violated UNIQUE constraint; other
      storage faults are outside the model. *)

From Stdlib Require Import ZArith String Ascii List Bool Lia DecimalString.
From stdpp Require Import base tactics option list gmap strings.

Import ListNotations.
Local Open Scope string_scope.
Local Open Scope list_scope.
Local Open Scope Z_scope.

(** ** Python string operations *)

Module Str.

(** [c.lower()] for one character: the letters A-Z, and the capital
    letters U+00C0-U+00DE of Latin-1 but the sign U+00D7, move up by 32;
    every other code point below U+0100 is its own lower case. *)
Definition lower_ascii (c : ascii) : ascii :=
  let n := nat_of_ascii c in
  if ((Nat.leb 65 n && Nat.leb n 90)
      || (Nat.leb 192 n && Nat.leb n 222 && negb (Nat.eqb n 215)))%bool
  then ascii_of_nat (n + 32) else c.

(** [s.lower()] *)
Fixpoint lower (s : string) : string :=
  match s with
  | EmptyString => EmptyString
  | String c r => String (lower_ascii c) (lower r)
  end.

(** [c.isspace()]: U+0009-U+000D, U+001C-U+0020, U+0085 and U+00A0. *)
Definition is_space (c : ascii) : bool :=
  let n := nat_of_ascii c in
  ((Nat.leb 9 n && Nat.leb n 13) || (Nat.leb 28 n && Nat.leb n 32)
   || Nat.eqb n 133 || Nat.eqb n 160)%bool.

(** [s.lstrip()] *)
Fixpoint lstrip (s : string) : string :=
  match s with
  | EmptyString => EmptyString
  | String c r => if is_space c then lstrip r else s
  end.

(** [s.rstrip()] *)
Fixpoint rstrip (s : string) : string :=
  match s with
  | EmptyString => EmptyString
  | String c r =>
      match rstrip r with
      | EmptyString => if is_space c then EmptyString else String c EmptyString
      | r' => String c r'
      end
  end.

(** [s.strip()] *)
Definition strip (s : string) : string := rstrip (lstrip s).

(** [s.split(sep)] for a one-character separator: the segments between
    the separators, never an empty list. [cur] is the segment being read. *)
Fixpoint split_from (sep : ascii) (cur : string) (s : string) : list string :=
  match s with
  | EmptyString => [cur]
  | String c r =>
      if Ascii.eqb c sep then cur :: split_from sep EmptyString r
      else split_from sep (cur +:+ String c EmptyString) r
  end.

Definition split (sep : ascii) (s : string) : list string :=
  split_from sep EmptyString s.

Definition newline : ascii := ascii_of_nat 10.

(** [s.startswith(p)] *)
Fixpoint startswith (p s : string) : bool :=
  match p, s with
  | EmptyString, _ => true
  | String a p', String b s' => Ascii.eqb a b && startswith p' s'
  | String _ _, EmptyString => false
  end.

(** [needle in hay] on strings: substring test (true for an empty needle). *)
Fixpoint contains (needle hay : string) : bool :=
  startswith needle hay ||
  match hay with
  | EmptyString => false
  | String _ r => contains needle r
  end.

(** Truth value of a string: non-empty. *)
Definition truthy (s : string) : bool :=
  match s with EmptyString => false | _ => true end.

(** Truth value of an [Optional[str]]. *)
Definition truthy_opt (o : option string) : bool :=
  match o with Some s => truthy s | None => false end.

(** [x in l] on a list of strings. *)
Definition mem (x : string) (l : list string) : bool :=
  existsb (String.eqb x) l.

(** [[w.strip().lower() for w in s.split('\n') if w.strip()]] *)
Definition clean_lines (s : string) : list string :=
  map (fun w => lower (strip w))
      (List.filter (fun w => truthy (strip w)) (split newline s)).

End Str.

(** ** Records of [app/schemas.py] and [app/models.py] *)

(** A JSON column of [Search] ([allowed_countries], [banned_words],
    [banned_seller_ids]): null, a string or an array of strings. *)
Inductive json :=
| JNull
| JString (s : string)
| JArray (l : list string).

(** Truth value of a JSON column value. *)
Definition json_truthy (j : json) : bool :=
  match j with
  | JNull => false
  | JString s => Str.truthy s
  | JArray l => match l with [] => false | _ => true end
  end.

(** [v if isinstance(v, list) else []] *)
Definition json_list_or_empty (j : json) : list string :=
  match j with JArray l => l | _ => [] end.

(** [schemas.ProductCreate] *)
Record ProductCreate := {
  pc_vinted_id : string;
  pc_title : string;
  pc_description : option string;
  pc_price : Z;
  pc_currency : string;
  pc_brand : option string;
  pc_size : option string;
  pc_condition : option string;
  pc_url : string;
  pc_image_url : option string;
  pc_seller_vinted_id : option string;
  pc_seller_name : option string;
  pc_seller_country : option string
}.

(** [models.Search], the columns the engine reads or writes. *)
Record Search := {
  search_id : Z;
  search_name : string;
  search_query : option string;
  search_vinted_query_string : option string;
  search_allowed_countries : json;
  search_banned_words : json;
  search_banned_seller_ids : json;
  search_is_active : bool;
  search_last_run_at : option Z;
  search_last_success_at : option Z
}.

(** [schemas.SellerCreate]: what [get_seller_info] builds and what
    [model_dump()] enumerates. The float [feedback_reputation] is kept as
    an integer (per ten thousand). *)
Record SellerCreate := {
  sc_vinted_id : string;
  sc_login : string;
  sc_profile_url : option string;
  sc_country_code : option string;
  sc_country_title : option string;
  sc_city : option string;
  sc_item_count : Z;
  sc_total_items_count : Z;
  sc_followers_count : Z;
  sc_following_count : Z;
  sc_positive_feedback_count : Z;
  sc_negative_feedback_count : Z;
  sc_neutral_feedback_count : Z;
  sc_feedback_count : Z;
  sc_feedback_reputation : Z;
  sc_email_verified : bool;
  sc_facebook_verified : bool;
  sc_google_verified : bool;
  sc_is_business : bool;
  sc_is_banned : bool;
  sc_last_logged_on : option Z;
  sc_avg_response_time : option Z;
  sc_photo_url : option string;
  sc_about : option string
}.

(** [models.Seller]. The 24 columns that [SellerCreate] also has are grouped
    in [seller_fields]; the other columns are [id], [ban_date],
    [first_seen_at] and [last_updated_at]. *)
Record Seller := {
  seller_id : Z;
  seller_fields : SellerCreate;
  seller_ban_date : option Z;
  seller_first_seen_at : Z;
  seller_last_updated_at : option Z
}.

(** [models.Product]. The 13 columns that [ProductCreate] also has are
    grouped in [product_fields]. *)
Record Product := {
  product_id : Z;
  product_search_id : Z;
  product_fields : ProductCreate;
  product_seller_id : option Z;
  product_is_available : bool;
  product_is_notified : bool;
  product_is_favorite : bool;
  product_found_at : Z;
  product_notified_at : option Z
}.

(** [models.Notification] *)
Record Notification := {
  notification_product_id : Z;
  notification_channel : string;
  notification_status : string;
  notification_error_message : option string
}.

(** [models.ScrapingLog] ([duration_ms] left out). *)
Record ScrapingLog := {
  slog_id : Z;
  slog_search_id : Z;
  slog_started_at : Z;
  slog_finished_at : option Z;
  slog_status : string;
  slog_products_found : Z;
  slog_error_message : option string;
  slog_products_filtered : Z;
  slog_products_notified : Z;
  slog_sellers_new : Z;
  slog_sellers_updated : Z
}.

(** [models.SchedulerLog] ([job_id] and [job_name] are functions of
    [search_id]; they and [duration_ms] are left out). *)
Record SchedulerLog := {
  jlog_id : Z;
  jlog_search_id : option Z;
  jlog_job_type : string;
  jlog_started_at : Z;
  jlog_finished_at : option Z;
  jlog_status : string;
  jlog_products_found : Z;
  jlog_products_new : Z;
  jlog_products_filtered : Z;
  jlog_products_notified : Z;
  jlog_error_message : option string;
  jlog_error_count : Z
}.

(** [models.Settings], the columns the engine reads. [default_headers] is a
    JSON column: [None] stands for NULL and for a value that is not an
    object, [Some] carries the entries of an object in their order (the keys
    are distinct and the values are strings). *)
Record Settings := {
  webhook_url : option string;
  telegram_bot_token : option string;
  telegram_chat_id : option string;
  discord_webhook_url : option string;
  user_agent : string;
  user_agent_list : option string;
  user_agent_rotation : bool;
  default_headers : option (list (string * string));
  max_products_per_search : Z;
  proxies_enabled : bool;
  proxy_list : option string;
  proxy_rotation : bool;
  global_banned_words : option string;
  global_min_price : Z;
  global_banned_sellers : option string;
  scheduler_error_notifications_enabled : bool;
  scheduler_error_threshold : Z
}.

Definition default_user_agent : string :=
  "Mozilla/5.0 (Windows NT 10.0; Win64; x64) AppleWebKit/537.36 (KHTML, like Gecko) Chrome/120.0.0.0 Safari/537.36".

(** [Settings(id=1)]: a row with the column defaults. *)
Definition default_settings : Settings := {|
  webhook_url := None;
  telegram_bot_token := None;
  telegram_chat_id := None;
  discord_webhook_url := None;
  user_agent := default_user_agent;
  user_agent_list := None;
  user_agent_rotation := true;
  default_headers := None;
  max_products_per_search := 100;
  proxies_enabled := false;
  proxy_list := None;
  proxy_rotation := true;
  global_banned_words := None;
  global_min_price := 0;
  global_banned_sellers := None;
  scheduler_error_notifications_enabled := true;
  scheduler_error_threshold := 3
|}.

(** The tables of the store. [settings] is the singleton row. *)
Record database := {
  settings : option Settings;
  searches : list Search;
  products : list Product;
  sellers : list Seller;
  notifications : list Notification;
  scraping_logs : list ScrapingLog;
  scheduler_logs : list SchedulerLog
}.

(** ** [app/utils/filter_manager.py] *)

Module Filter.

(** The cached configuration of a [FilterManager]. *)
Record FilterManager := {
  _global_banned_words : list string;
  _global_banned_sellers : list string;
  _global_min_price : Z
}.

(** [FilterManager._load_config]: without a settings row there are no
    filters. *)
Definition _load_config (d : database) : FilterManager :=
  match settings d with
  | None =>
      {| _global_banned_words := []; _global_banned_sellers := [];
         _global_min_price := 0 |}
  | Some st =>
      {| _global_banned_words :=
           match global_banned_words st with
           | Some s => if Str.truthy s then Str.clean_lines s else []
           | None => []
           end;
         _global_banned_sellers :=
           match global_banned_sellers st with
           | Some s => if Str.truthy s then Str.clean_lines s else []
           | None => []
           end;
         _global_min_price := global_min_price st |}
  end.

(** The rejection message of [filter_product]; each constructor stands for
    one f-string of the source and carries the values it interpolates. *)
Inductive reason :=
| PriceBelowGlobalMin (price minimum : Z)     (* Precio {p} < minimo global {m} *)
| GlobalBannedWord (word : string)            (* Palabra prohibida: '{w}' *)
| GlobalBannedSeller (name : option string)   (* Vendedor bloqueado: '{n}' *)
| SearchBannedWord (word : string)            (* Palabra prohibida (busqueda): '{w}' *)
| SearchBannedSeller (name : option string)   (* Vendedor bloqueado (busqueda): '{n}' *)
| CountryNotAllowed (country : option string) (* Pais no permitido: '{c}' *).

#[global] Instance reason_eq_dec : EqDecision reason.
Proof. solve_decision. Defined.

(** [f"{product.title} {product.description or ''}".lower()] *)
Definition text_to_check (product : ProductCreate) : string :=
  Str.lower (pc_title product +:+ " " +:+
             match pc_description product with
             | Some d => if Str.truthy d then d else ""
             | None => ""
             end).

(** The word list of filter 4: a string is split into cleaned lines, a list
    is used as it is. *)
Definition search_banned_words_list (j : json) : list string :=
  match j with
  | JString s => Str.clean_lines s
  | JArray l => l
  | JNull => []
  end.

(** [FilterManager.filter_product] *)
Definition filter_product (self : FilterManager) (product : ProductCreate)
    (search : option Search) : bool * option reason :=
  (* Filtro 1: Precio minimo global *)
  if (0 <? _global_min_price self) && (pc_price product <? _global_min_price self)
  then (false, Some (PriceBelowGlobalMin (pc_price product) (_global_min_price self)))
  else
  (* Filtro 2: Palabras prohibidas globales *)
  match
    match _global_banned_words self with
    | [] => None
    | words => find (fun banned_word => Str.contains banned_word (text_to_check product)) words
    end
  with
  | Some banned_word => (false, Some (GlobalBannedWord banned_word))
  | None =>
  (* Filtro 3: Vendedores bloqueados globales *)
  match
    match _global_banned_sellers self with
    | [] => None
    | sellers =>
        if Str.truthy_opt (pc_seller_name product) then
          let seller_name_lower := Str.lower (default "" (pc_seller_name product)) in
          let seller_id_lower :=
            if Str.truthy_opt (pc_seller_vinted_id product)
            then Str.lower (default "" (pc_seller_vinted_id product)) else "" in
          find (fun banned_seller =>
                  Str.contains banned_seller seller_name_lower
                  || String.eqb banned_seller seller_id_lower) sellers
        else None
    end
  with
  | Some _ => (false, Some (GlobalBannedSeller (pc_seller_name product)))
  | None =>
  match search with
  | None => (true, None)
  | Some search =>
  (* Filtro 4: Palabras prohibidas de la busqueda *)
  match
    if json_truthy (search_banned_words search) then
      find (fun banned_word => Str.contains banned_word (text_to_check product))
           (search_banned_words_list (search_banned_words search))
    else None
  with
  | Some banned_word => (false, Some (SearchBannedWord banned_word))
  | None =>
  (* Filtro 5: Vendedores bloqueados de la busqueda *)
  if json_truthy (search_banned_seller_ids search)
     && Str.truthy_opt (pc_seller_vinted_id product)
     && Str.mem (default "" (pc_seller_vinted_id product))
                (json_list_or_empty (search_banned_seller_ids search))
  then (false, Some (SearchBannedSeller (pc_seller_name product)))
  else
  (* Filtro 6: Paises permitidos *)
  if json_truthy (search_allowed_countries search)
     && Str.truthy_opt (pc_seller_country product)
     && (match json_list_or_empty (search_allowed_countries search) with
         | [] => false
         | countries_list =>
             negb (Str.mem (default "" (pc_seller_country product)) countries_list)
         end)
  then (false, Some (CountryNotAllowed (pc_seller_country product)))
  else (true, None)
  end end end end.

(** Whether [filter_product] lets the item through. *)
Definition passes (self : FilterManager) (search : option Search)
    (product : ProductCreate) : bool :=
  fst (filter_product self product search).

(** The [stats] dictionary of [filter_products]; [rejection_reasons] keeps
    the insertion order of the Python dict. *)
Record stats := {
  total : Z;
  accepted : Z;
  rejected : Z;
  rejection_reasons : list (option reason * Z)
}.

(** [d[k] = d.get(k, 0) + 1] on an insertion-ordered dict. *)
Fixpoint bump (k : option reason) (d : list (option reason * Z)) : list (option reason * Z) :=
  match d with
  | [] => [(k, 1)]
  | (k', n) :: r => if decide (k' = k) then (k', n + 1) :: r else (k', n) :: bump k r
  end.

(** The loop state of [filter_products]: [filtered], [rejected] and
    [rejection_reasons]. *)
Definition loop_state : Type :=
  list ProductCreate * list ProductCreate * list (option reason * Z).

(** One iteration of the loop of [filter_products]. *)
Definition filter_step (self : FilterManager) (search : option Search)
    (st : loop_state) (product : ProductCreate) : loop_state :=
  let '(filtered, rejected_l, reasons) := st in
  let '(passes, why) := filter_product self product search in
  if passes then (filtered ++ [product], rejected_l, reasons)
  else (filtered, rejected_l ++ [product], bump why reasons).

(** [FilterManager.filter_products] *)
Definition filter_products (self : FilterManager) (products : list ProductCreate)
    (search : option Search) : list ProductCreate * stats :=
  let '(filtered, rejected_l, reasons) :=
    fold_left (filter_step self search) products ([], [], []) in
  (filtered,
   {| total := Z.of_nat (length products);
      accepted := Z.of_nat (length filtered);
      rejected := Z.of_nat (length rejected_l);
      rejection_reasons := reasons |}).

(** *** The rule chain of the specification

    The six rules as the specification words them, each returning the
    rejection it produces (if any), and their evaluation in order with a
    stop at the first rejection. They are written from the columns of the
    item and of the search, not from the parts of [filter_product]. *)

Definition rule := FilterManager -> option Search -> ProductCreate -> option reason.

(** The normalized text of an item: its title and its description, a space
    between them and an absent description counting as empty, in lower
    case. *)
Definition normalized_text (p : ProductCreate) : string :=
  Str.lower (pc_title p +:+ " " +:+ default "" (pc_description p)).

(** The first word of a list that the normalized text of the item
    contains. *)
Definition first_banned_word (words : list string) (p : ProductCreate) : option string :=
  find (fun w => Str.contains w (normalized_text p)) words.

(** A column of the item that is set and not empty. *)
Definition present (column : option string) : option string :=
  match column with
  | Some v => if Str.truthy v then Some v else None
  | None => None
  end.

(** 1. Global minimum price: the item costs less than a floor above 0. *)
Definition rule_global_min_price : rule := fun fm _ p =>
  if (0 <? _global_min_price fm) && (pc_price p <? _global_min_price fm)
  then Some (PriceBelowGlobalMin (pc_price p) (_global_min_price fm)) else None.

(** 2. Global banned words on the normalized text. *)
Definition rule_global_banned_words : rule := fun fm _ p =>
  GlobalBannedWord <$> first_banned_word (_global_banned_words fm) p.

(** 3, as the specification words it: a global banned seller matches the
    display name of the seller (it is contained in the name in lower case)
    or the external id (it equals the id in lower case). *)
Definition spec_rule_global_banned_sellers : rule := fun fm _ p =>
  if existsb
       (fun banned =>
          match present (pc_seller_name p) with
          | Some name => Str.contains banned (Str.lower name)
          | None => false
          end
          || match present (pc_seller_vinted_id p) with
             | Some id => String.eqb banned (Str.lower id)
             | None => false
             end)
       (_global_banned_sellers fm)
  then Some (GlobalBannedSeller (pc_seller_name p)) else None.

(** 3, amended: the rule applies only to an item that has a display name;
    then a global banned seller matches the name (it is contained in the
    name in lower case) or the external id (it equals the id in lower case,
    an absent id counting as empty). *)
Definition rule_global_banned_sellers : rule := fun fm _ p =>
  match present (pc_seller_name p) with
  | Some name =>
      if existsb
           (fun banned =>
              Str.contains banned (Str.lower name)
              || String.eqb banned
                   (match present (pc_seller_vinted_id p) with
                    | Some id => Str.lower id
                    | None => ""
                    end))
           (_global_banned_sellers fm)
      then Some (GlobalBannedSeller (pc_seller_name p)) else None
  | None => None
  end.

(** The banned words of a search: the entries of a list, or the lines of a
    text, stripped, in lower case and without the blank ones. *)
Definition banned_words_of (s : Search) : list string :=
  match search_banned_words s with
  | JArray entries => entries
  | JString text =>
      map (fun line => Str.lower (Str.strip line))
          (List.filter (fun line => negb (String.eqb (Str.strip line) ""))
                       (Str.split Str.newline text))
  | JNull => []
  end.

(** 4. Per-search banned words on the normalized text. *)
Definition rule_search_banned_words : rule := fun _ s p =>
  match s with
  | Some s => SearchBannedWord <$> first_banned_word (banned_words_of s) p
  | None => None
  end.

(** 5. Per-search banned seller identifiers. *)
Definition rule_search_banned_sellers : rule := fun _ s p =>
  match s, present (pc_seller_vinted_id p) with
  | Some s, Some id =>
      match search_banned_seller_ids s with
      | JArray banned =>
          if existsb (String.eqb id) banned
          then Some (SearchBannedSeller (pc_seller_name p)) else None
      | _ => None
      end
  | _, _ => None
  end.

(** 6. Per-search allowed-country whitelist, enforced only when both the
    list and the seller country of the item are present. *)
Definition rule_search_allowed_countries : rule := fun _ s p =>
  match s, present (pc_seller_country p) with
  | Some s, Some country =>
      match search_allowed_countries s with
      | JArray (c :: l) =>
          if existsb (String.eqb country) (c :: l) then None
          else Some (CountryNotAllowed (pc_seller_country p))
      | _ => None
      end
  | _, _ => None
  end.

(** The chain as the specification words it, and the amended chain. *)
Definition spec_six_rules : list rule :=
  [ rule_global_min_price; rule_global_banned_words; spec_rule_global_banned_sellers;
    rule_search_banned_words; rule_search_banned_sellers;
    rule_search_allowed_countries ].

Definition six_rules : list rule :=
  [ rule_global_min_price; rule_global_banned_words; rule_global_banned_sellers;
    rule_search_banned_words; rule_search_banned_sellers;
    rule_search_allowed_countries ].

(** The rejection of the first rule that fails, in list order. *)
Fixpoint first_rejection (rules : list rule) (fm : FilterManager)
    (s : option Search) (p : ProductCreate) : option reason :=
  match rules with
  | [] => None
  | r :: rest =>
      match r fm s p with
      | Some why => Some why
      | None => first_rejection rest fm s p
      end
  end.

(** The verdict of a chain of rules: rejected with the reason of the first
    rule that fails, accepted with no reason when none does. *)
Definition verdict (rules : list rule) (fm : FilterManager) (p : ProductCreate)
    (s : option Search) : bool * option reason :=
  match first_rejection rules fm s p with
  | Some why => (false, Some why)
  | None => (true, None)
  end.

(** [evaluate(item, searchContext) -> FilterVerdict] of the specification,
    and its amended form. *)
Definition spec_evaluate : FilterManager -> ProductCreate -> option Search
    -> bool * option reason := verdict spec_six_rules.

Definition evaluate : FilterManager -> ProductCreate -> option Search
    -> bool * option reason := verdict six_rules.

End Filter.

(** ** Effects: exceptions, the outside world and the program state *)

(** The exceptions the engine raises or catches. *)
Inductive exn :=
| ValueError (msg : string)
| HTTPError (msg : string)
| ConnectionError (msg : string)
| JSONDecodeError (msg : string)
| IntegrityError (msg : string)
| AttributeError (msg : string)
| OverflowError (msg : string).

(** [str(e)] *)
Definition str (e : exn) : string :=
  match e with
  | ValueError m | HTTPError m | ConnectionError m
  | JSONDecodeError m | IntegrityError m | AttributeError m | OverflowError m => m
  end.

(** A logical HTTP request of the client. *)
Inductive request :=
| CatalogByQueryString (query_string : string)
| CatalogByParams (search_text : string)
| SellerProfile (seller_id : option string).

#[global] Instance request_eq_dec : EqDecision request.
Proof. solve_decision. Defined.

(** The JSON document of a response: the catalog entries under ["items"]
    ([None] for an entry that [ProductCreate] refuses) and the seller under
    ["user"] ([None] when the key is missing, empty or unmappable). *)
Record document := {
  items : list (option ProductCreate);
  user : option SellerCreate
}.

(** [requests.Response]; [json_body] is [None] when [response.json()]
    raises. *)
Record response := {
  status_code : Z;
  json_body : option document
}.

(** What one [session.get] does: it returns a response or raises. *)
Inductive attempt :=
| Responded (r : response)
| Failed (e : exn).

(** The notification channels and their names in the result map. *)
Inductive channel := Telegram | Discord | Webhook.

#[global] Instance channel_eq_dec : EqDecision channel.
Proof. solve_decision. Defined.

Definition channel_name (c : channel) : string :=
  match c with
  | Telegram => "telegram"
  | Discord => "discord"
  | Webhook => "webhook"
  end.

(** What a notifier call does: it reports success or failure, or raises. *)
Inductive send_outcome :=
| Sent (ok : bool)
| SendRaised (e : exn).

(** The answers of the outside world during one run: the clock, the remote
    catalog (per request and attempt number) and the notification services
    (per channel and product id), and the webhooks that receive a text
    alert by [requests.post]. *)
Record env := {
  utcnow : Z;
  http : request -> nat -> attempt;
  send_product_notification : channel -> Z -> send_outcome;
  post_alert : channel -> send_outcome
}.

(** Observable calls, most recent first. *)
Inductive event :=
| HttpGet (r : request) (tried : nat)
| CookieRefresh
| ProductSend (c : channel) (product : Z)
| AlertAttempt (search : Z) (error_count : Z)
| AlertSend (c : channel) (search : Z).

#[global] Instance event_eq_dec : EqDecision event.
Proof. solve_decision. Defined.

(** [ScraperConfig] together with the [requests.Session] of the
    [VintedRequester] that owns it. *)
Record requester_state := {
  _settings : Settings;
  _user_agents : list string;
  _proxies : list string;
  _user_agent_index : nat;
  _proxy_index : nat;
  session_user_agent : string;
  session_proxy : option string
}.

(** The state of the process: the store, the requester of the run in
    progress, the scheduled search jobs and the consecutive-error counters
    of the [TaskManager], and the calls made so far. *)
Record world := {
  db : database;
  requester : requester_state;
  jobs : gset Z;
  _error_counts : gmap Z Z;
  trace : list event
}.

(** The result of a computation: a value or a raised exception. *)
Inductive result (A : Type) :=
| Return (a : A)
| Raise (e : exn).
Arguments Return {A} a.
Arguments Raise {A} e.

(** A computation on the state that may raise; the state changes made
    before a raise stay. *)
Definition M (A : Type) : Type := world -> result A * world.

Definition ret {A} (a : A) : M A := fun w => (Return a, w).

Definition bind {A B} (m : M A) (k : A -> M B) : M B :=
  fun w => match m w with
           | (Return a, w') => k a w'
           | (Raise e, w') => (Raise e, w')
           end.

Definition raise {A} (e : exn) : M A := fun w => (Raise e, w).

(** [try: m  except Exception as e: h e] *)
Definition try_except {A} (m : M A) (h : exn -> M A) : M A :=
  fun w => match m w with
           | (Return a, w') => (Return a, w')
           | (Raise e, w') => h e w'
           end.

Definition get_world : M world := fun w => (Return w, w).

Definition modify (f : world -> world) : M unit := fun w => (Return tt, f w).

Notation "x <- m ;; k" := (bind m (fun x => k))
  (at level 100, m at next level, right associativity).
Notation "m ;;; k" := (bind m (fun _ => k))
  (at level 100, right associativity).

(** [for x in l: body x] *)
Fixpoint for_each {X} (l : list X) (body : X -> M unit) : M unit :=
  match l with
  | [] => ret tt
  | x :: r => body x ;;; for_each r body
  end.

Definition set_db (d : database) (w : world) : world :=
  {| db := d; requester := requester w; jobs := jobs w;
     _error_counts := _error_counts w; trace := trace w |}.

Definition set_requester (r : requester_state) (w : world) : world :=
  {| db := db w; requester := r; jobs := jobs w;
     _error_counts := _error_counts w; trace := trace w |}.

Definition set_jobs (j : gset Z) (w : world) : world :=
  {| db := db w; requester := requester w; jobs := j;
     _error_counts := _error_counts w; trace := trace w |}.

Definition set_error_counts (c : gmap Z Z) (w : world) : world :=
  {| db := db w; requester := requester w; jobs := jobs w;
     _error_counts := c; trace := trace w |}.

Definition emit (e : event) : M unit :=
  modify (fun w => {| db := db w; requester := requester w; jobs := jobs w;
                      _error_counts := _error_counts w; trace := e :: trace w |}).

Definition update_db (f : database -> database) : M unit :=
  modify (fun w => set_db (f (db w)) w).

Definition read_db : M database := fun w => (Return (db w), w).

(** ** [app/utils/scraper_config.py] and [app/scraper/vinted_client.py] *)

Module Client.

(** [[x.strip() for x in s.split('\n') if x.strip()]] *)
Definition stripped_lines (s : string) : list string :=
  map Str.strip (List.filter (fun x => Str.truthy (Str.strip x)) (Str.split Str.newline s)).

(** [ScraperConfig._parse_user_agents], from an empty list. *)
Definition _parse_user_agents (st : Settings) : list string :=
  let from_list :=
    match user_agent_list st with
    | Some ua_list => if Str.truthy ua_list then stripped_lines ua_list else []
    | None => []
    end in
  let with_old :=
    match from_list with
    | [] => if Str.truthy (user_agent st) then [user_agent st] else []
    | _ => from_list
    end in
  match with_old with
  | [] => [default_user_agent]
  | _ => with_old
  end.

(** [ScraperConfig._parse_proxies] *)
Definition _parse_proxies (st : Settings) : list string :=
  if negb (proxies_enabled st) then []
  else match proxy_list st with
       | Some l => if Str.truthy l then stripped_lines l else []
       | None => []
       end.

Definition set_user_agent_index (i : nat) (c : requester_state) : requester_state :=
  {| _settings := _settings c; _user_agents := _user_agents c; _proxies := _proxies c;
     _user_agent_index := i; _proxy_index := _proxy_index c;
     session_user_agent := session_user_agent c; session_proxy := session_proxy c |}.

Definition set_proxy_index (i : nat) (c : requester_state) : requester_state :=
  {| _settings := _settings c; _user_agents := _user_agents c; _proxies := _proxies c;
     _user_agent_index := _user_agent_index c; _proxy_index := i;
     session_user_agent := session_user_agent c; session_proxy := session_proxy c |}.

Definition set_session_user_agent (ua : string) (c : requester_state) : requester_state :=
  {| _settings := _settings c; _user_agents := _user_agents c; _proxies := _proxies c;
     _user_agent_index := _user_agent_index c; _proxy_index := _proxy_index c;
     session_user_agent := ua; session_proxy := session_proxy c |}.

Definition set_session_proxy (p : option string) (c : requester_state) : requester_state :=
  {| _settings := _settings c; _user_agents := _user_agents c; _proxies := _proxies c;
     _user_agent_index := _user_agent_index c; _proxy_index := _proxy_index c;
     session_user_agent := session_user_agent c; session_proxy := p |}.

(** [ScraperConfig.get_user_agent] *)
Definition get_user_agent (c : requester_state) : string * requester_state :=
  match _user_agents c with
  | [] => ("Mozilla/5.0 (Windows NT 10.0; Win64; x64) AppleWebKit/537.36", c)
  | first :: rest =>
      if negb (user_agent_rotation (_settings c)) then (first, c)
      else match rest with
           | [] => (first, c)
           | _ =>
               (nth (_user_agent_index c) (_user_agents c) first,
                set_user_agent_index
                  (Nat.modulo (_user_agent_index c + 1) (length (_user_agents c))) c)
           end
  end.

(** [ScraperConfig.get_proxy] *)
Definition get_proxy (c : requester_state) : option string * requester_state :=
  if negb (proxies_enabled (_settings c)) then (None, c)
  else match _proxies c with
       | [] => (None, c)
       | first :: _ =>
           if negb (proxy_rotation (_settings c)) then (Some first, c)
           else (Some (nth (_proxy_index c) (_proxies c) first),
                 set_proxy_index
                   (Nat.modulo (_proxy_index c + 1) (length (_proxies c))) c)
       end.

(** [ScraperConfig.get_max_products] *)
Definition get_max_products (c : requester_state) : Z :=
  max_products_per_search (_settings c).

(** The User-Agent that the session sends after
    [session.headers.update(headers)], for the [headers] that
    [ScraperConfig.get_headers] builds from the User-Agent [ua] and the
    additional headers: the dictionary starts with the key ["User-Agent"],
    [headers.update(additional_headers)] replaces its value when that very
    key is among the additional ones and appends their other keys in order,
    and the headers of a session keep, of the keys equal up to case, the
    value of the last one. *)
Definition merged_user_agent (ua : string) (additional_headers : list (string * string))
    : string :=
  let base :=
    match find (fun kv => String.eqb (fst kv) "User-Agent") additional_headers with
    | Some kv => snd kv
    | None => ua
    end in
  fold_left
    (fun current kv =>
       if String.eqb (Str.lower (fst kv)) "user-agent"
          && negb (String.eqb (fst kv) "User-Agent")
       then snd kv else current)
    additional_headers base.

(** The User-Agent among the headers of [ScraperConfig.get_headers], with
    the configuration after the call: the next User-Agent of the rotation,
    unless the additional headers of the settings replace it. *)
Definition get_headers (c : requester_state) : string * requester_state :=
  let '(ua, c) := get_user_agent c in
  (match default_headers (_settings c) with
   | Some additional_headers => merged_user_agent ua additional_headers
   | None => ua
   end, c).

(** The state after [VintedRequester._update_headers]: the session takes the
    User-Agent of the headers of the configuration. *)
Definition headers_updated (w : world) : world :=
  let '(ua, c) := get_headers (requester w) in
  set_requester (set_session_user_agent ua c) w.

(** [VintedRequester._update_headers] *)
Definition _update_headers : M unit := modify headers_updated.

(** The state after [VintedRequester._configure_proxy]. *)
Definition proxy_configured (w : world) : world :=
  let '(p, c) := get_proxy (requester w) in
  set_requester (set_session_proxy p c) w.

(** [VintedRequester._configure_proxy] *)
Definition _configure_proxy : M unit := modify proxy_configured.

(** [VintedRequester._refresh_cookies]: a HEAD request whose failure is
    swallowed. *)
Definition _refresh_cookies : M unit := emit CookieRefresh.

(** [ScraperConfig(db)] followed by [VintedRequester(config)]: the
    configuration is loaded from the settings row, which is created with
    its defaults when it is missing; the new session takes its first
    headers. *)
Definition new_requester : M unit :=
  d <- read_db ;;
  st <- match settings d with
        | Some st => ret st
        | None =>
            update_db (fun d => {| settings := Some default_settings;
                                   searches := searches d; products := products d;
                                   sellers := sellers d; notifications := notifications d;
                                   scraping_logs := scraping_logs d;
                                   scheduler_logs := scheduler_logs d |}) ;;;
            ret default_settings
        end ;;
  modify (set_requester
            {| _settings := st;
               _user_agents := _parse_user_agents st;
               _proxies := _parse_proxies st;
               _user_agent_index := 0%nat;
               _proxy_index := 0%nat;
               session_user_agent := "";
               session_proxy := None |}) ;;;
  _update_headers.

Definition MAX_RETRIES : nat := 3.

(** A soft block: [status_code in (401, 403, 404)]. *)
Definition soft_block (status : Z) : bool :=
  (status =? 401) || (status =? 403) || (status =? 404).

(** The [while tried < MAX_RETRIES] loop of [VintedRequester.get].
    [remaining] is [MAX_RETRIES - tried]; an iteration yields [Some] for a
    [return] and [None] to go round again. The [raise] after the loop is
    the case [remaining = 0]. *)
Fixpoint get_loop (e : env) (url : request) (remaining tried : nat) : M response :=
  match remaining with
  | O =>
      raise (HTTPError "Failed to get valid response after 3 attempts")
  | S remaining' =>
      let tried := S tried in
      r <- try_except
             (emit (HttpGet url tried) ;;;
              match http e url tried with
              | Failed ex => raise ex
              | Responded response =>
                  if soft_block (status_code response) && Nat.ltb tried MAX_RETRIES then
                    _update_headers ;;; _refresh_cookies ;;; ret None
                  else if status_code response =? 200 then ret (Some response)
                  else if Nat.eqb tried MAX_RETRIES then ret (Some response)
                  else ret None
              end)
             (fun ex =>
                if Nat.ltb tried MAX_RETRIES then
                  _update_headers ;;; _configure_proxy ;;; ret None
                else if Nat.eqb tried MAX_RETRIES then
                  raise (HTTPError ("Failed after 3 attempts: " +:+ str ex))
                else ret None) ;;
      match r with
      | Some response => ret response
      | None => get_loop e url remaining' tried
      end
  end.

(** [VintedRequester.get] *)
Definition get (e : env) (url : request) : M response :=
  _configure_proxy ;;;
  get_loop e url MAX_RETRIES 0.

(** [VintedRequester.scrape_catalog]: entries that [ProductCreate] refuses
    are skipped; a status other than 200 gives the empty list. *)
Definition scrape_catalog (e : env) (url : request) : M (list ProductCreate) :=
  response <- get e url ;;
  if status_code response =? 200 then
    match json_body response with
    | None => raise (JSONDecodeError "Expecting value")
    | Some data => ret (omap id (items data))
    end
  else ret [].

(** [VintedRequester.get_seller_info] *)
Definition get_seller_info (e : env) (seller_id : option string) : M (option SellerCreate) :=
  response <- get e (SellerProfile seller_id) ;;
  if status_code response =? 200 then
    match json_body response with
    | None => raise (JSONDecodeError "Expecting value")
    | Some data => ret (user data)
    end
  else ret None.

(** The attempt numbers of the [session.get] calls made for [url], most
    recent first. *)
Definition attempts_of (url : request) (tr : list event) : list nat :=
  omap (fun ev => match ev with
                  | HttpGet r n => if decide (r = url) then Some n else None
                  | _ => None
                  end) tr.

(** An attempt that ends with an HTTP 200 response. *)
Definition is_200 (a : attempt) : bool :=
  match a with
  | Responded r => status_code r =? 200
  | Failed _ => false
  end.

(** What the retry loop, entered with [tried] attempts behind it, has done
    when it ends in [out]: it made the attempts [tried+1 .. n] in order,
    none before the last ended with HTTP 200, the store is untouched, and
    [out] is the outcome of attempt [n]. *)
Definition loop_post (e : env) (url : request) (tried : nat) (w : world)
    (out : result response * world) : Prop :=
  exists n : nat,
    (tried < n <= 3)%nat /\
    attempts_of url (trace (snd out))
      = rev (seq (S tried) (n - tried)) ++ attempts_of url (trace w) /\
    db (snd out) = db w /\
    forallb (fun k => negb (is_200 (http e url k))) (seq (S tried) (n - tried - 1)) = true /\
    match fst out with
    | Return resp =>
        http e url n = Responded resp /\ (status_code resp = 200 \/ n = 3%nat)
    | Raise ex =>
        n = 3%nat /\
        exists err, http e url 3 = Failed err /\
                    ex = HTTPError ("Failed after 3 attempts: " +:+ str err)
    end.

End Client.

(** ** [app/notifications/notification_manager.py] *)

Module Notify.

(** The notifiers of a [NotificationManager]: which channels are set. *)
Record NotificationManager := {
  _telegram : bool;
  _discord : bool;
  _webhook : bool
}.

(** [NotificationManager._load_config] and [_init_notifiers] *)
Definition _load_config (d : database) : NotificationManager :=
  match settings d with
  | None => {| _telegram := false; _discord := false; _webhook := false |}
  | Some st =>
      {| _telegram := Str.truthy_opt (telegram_bot_token st)
                      && Str.truthy_opt (telegram_chat_id st);
         _discord := Str.truthy_opt (discord_webhook_url st);
         _webhook := Str.truthy_opt (webhook_url st) |}
  end.

(** [NotificationManager(db)] *)
Definition new_manager : M NotificationManager :=
  d <- read_db ;; ret (_load_config d).

(** [NotificationManager.get_stats()['any_active']] *)
Definition any_active (nm : NotificationManager) : bool :=
  _telegram nm || _discord nm || _webhook nm.

(** [NotificationManager._log_notification] *)
Definition _log_notification (product : Z) (chan status : string)
    (error : option string) : M unit :=
  update_db (fun d =>
    {| settings := settings d; searches := searches d; products := products d;
       sellers := sellers d;
       notifications := notifications d ++
         [{| notification_product_id := product; notification_channel := chan;
             notification_status := status; notification_error_message := error |}];
       scraping_logs := scraping_logs d; scheduler_logs := scheduler_logs d |}).

(** [any(results.values())] *)
Definition any_values (results : gmap string bool) : bool :=
  existsb snd (map_to_list results).

(** [product.is_notified = True; product.notified_at = utcnow()] *)
Definition mark_notified (now : Z) (p : Product) : Product :=
  {| product_id := product_id p; product_search_id := product_search_id p;
     product_fields := product_fields p; product_seller_id := product_seller_id p;
     product_is_available := product_is_available p;
     product_is_notified := true;
     product_is_favorite := product_is_favorite p;
     product_found_at := product_found_at p;
     product_notified_at := Some now |}.

Definition set_products (ps : list Product) (d : database) : database :=
  {| settings := settings d; searches := searches d; products := ps;
     sellers := sellers d; notifications := notifications d;
     scraping_logs := scraping_logs d; scheduler_logs := scheduler_logs d |}.

(** Whether the notifier of a channel is set. *)
Definition configured (self : NotificationManager) (c : channel) : bool :=
  match c with
  | Telegram => _telegram self
  | Discord => _discord self
  | Webhook => _webhook self
  end.

(** Whether the notifier of a channel reports success for a product. *)
Definition reports_success (e : env) (c : channel) (product : Z) : bool :=
  match send_product_notification e c product with
  | Sent ok => ok
  | SendRaised _ => false
  end.

(** The channels the sends of a product went to, most recent first. *)
Definition sends_of (product : Z) (tr : list event) : list channel :=
  omap (fun ev => match ev with
                  | ProductSend c p => if p =? product then Some c else None
                  | _ => None
                  end) tr.

(** The channels in the order [notify_product] goes through them. *)
Definition all_channels : list channel := [Telegram; Discord; Webhook].

(** The entry a channel block leaves in the result map. *)
Definition recorded (e : env) (self : NotificationManager) (product : Z)
    (c : channel) (results : gmap string bool) : gmap string bool :=
  if configured self c then <[channel_name c := reports_success e c product]> results
  else results.

(** One of the three channel blocks of [notify_product] (they differ only
    in the notifier and its name): nothing when the notifier is not set;
    otherwise the send, its record in the result map and in the
    notification table, with an exception turned into a failure. *)
Definition channel_block (e : env) (notifier : bool) (c : channel) (product : Z)
    (results : gmap string bool) : M (gmap string bool) :=
  if notifier then
    try_except
      (emit (ProductSend c product) ;;;
       match send_product_notification e c product with
       | SendRaised ex => raise ex
       | Sent success =>
           _log_notification product (channel_name c)
             (if success then "sent" else "failed") None ;;;
           ret (<[channel_name c := success]> results)
       end)
      (fun ex =>
         _log_notification product (channel_name c) "failed" (Some (str ex)) ;;;
         ret (<[channel_name c := false]> results))
  else ret results.

(** [NotificationManager.notify_product] *)
Definition notify_product (e : env) (self : NotificationManager) (product : Z)
    : M (gmap string bool) :=
  results <- channel_block e (_telegram self) Telegram product ∅ ;;
  results <- channel_block e (_discord self) Discord product results ;;
  results <- channel_block e (_webhook self) Webhook product results ;;
  (if any_values results then
     update_db (fun d =>
       set_products
         (map (fun p => if product_id p =? product then mark_notified (utcnow e) p else p)
              (products d)) d)
   else ret tt) ;;;
  ret results.

(** The statistics of [notify_products]. *)
Record send_stats := {
  send_total : Z;
  send_success : Z;
  send_failed : Z
}.

(** The loop of [notify_products], with its two counters. *)
Fixpoint notify_loop (e : env) (self : NotificationManager) (ps : list Z)
    (success failed : Z) : M (Z * Z) :=
  match ps with
  | [] => ret (success, failed)
  | product :: rest =>
      results <- notify_product e self product ;;
      if any_values results
      then notify_loop e self rest (success + 1) failed
      else notify_loop e self rest success (failed + 1)
  end.

(** [NotificationManager.notify_products] *)
Definition notify_products (e : env) (self : NotificationManager) (ps : list Z)
    : M send_stats :=
  counts <- notify_loop e self ps 0 0 ;;
  ret {| send_total := Z.of_nat (length ps);
         send_success := fst counts; send_failed := snd counts |}.

End Notify.

(** ** [app/scraper/main_scraper.py] *)

Module Scraper.

(** The dictionary that [scrape_and_save] returns ([duration_ms] left
    out); [error] is the key that only [_build_error_result] sets. *)
Record run_result := {
  products_found : Z;
  products_new : Z;
  products_filtered : Z;
  products_notified : Z;
  sellers_new : Z;
  sellers_updated : Z;
  error : option string
}.

(** [VintedScraper._build_empty_result] *)
Definition _build_empty_result : run_result :=
  {| products_found := 0; products_new := 0; products_filtered := 0;
     products_notified := 0; sellers_new := 0; sellers_updated := 0;
     error := None |}.

(** [VintedScraper._build_error_result] *)
Definition _build_error_result (err : string) : run_result :=
  {| products_found := 0; products_new := 0; products_filtered := 0;
     products_notified := 0; sellers_new := 0; sellers_updated := 0;
     error := Some err |}.

(** The next value of an auto-incremented primary key. *)
Definition next_id {A} (key : A -> Z) (rows : list A) : Z :=
  1 + fold_right Z.max 0 (map key rows).

Definition set_scraping_logs (l : list ScrapingLog) (d : database) : database :=
  {| settings := settings d; searches := searches d; products := products d;
     sellers := sellers d; notifications := notifications d;
     scraping_logs := l; scheduler_logs := scheduler_logs d |}.

Definition set_sellers (l : list Seller) (d : database) : database :=
  {| settings := settings d; searches := searches d; products := products d;
     sellers := l; notifications := notifications d;
     scraping_logs := scraping_logs d; scheduler_logs := scheduler_logs d |}.

(** The [ScrapingLog(...)] of a run in progress, added and committed. *)
Definition open_log (e : env) (search : Search) : M Z :=
  d <- read_db ;;
  let log := next_id slog_id (scraping_logs d) in
  update_db (set_scraping_logs
    (scraping_logs d ++
     [{| slog_id := log; slog_search_id := search_id search;
         slog_started_at := utcnow e; slog_finished_at := None;
         slog_status := "running"; slog_products_found := 0;
         slog_error_message := None; slog_products_filtered := 0;
         slog_products_notified := 0; slog_sellers_new := 0;
         slog_sellers_updated := 0 |}])) ;;;
  ret log.

(** [VintedScraper._finish_log]; [error_message] is written only when it
    is a non-empty string. *)
Definition _finish_log (e : env) (log : Z) (status : string) (found : Z)
    (error_message : option string)
    (filtered notified s_new s_updated : Z) : M unit :=
  update_db (fun d =>
    set_scraping_logs
      (map (fun l =>
              if slog_id l =? log then
                {| slog_id := slog_id l; slog_search_id := slog_search_id l;
                   slog_started_at := slog_started_at l;
                   slog_finished_at := Some (utcnow e);
                   slog_status := status;
                   slog_products_found := found;
                   slog_error_message :=
                     (if Str.truthy_opt error_message then error_message
                      else slog_error_message l);
                   slog_products_filtered := filtered;
                   slog_products_notified := notified;
                   slog_sellers_new := s_new;
                   slog_sellers_updated := s_updated |}
              else l)
           (scraping_logs d)) d).

(** The request that [scrape_and_save] passes to [scrape_catalog]: the
    original query string when the search has one, else its parameters. *)
Definition catalog_request (search : Search) : request :=
  match search_vinted_query_string search with
  | Some qs => if Str.truthy qs then CatalogByQueryString qs
               else CatalogByParams (default "" (search_query search))
  | None => CatalogByParams (default "" (search_query search))
  end.

(** [l[:n]] *)
Definition slice_to {A} (n : Z) (l : list A) : list A :=
  if 0 <=? n then firstn (Z.to_nat n) l
  else firstn (Z.to_nat (Z.of_nat (length l) + n)) l.

(** [db.query(Seller).filter(Seller.vinted_id == v).first()] *)
Definition find_seller (v : option string) (d : database) : option Seller :=
  match v with
  | None => None
  | Some v => find (fun s => String.eqb (sc_vinted_id (seller_fields s)) v) (sellers d)
  end.

(** [db.query(Product).filter(Product.vinted_id == v).first()] *)
Definition find_product (v : string) (d : database) : option Product :=
  find (fun p => String.eqb (pc_vinted_id (product_fields p)) v) (products d).

(** [db.commit()] of a change to the sellers: the UNIQUE constraint on
    [sellers.vinted_id] is checked; when it fails the change is lost (the
    handler rolls back) and [IntegrityError] is raised. *)
Definition commit_sellers (change : list Seller -> list Seller) : M unit :=
  d <- read_db ;;
  let l := change (sellers d) in
  if bool_decide (NoDup (map (fun s => sc_vinted_id (seller_fields s)) l))
  then update_db (set_sellers l)
  else raise (IntegrityError "UNIQUE constraint failed: sellers.vinted_id").

(** [setattr] of every key of [seller_data.model_dump()] other than [id]
    and [first_seen_at], then of [last_updated_at]. *)
Definition overwrite_seller (now : Z) (seller_data : SellerCreate) (s : Seller) : Seller :=
  {| seller_id := seller_id s;
     seller_fields := seller_data;
     seller_ban_date := seller_ban_date s;
     seller_first_seen_at := seller_first_seen_at s;
     seller_last_updated_at := Some now |}.

(** A new [Seller] built from the keys of [seller_data.model_dump()], with
    the column defaults. *)
Definition new_seller (now : Z) (id : Z) (seller_data : SellerCreate) : Seller :=
  {| seller_id := id;
     seller_fields := seller_data;
     seller_ban_date := None;
     seller_first_seen_at := now;
     seller_last_updated_at := Some now |}.

Definition UPDATE_SELLER_AFTER_DAYS : Z := 1.

(** [timedelta(days=n)] in seconds. *)
Definition days (n : Z) : Z := n * 86400.

(** The body of the seller loop (the suite of the inner [try]); [counts] is
    [(sellers_new, sellers_updated)] and a [continue] returns it
    unchanged. *)
Definition seller_body (e : env) (update_threshold : Z)
    (seller_vinted_id : option string) (counts : Z * Z) : M (Z * Z) :=
  d <- read_db ;;
  match find_seller seller_vinted_id d with
  | Some existing_seller =>
      if match seller_last_updated_at existing_seller with
         | Some last_updated => update_threshold <? last_updated
         | None => false
         end
      then ret counts
      else
        seller_data <- Client.get_seller_info e seller_vinted_id ;;
        match seller_data with
        | None => ret counts
        | Some seller_data =>
            commit_sellers
              (map (fun s => if seller_id s =? seller_id existing_seller
                             then overwrite_seller (utcnow e) seller_data s else s)) ;;;
            ret (fst counts, snd counts + 1)
        end
  | None =>
      seller_data <- Client.get_seller_info e seller_vinted_id ;;
      match seller_data with
      | None => ret counts
      | Some seller_data =>
          commit_sellers
            (fun l => l ++ [new_seller (utcnow e) (next_id seller_id l) seller_data]) ;;;
          ret (fst counts + 1, snd counts)
      end
  end.

(** The seller loop: an exception in one iteration is caught there and the
    loop goes on. *)
Fixpoint seller_loop (e : env) (update_threshold : Z)
    (seller_vinted_ids : list (option string)) (counts : Z * Z) : M (Z * Z) :=
  match seller_vinted_ids with
  | [] => ret counts
  | seller_vinted_id :: rest =>
      counts <- try_except (seller_body e update_threshold seller_vinted_id counts)
                           (fun _ => ret counts) ;;
      seller_loop e update_threshold rest counts
  end.

(** The product loop: the items not yet in the store, each with the id of
    its seller row. The session does not flush before a query, so the
    items added earlier in the loop are not seen by the existence check. *)
Definition pending_products (d : database) (products_data : list ProductCreate)
    : list (ProductCreate * option Z) :=
  fold_left
    (fun pending product_data =>
       match find_product (pc_vinted_id product_data) d with
       | Some _ => pending
       | None =>
           pending ++
           [(product_data,
             seller_id <$> find_seller (pc_seller_vinted_id product_data) d)]
       end)
    products_data [].

(** The new [Product] of each pending item, built from [product_dict], with
    the primary keys the flush gives them. *)
Fixpoint new_products (now search : Z) (next : Z)
    (pending : list (ProductCreate * option Z)) : list Product :=
  match pending with
  | [] => []
  | (product_data, seller) :: rest =>
      {| product_id := next; product_search_id := search;
         product_fields := product_data; product_seller_id := seller;
         product_is_available := true; product_is_notified := false;
         product_is_favorite := false; product_found_at := now;
         product_notified_at := None |}
      :: new_products now search (next + 1) rest
  end.

(** The suite of the [try] of step 4: the loop, then [db.commit()], which
    checks the UNIQUE constraint on [products.vinted_id]. *)
Definition save_products (e : env) (search : Search)
    (products_data : list ProductCreate) : M (list Product) :=
  d <- read_db ;;
  let rows := new_products (utcnow e) (search_id search)
                (next_id product_id (products d)) (pending_products d products_data) in
  if bool_decide (NoDup (map (fun p => pc_vinted_id (product_fields p))
                             (products d ++ rows)))
  then update_db (Notify.set_products (products d ++ rows)) ;;; ret rows
  else raise (IntegrityError "UNIQUE constraint failed: products.vinted_id").

(** Step 5: the notifications of the new products; any exception there is
    caught. *)
Definition send_notifications (e : env) (new_rows : list Product) : M Z :=
  match new_rows with
  | [] => ret 0
  | _ =>
      try_except
        (nm <- Notify.new_manager ;;
         if Notify.any_active nm then
           notify_results <- Notify.notify_products e nm (map product_id new_rows) ;;
           ret (Notify.send_success notify_results)
         else ret 0)
        (fun _ => ret 0)
  end.

(** A [VintedScraper]: its filter manager (its configuration and requester
    are the [requester] of the state). *)
Record VintedScraper := {
  filter_manager : Filter.FilterManager
}.

(** [VintedScraper(db=db)] *)
Definition new_scraper : M VintedScraper :=
  Client.new_requester ;;;
  d <- read_db ;;
  ret {| filter_manager := Filter._load_config d |}.

(** PASO 1 of [scrape_and_save], the first [try]: the catalog is fetched,
    reversed and cut to the configured maximum. [inl] is a [return] from
    [scrape_and_save]: the empty result when nothing was found, the error
    result when the suite raised. *)
Definition fetch_step (e : env) (log : Z) (search : Search)
    : M (run_result + list ProductCreate) :=
  try_except
    (products_data <- Client.scrape_catalog e (catalog_request search) ;;
     let products_data := rev products_data in
     w <- get_world ;;
     let max_products := Client.get_max_products (requester w) in
     let products_data :=
       if max_products <? Z.of_nat (length products_data)
       then slice_to max_products products_data else products_data in
     match products_data with
     | [] =>
         _finish_log e log "success" 0 None 0 0 0 0 ;;;
         ret (inl _build_empty_result)
     | _ => ret (inr products_data)
     end)
    (fun ex =>
       _finish_log e log "failed" 0 (Some (str ex)) 0 0 0 0 ;;;
       ret (inl (_build_error_result (str ex)))).

(** PASO 3 of [scrape_and_save]: the distinct sellers of the accepted items
    are fetched or refreshed ([set] gives them in no particular order). *)
Definition seller_step (e : env) (products_data : list ProductCreate) : M (Z * Z) :=
  let seller_vinted_ids := remove_dups (map pc_seller_vinted_id products_data) in
  let update_threshold := utcnow e - days UPDATE_SELLER_AFTER_DAYS in
  seller_loop e update_threshold seller_vinted_ids (0, 0).

(** PASO 4 of [scrape_and_save], the [try] around the product loop and
    its commit; [inl] is the [return] of the error result. *)
Definition save_step (e : env) (log : Z) (search : Search)
    (products_data : list ProductCreate) : M (run_result + list Product) :=
  try_except
    (rows <- save_products e search products_data ;; ret (inr rows))
    (fun ex =>
       _finish_log e log "failed" 0 (Some (str ex)) 0 0 0 0 ;;;
       ret (inl (_build_error_result (str ex)))).

(** [VintedScraper.scrape_and_save] *)
Definition scrape_and_save (e : env) (self : VintedScraper) (search : Search)
    : M run_result :=
  log <- open_log e search ;;
  (* PASO 1: scrapear productos del catalogo *)
  step1 <- fetch_step e log search ;;
  match step1 with
  | inl early => ret early
  | inr products_data =>
  (* PASO 2: aplicar filtros *)
  let '(products_filtered_l, filter_stats_result) :=
    Filter.filter_products (filter_manager self) products_data (Some search) in
  let products_rejected := Filter.rejected filter_stats_result in
  match products_filtered_l with
  | [] =>
      _finish_log e log "success" 0 None products_rejected 0 0 0 ;;;
      ret {| products_found := Filter.total filter_stats_result;
             products_new := 0; products_filtered := products_rejected;
             products_notified := 0; sellers_new := 0; sellers_updated := 0;
             error := None |}
  | _ =>
  let products_data := products_filtered_l in
  (* PASO 3: scrapear vendedores *)
  counts <- seller_step e products_data ;;
  (* PASO 4: guardar productos *)
  step4 <- save_step e log search products_data ;;
  match step4 with
  | inl early => ret early
  | inr new_products_for_notification =>
  let n_new := Z.of_nat (length new_products_for_notification) in
  (* PASO 5: enviar notificaciones *)
  notified <- (if 0 <? n_new then send_notifications e new_products_for_notification
               else ret 0) ;;
  _finish_log e log "success" n_new None products_rejected notified
    (fst counts) (snd counts) ;;;
  ret {| products_found := Filter.total filter_stats_result;
         products_new := n_new; products_filtered := products_rejected;
         products_notified := notified;
         sellers_new := fst counts; sellers_updated := snd counts;
         error := None |}
  end end end.

(** The [ScrapingLog] row of the latest run. *)
Definition latest_log (w : world) : option ScrapingLog :=
  last (scraping_logs (db w)).

(** [Product.vinted_id] of a row. *)
Definition vinted_id_of (p : Product) : string := pc_vinted_id (product_fields p).

(** The store invariant that the UNIQUE constraint on [products.vinted_id]
    maintains. *)
Definition unique_products (w : world) : Prop :=
  NoDup (map vinted_id_of (products (db w))).

End Scraper.

(** ** [app/scheduler/task_manager.py] *)

Module Scheduler.

(** [f"{n}"] for an integer. *)
Definition show (n : Z) : string := NilZero.string_of_int (Z.to_int n).

Definition set_scheduler_logs (l : list SchedulerLog) (d : database) : database :=
  {| settings := settings d; searches := searches d; products := products d;
     sellers := sellers d; notifications := notifications d;
     scraping_logs := scraping_logs d; scheduler_logs := l |}.

Definition set_searches (l : list Search) (d : database) : database :=
  {| settings := settings d; searches := l; products := products d;
     sellers := sellers d; notifications := notifications d;
     scraping_logs := scraping_logs d; scheduler_logs := scheduler_logs d |}.

(** [db.query(Search).filter(Search.id == search_id).first()] *)
Definition find_search (id : Z) (d : database) : option Search :=
  find (fun s => search_id s =? id) (searches d).

(** [TaskManager.add_search_job]: the job of the search is (re)scheduled. *)
Definition add_search_job (search : Search) : M unit :=
  modify (fun w => set_jobs ({[ search_id search ]} ∪ jobs w) w).

(** [TaskManager.remove_search_job]: when the job exists it is removed and
    the error counter of the search is cleared. *)
Definition remove_search_job (search_id : Z) : M unit :=
  modify (fun w =>
    if decide (search_id ∈ jobs w) then
      set_error_counts (delete search_id (_error_counts w))
        (set_jobs (jobs w ∖ {[ search_id ]}) w)
    else w).

(** The initial [SchedulerLog] of a search job, added and committed. *)
Definition open_log (e : env) (search_id : Z) : M Z :=
  d <- read_db ;;
  let log := Scraper.next_id jlog_id (scheduler_logs d) in
  update_db (set_scheduler_logs
    (scheduler_logs d ++
     [{| jlog_id := log; jlog_search_id := Some search_id;
         jlog_job_type := "search"; jlog_started_at := utcnow e;
         jlog_finished_at := None; jlog_status := "running";
         jlog_products_found := 0; jlog_products_new := 0;
         jlog_products_filtered := 0; jlog_products_notified := 0;
         jlog_error_message := None; jlog_error_count := 0 |}])) ;;;
  ret log.

(** Attribute writes on the log row, then [db.commit()]. *)
Definition update_log (log : Z) (f : SchedulerLog -> SchedulerLog) : M unit :=
  update_db (fun d =>
    set_scheduler_logs
      (map (fun l => if jlog_id l =? log then f l else l) (scheduler_logs d)) d).

(** The alert to one channel inside [_check_and_notify_error]: the call
    and the [except] that swallows its exception. [TelegramNotifier] has
    no [send_text] method, so for Telegram the attribute lookup raises
    before anything is sent; the two webhooks are reached by
    [requests.post]. *)
Definition alert_channel (e : env) (configured : bool) (c : channel)
    (search_id : Z) : M unit :=
  if configured then
    try_except
      (match c with
       | Telegram =>
           raise (AttributeError "'TelegramNotifier' object has no attribute 'send_text'")
       | _ =>
           emit (AlertSend c search_id) ;;;
           match post_alert e c with
           | Sent _ => ret tt
           | SendRaised ex => raise ex
           end
       end)
      (fun _ => ret tt)
  else ret tt.

(** [TaskManager._check_and_notify_error] *)
Definition _check_and_notify_error (e : env) (search_id : Z) (error_msg : string)
    : M unit :=
  try_except
    (d <- read_db ;;
     match settings d with
     | None => ret tt
     | Some settings =>
         if negb (scheduler_error_notifications_enabled settings) then ret tt
         else
           w <- get_world ;;
           let error_count := default 0 (_error_counts w !! search_id) in
           let threshold :=
             if scheduler_error_threshold settings =? 0 then 3
             else scheduler_error_threshold settings in
           if error_count <? threshold then ret tt
           else
             match find_search search_id d with
             | None => ret tt
             | Some search =>
                 emit (AlertAttempt search_id error_count) ;;;
                 try_except
                   (Notify.new_manager ;;;
                    alert_channel e
                      (Str.truthy_opt (telegram_bot_token settings)
                       && Str.truthy_opt (telegram_chat_id settings))
                      Telegram search_id ;;;
                    alert_channel e (Str.truthy_opt (discord_webhook_url settings))
                      Discord search_id ;;;
                    alert_channel e (Str.truthy_opt (webhook_url settings))
                      Webhook search_id)
                   (fun _ => ret tt)
             end
     end)
    (fun _ => ret tt).

(** [search.last_run_at = utcnow()], and [last_success_at] when new
    products were saved. *)
Definition touch_search (now : Z) (got_new : bool) (s : Search) : Search :=
  {| search_id := search_id s; search_name := search_name s;
     search_query := search_query s;
     search_vinted_query_string := search_vinted_query_string s;
     search_allowed_countries := search_allowed_countries s;
     search_banned_words := search_banned_words s;
     search_banned_seller_ids := search_banned_seller_ids s;
     search_is_active := search_is_active s;
     search_last_run_at := Some now;
     search_last_success_at :=
       if got_new then Some now else search_last_success_at s |}.

(** Attribute writes on the row of a search, then [db.commit()]. *)
Definition update_search (id : Z) (f : Search -> Search) : M unit :=
  update_db (fun d =>
    set_searches (map (fun s => if search_id s =? id then f s else s) (searches d)) d).

(** The suite of the [try] of [_run_search_job]. *)
Definition search_job_try (e : env) (search_id : Z) (manual : bool) (log : Z)
    : M unit :=
  d <- read_db ;;
  match find_search search_id d with
  | None =>
      raise (ValueError ("Búsqueda #" +:+ show search_id +:+ " no encontrada"))
  | Some search =>
      if negb (search_is_active search) && negb manual then
        raise (ValueError ("Búsqueda '" +:+ search_name search +:+ "' está desactivada"))
      else
        scraper <- Scraper.new_scraper ;;
        results <- Scraper.scrape_and_save e scraper search ;;
        (* actualizar log con resultados *)
        update_log log (fun l =>
          {| jlog_id := jlog_id l; jlog_search_id := jlog_search_id l;
             jlog_job_type := jlog_job_type l; jlog_started_at := jlog_started_at l;
             jlog_finished_at := Some (utcnow e);
             jlog_status := "success";
             jlog_products_found := Scraper.products_found results;
             jlog_products_new := Scraper.products_new results;
             jlog_products_filtered := Scraper.products_filtered results;
             jlog_products_notified := Scraper.products_notified results;
             jlog_error_message := jlog_error_message l;
             jlog_error_count := 0 |}) ;;;
        (* reiniciar contador de errores en memoria *)
        modify (fun w => set_error_counts (<[search_id := 0]> (_error_counts w)) w) ;;;
        (* actualizar timestamps de la busqueda *)
        update_search search_id
          (touch_search (utcnow e) (0 <? Scraper.products_new results))
  end.

(** [self._error_counts[search_id] += 1], after the key is set to 0 when
    it is missing. *)
Definition count_error (search_id : Z) (counts : gmap Z Z) : gmap Z Z :=
  let counts :=
    match counts !! search_id with
    | None => <[search_id := 0]> counts
    | Some _ => counts
    end in
  <[search_id := default 0 (counts !! search_id) + 1]> counts.

(** The suite of the [except Exception as e] of [_run_search_job] (the
    traceback text after the message is left out of [error_message]). *)
Definition search_job_except (e : env) (search_id : Z) (log : Z) (ex : exn)
    : M unit :=
  (* incrementar contador de errores *)
  modify (fun w => set_error_counts (count_error search_id (_error_counts w)) w) ;;;
  let error_msg := str ex in
  w <- get_world ;;
  (* actualizar log con error *)
  update_log log (fun l =>
    {| jlog_id := jlog_id l; jlog_search_id := jlog_search_id l;
       jlog_job_type := jlog_job_type l; jlog_started_at := jlog_started_at l;
       jlog_finished_at := Some (utcnow e);
       jlog_status := "error";
       jlog_products_found := jlog_products_found l;
       jlog_products_new := jlog_products_new l;
       jlog_products_filtered := jlog_products_filtered l;
       jlog_products_notified := jlog_products_notified l;
       jlog_error_message := Some error_msg;
       jlog_error_count := default 0 (_error_counts w !! search_id) |}) ;;;
  (* enviar notificacion de error si se supera el umbral *)
  _check_and_notify_error e search_id error_msg.

(** [TaskManager._run_search_job] *)
Definition _run_search_job (e : env) (search_id : Z) (manual : bool) : M unit :=
  log <- open_log e search_id ;;
  try_except (search_job_try e search_id manual log)
             (search_job_except e search_id log).

(** [TaskManager.run_search_now] *)
Definition run_search_now (e : env) (search_id : Z) : M unit :=
  _run_search_job e search_id true.

(** How the [try] suite of a run of [_run_search_job] started in [w] ends:
    [Return] for a run completed as success, [Raise] for a failing run. *)
Definition try_outcome (e : env) (search_id : Z) (manual : bool) (w : world)
    : result unit :=
  fst ((log <- open_log e search_id ;; search_job_try e search_id manual log) w).

(** The state after a run of [_run_search_job]. *)
Definition after_run (e : env) (search_id : Z) (manual : bool) (w : world) : world :=
  snd (_run_search_job e search_id manual w).

(** [self._error_counts.get(search_id, 0)] *)
Definition error_count (search_id : Z) (w : world) : Z :=
  default 0 (_error_counts w !! search_id).

(** [failing_streak id n w w']: from [w] the process reached [w'] through
    [n] failing runs of the search [id] and no other write to its counter;
    between these runs anything may happen that leaves the counter of [id]
    alone (runs of other searches, edits of the store). *)
Inductive failing_streak (search_id : Z) : nat -> world -> world -> Prop :=
| streak_start w :
    failing_streak search_id 0 w w
| streak_fail n w w1 e manual ex :
    failing_streak search_id n w w1 ->
    try_outcome e search_id manual w1 = Raise ex ->
    failing_streak search_id (S n) w (after_run e search_id manual w1)
| streak_other n w w1 w2 :
    failing_streak search_id n w w1 ->
    _error_counts w2 !! search_id = _error_counts w1 !! search_id ->
    failing_streak search_id n w w2.

(** The states of a process that started with no counter and runs jobs,
    adds and removes them, while other components edit the store. *)
Inductive reachable : world -> Prop :=
| reach_start w :
    _error_counts w = ∅ -> reachable w
| reach_run e search_id manual w :
    reachable w -> reachable (after_run e search_id manual w)
| reach_remove search_id w :
    reachable w -> reachable (snd (remove_search_job search_id w))
| reach_add search w :
    reachable w -> reachable (snd (add_search_job search w))
| reach_store d w :
    reachable w -> reachable (set_db d w).

(** The number of alert attempts for a search among the calls made. *)
Definition alert_attempts (search_id : Z) (tr : list event) : nat :=
  length (List.filter
            (fun ev => match ev with
                       | AlertAttempt s _ => s =? search_id
                       | _ => false
                       end) tr).

(** Whether [_check_and_notify_error] lets an alert through for a search
    whose counter stands at [count]: the settings row exists, alerts are
    enabled, the counter has reached the threshold and the row of the
    search exists. *)
Definition alert_due (search_id count : Z) (d : database) : bool :=
  match settings d with
  | None => false
  | Some st =>
      scheduler_error_notifications_enabled st
      && negb (count <? (if scheduler_error_threshold st =? 0 then 3
                         else scheduler_error_threshold st))
      && match find_search search_id d with Some _ => true | None => false end
  end.

End Scheduler.

(** ** The maintenance jobs of [app/scheduler/task_manager.py]

    The two jobs read a column of the settings row that the record
    [Settings] does not carry ([auto_delete_products_days],
    [auto_mark_notified_hours]); its value is an argument of the job, and
    the presence of the row is read from the store. The bulk [delete()] and
    [update()] of a query act on the rows of the table only. *)

Module Maintenance.

(** [timedelta(hours=n)] in seconds. *)
Definition hours (n : Z) : Z := n * 3600.

(** [datetime.min] and the last second of [datetime.max], in seconds since
    the epoch: the first second of year 1 and the last of year 9999. *)
Definition DATETIME_MIN : Z := -62135596800.
Definition DATETIME_MAX : Z := 253402300799.

(** [datetime.utcnow() - timedelta(...)] for a timedelta of [seconds]
    seconds, as the runtime computes it: building the timedelta raises
    [OverflowError] when its days exceed 999999999 in magnitude, and the
    subtraction raises it when the result is not a [datetime]. *)
Definition minus_timedelta (now seconds : Z) : M Z :=
  let timedelta_days := seconds / 86400 in
  if (timedelta_days <? -2147483648) || (2147483647 <? timedelta_days) then
    raise (OverflowError "Python int too large to convert to C int")
  else if (timedelta_days <? -999999999) || (999999999 <? timedelta_days) then
    raise (OverflowError ("days=" +:+ Scheduler.show timedelta_days
                          +:+ "; must have magnitude <= 999999999"))
  else if (now - seconds <? DATETIME_MIN) || (DATETIME_MAX <? now - seconds) then
    raise (OverflowError "date value out of range")
  else ret (now - seconds).

(** The initial [SchedulerLog] of a maintenance job, added and committed;
    its [search_id] stays NULL. *)
Definition open_log (e : env) (job_type : string) : M Z :=
  d <- read_db ;;
  let log := Scraper.next_id jlog_id (scheduler_logs d) in
  update_db (Scheduler.set_scheduler_logs
    (scheduler_logs d ++
     [{| jlog_id := log; jlog_search_id := None;
         jlog_job_type := job_type; jlog_started_at := utcnow e;
         jlog_finished_at := None; jlog_status := "running";
         jlog_products_found := 0; jlog_products_new := 0;
         jlog_products_filtered := 0; jlog_products_notified := 0;
         jlog_error_message := None; jlog_error_count := 0 |}])) ;;;
  ret log.

(** [log.status = status; log.finished_at = utcnow()], with the error
    message in the [except] suite, then [db.commit()]. *)
Definition close_log (e : env) (log : Z) (status : string)
    (error_message : option string) : M unit :=
  Scheduler.update_log log (fun l =>
    {| jlog_id := jlog_id l; jlog_search_id := jlog_search_id l;
       jlog_job_type := jlog_job_type l; jlog_started_at := jlog_started_at l;
       jlog_finished_at := Some (utcnow e);
       jlog_status := status;
       jlog_products_found := jlog_products_found l;
       jlog_products_new := jlog_products_new l;
       jlog_products_filtered := jlog_products_filtered l;
       jlog_products_notified := jlog_products_notified l;
       jlog_error_message :=
         match error_message with
         | Some msg => Some msg
         | None => jlog_error_message l
         end;
       jlog_error_count := jlog_error_count l |}).

(** [TaskManager._cleanup_old_products] *)
Definition _cleanup_old_products (e : env) (auto_delete_products_days : Z) : M unit :=
  log <- open_log e "cleanup" ;;
  try_except
    (d <- read_db ;;
     match settings d with
     | None => close_log e log "success" None
     | Some _ =>
         if auto_delete_products_days =? 0 then close_log e log "success" None
         else
           let days := auto_delete_products_days in
           cutoff_date <- minus_timedelta (utcnow e) (Scraper.days days) ;;
           let products_to_delete :=
             length (List.filter (fun p => product_found_at p <? cutoff_date)
                                 (products d)) in
           if Nat.eqb products_to_delete 0 then close_log e log "success" None
           else
             update_db (fun d =>
               Notify.set_products
                 (List.filter (fun p => negb (product_found_at p <? cutoff_date))
                              (products d)) d) ;;;
             close_log e log "success" None
     end)
    (fun ex => close_log e log "error" (Some (str ex))).

(** [TaskManager._mark_old_products_as_notified] *)
Definition _mark_old_products_as_notified (e : env) (auto_mark_notified_hours : Z)
    : M unit :=
  log <- open_log e "maintenance" ;;
  try_except
    (d <- read_db ;;
     match settings d with
     | None => close_log e log "success" None
     | Some _ =>
         if auto_mark_notified_hours =? 0 then close_log e log "success" None
         else
           cutoff_date <- minus_timedelta (utcnow e) (hours auto_mark_notified_hours) ;;
           update_db (fun d =>
             Notify.set_products
               (map (fun p =>
                       if negb (product_is_notified p)
                          && (product_found_at p <? cutoff_date)
                       then Notify.mark_notified (utcnow e) p else p)
                    (products d)) d) ;;;
           close_log e log "success" None
     end)
    (fun ex => close_log e log "error" (Some (str ex))).

End Maintenance.

(** ** Concrete stores and outside worlds

    The inputs of the examples: a store with one search, items and seller
    documents as the remote catalog serves them, and outside worlds whose
    catalog answers in a given way. *)

Module Sample.

Definition item (id title : string) (price : Z) (seller : string) : ProductCreate :=
  {| pc_vinted_id := id; pc_title := title; pc_description := Some "";
     pc_price := price; pc_currency := "EUR"; pc_brand := None; pc_size := None;
     pc_condition := None; pc_url := "https://www.vinted.es/items/" +:+ id;
     pc_image_url := None; pc_seller_vinted_id := Some seller;
     pc_seller_name := Some "ana"; pc_seller_country := Some "ES" |}.

Definition seller_doc (id login : string) (items_n : Z) : SellerCreate :=
  {| sc_vinted_id := id; sc_login := login; sc_profile_url := None;
     sc_country_code := Some "ES"; sc_country_title := None; sc_city := None;
     sc_item_count := items_n; sc_total_items_count := items_n;
     sc_followers_count := 0; sc_following_count := 0;
     sc_positive_feedback_count := 0; sc_negative_feedback_count := 0;
     sc_neutral_feedback_count := 0; sc_feedback_count := 0;
     sc_feedback_reputation := 0; sc_email_verified := false;
     sc_facebook_verified := false; sc_google_verified := false;
     sc_is_business := false; sc_is_banned := false; sc_last_logged_on := None;
     sc_avg_response_time := None; sc_photo_url := None; sc_about := None |}.

Definition search7 (active : bool) : Search :=
  {| search_id := 7; search_name := "nike"; search_query := Some "nike";
     search_vinted_query_string := None; search_allowed_countries := JNull;
     search_banned_words := JNull; search_banned_seller_ids := JNull;
     search_is_active := active; search_last_run_at := None;
     search_last_success_at := None |}.

Definition store (ss : list Search) : database :=
  {| settings := Some default_settings; searches := ss; products := [];
     sellers := []; notifications := []; scraping_logs := [];
     scheduler_logs := [] |}.

Definition idle_requester : requester_state :=
  {| _settings := default_settings; _user_agents := []; _proxies := [];
     _user_agent_index := 0%nat; _proxy_index := 0%nat;
     session_user_agent := ""; session_proxy := None |}.

Definition start (d : database) : world :=
  {| db := d; requester := idle_requester; jobs := ∅; _error_counts := ∅;
     trace := [] |}.

Definition ok_page (its : list ProductCreate) : response :=
  {| status_code := 200;
     json_body := Some {| items := map Some its; user := None |} |}.

Definition seller_page (s : SellerCreate) : response :=
  {| status_code := 200; json_body := Some {| items := []; user := Some s |} |}.

Definition blocked : response := {| status_code := 403; json_body := None |}.

(** A world where the catalog answers with [cat] and seller "9" exists. *)
Definition env_of (now : Z) (cat : nat -> attempt) : env :=
  {| utcnow := now;
     http := fun r n => match r with
                        | SellerProfile _ => Responded (seller_page (seller_doc "9" "ana" 3))
                        | _ => cat n
                        end;
     send_product_notification := fun _ _ => Sent true;
     post_alert := fun _ => Sent true |}.

(** Outside worlds: a catalog with two items, one that lists the same item
    twice, one that is unreachable, one that answers every attempt with
    403. *)
Definition e_ok : env :=
  env_of 1000000
    (fun _ => Responded (ok_page [item "1" "a" 100 "9"; item "2" "b" 200 "9"])).

(** A catalog that lists the item 1 only, and one that lists the items 1
    and 3 (the runs process a page in reverse order). *)
Definition e_first : env :=
  env_of 1000000 (fun _ => Responded (ok_page [item "1" "a" 100 "9"])).

Definition e_second : env :=
  env_of 1000000
    (fun _ => Responded (ok_page [item "1" "a" 100 "9"; item "3" "c" 300 "9"])).

Definition e_dup : env :=
  env_of 1000000
    (fun _ => Responded (ok_page [item "1" "a" 100 "9"; item "1" "b" 200 "9"])).

Definition e_down : env :=
  env_of 1000000 (fun _ => Failed (ConnectionError "timed out")).

Definition e_blocked : env := env_of 1000000 (fun _ => Responded blocked).

(** A process with an active search 7, and one whose search 7 is not
    active; [w_failed_twice] has the counter of search 7 at 2. *)
Definition w_active : world := start (store [search7 true]).

Definition w_inactive : world := start (store [search7 false]).

Definition w_failed_twice : world :=
  set_error_counts {[ 7 := 2 ]} w_active.

(** The scraper of a run over the sample store: no filter is set. *)
Definition scraper0 : Scraper.VintedScraper :=
  {| Scraper.filter_manager := Filter._load_config (store [search7 true]) |}.

(** A stored seller with key "9", last refreshed at [refreshed_at]. *)
Definition stored_seller (refreshed_at : Z) : Seller :=
  {| seller_id := 1; seller_fields := seller_doc "9" "ana" 1;
     seller_ban_date := None; seller_first_seen_at := 500000;
     seller_last_updated_at := Some refreshed_at |}.

Definition w_seller (refreshed_at : Z) : world :=
  start {| settings := Some default_settings; searches := [search7 true];
           products := []; sellers := [stored_seller refreshed_at];
           notifications := []; scraping_logs := []; scheduler_logs := [] |}.

(** A stored product with key 1, and a fan-out where Telegram succeeds and
    Discord raises. *)
Definition stored_product : Product :=
  {| product_id := 1; product_search_id := 7;
     product_fields := item "1" "a" 100 "9"; product_seller_id := None;
     product_is_available := true; product_is_notified := false;
     product_is_favorite := false; product_found_at := 1000000;
     product_notified_at := None |}.

Definition w_product : world :=
  start {| settings := Some default_settings; searches := [search7 true];
           products := [stored_product]; sellers := [];
           notifications := []; scraping_logs := []; scheduler_logs := [] |}.

Definition e_discord_down : env :=
  {| utcnow := 1000000;
     http := fun _ _ => Responded blocked;
     send_product_notification := fun c _ =>
       match c with
       | Telegram => Sent true
       | _ => SendRaised (ConnectionError "discord unreachable")
       end;
     post_alert := fun _ => SendRaised (ConnectionError "discord unreachable") |}.

Definition telegram_and_discord : Notify.NotificationManager :=
  {| Notify._telegram := true; Notify._discord := true; Notify._webhook := false |}.

End Sample.

(** ** Vocabulary of the properties

    Relations between the state before and after a computation, and the
    rows and states the properties speak of. *)

(** Every run of [m] relates the state after to the state before by [R]. *)
Definition stable (R : world -> world -> Prop) {A} (m : M A) : Prop :=
  forall w, R w (snd (m w)).

(** The scheduler state ([jobs] and [_error_counts]) is left alone. *)
Definition same_scheduler (w w' : world) : Prop :=
  _error_counts w' = _error_counts w /\ jobs w' = jobs w.

(** The run logs and the products are left alone. *)
Definition same_records (w w' : world) : Prop :=
  scraping_logs (db w') = scraping_logs (db w) /\ products (db w') = products (db w).

(** The row that [open_log] adds. *)
Definition opened_log (e : env) (search : Search) (w : world) : ScrapingLog :=
  {| slog_id := Scraper.next_id slog_id (scraping_logs (db w));
     slog_search_id := search_id search;
     slog_started_at := utcnow e; slog_finished_at := None;
     slog_status := "running"; slog_products_found := 0;
     slog_error_message := None; slog_products_filtered := 0;
     slog_products_notified := 0; slog_sellers_new := 0;
     slog_sellers_updated := 0 |}.

(** The row of a run that [_finish_log] closed with nothing found. *)
Definition closed_log (e : env) (search : Search) (w : world) (status : string)
    (error_message : option string) : ScrapingLog :=
  {| slog_id := Scraper.next_id slog_id (scraping_logs (db w));
     slog_search_id := search_id search;
     slog_started_at := utcnow e; slog_finished_at := Some (utcnow e);
     slog_status := status; slog_products_found := 0;
     slog_error_message := error_message; slog_products_filtered := 0;
     slog_products_notified := 0; slog_sellers_new := 0;
     slog_sellers_updated := 0 |}.

(** The state after [open_log]. *)
Definition log_opened (e : env) (search : Search) (w : world) : world :=
  set_db (Scraper.set_scraping_logs
            (scraping_logs (db w) ++ [opened_log e search w]) (db w)) w.

(** [m] ends with a value in every state. *)
Definition returns {A} (m : M A) : Prop := forall w, exists a, fst (m w) = Return a.

(** The products are left alone. *)
Definition same_products (w w' : world) : Prop :=
  products (db w') = products (db w).

(** The products are the same rows with the same item columns, and the
    rows whose key is not in [ids] are untouched. *)
Definition marks_only (ids : list Z) (w w' : world) : Prop :=
  exists f : Product -> Product,
    products (db w') = map f (products (db w)) /\
    forall p, product_fields (f p) = product_fields p /\
              (~ In (product_id p) ids -> f p = p).

(** The accepted items that a run started in [w] hands to its seller and
    product steps: what PASO 1 fetched and PASO 2 kept; [None] when the run
    ends before them, the fetch having failed or nothing being left. *)
Definition items_to_save (e : env) (self : Scraper.VintedScraper) (search : Search)
    (w : world) : option (list ProductCreate) :=
  match fst (Scraper.fetch_step e (Scraper.next_id slog_id (scraping_logs (db w)))
               search (log_opened e search w)) with
  | Return (inr fetched) =>
      match fst (Filter.filter_products (Scraper.filter_manager self) fetched
                   (Some search)) with
      | [] => None
      | kept => Some kept
      end
  | _ => None
  end.

(** The items of a list whose [vinted_id] no row of [stored] carries. *)
Definition not_stored (stored : list Product) (items : list ProductCreate)
    : list ProductCreate :=
  List.filter
    (fun item =>
       negb (existsb (fun row => String.eqb (pc_vinted_id (product_fields row))
                                            (pc_vinted_id item)) stored))
    items.

(** The [vinted_id] column of the sellers. *)
Definition seller_keys (w : world) : list string :=
  map (fun s => sc_vinted_id (seller_fields s)) (sellers (db w)).

(** The refresh of the stored seller [s] with the fetched [d]. *)
Definition refreshed (now : Z) (d : SellerCreate) (s x : Seller) : Seller :=
  if seller_id x =? seller_id s then Scraper.overwrite_seller now d x else x.

(** [p'] is the row [p] marked as notified at [now]: the flag is set, the
    time is recorded and every other column is as it was. *)
Definition marked_delivered (now : Z) (p p' : Product) : Prop :=
  product_is_notified p' = true /\
  product_notified_at p' = Some now /\
  product_id p' = product_id p /\
  product_search_id p' = product_search_id p /\
  product_fields p' = product_fields p /\
  product_seller_id p' = product_seller_id p /\
  product_is_available p' = product_is_available p /\
  product_is_favorite p' = product_is_favorite p /\
  product_found_at p' = product_found_at p.

(** The attempts made for [url] and the store are left alone. *)
Definition no_request_for (url : request) (w w' : world) : Prop :=
  Client.attempts_of url (trace w') = Client.attempts_of url (trace w) /\
  db w' = db w.

(** The row [s] is stored and the keys of the sellers are distinct. *)
Definition seller_kept (s : Seller) (w : world) : Prop :=
  In s (sellers (db w)) /\ NoDup (seller_keys w) /\
  NoDup (map seller_id (sellers (db w))).

(** The counters and the alert attempts for a search are left alone. *)
Definition quiet (search_id : Z) (w w' : world) : Prop :=
  _error_counts w' = _error_counts w /\
  Scheduler.alert_attempts search_id (trace w')
  = Scheduler.alert_attempts search_id (trace w).

(** The state after [Scheduler.open_log]. *)
Definition job_opened (e : env) (sid : Z) (w : world) : world :=
  snd (Scheduler.open_log e sid w).

(** ** Further concrete inputs *)

Module Cases.

(** Settings whose global banned words are three lines: a word with
    capitals, a blank line and a word with white space around it. *)
Definition banned_words_text : string :=
  "Fake" +:+ String Str.newline ("   " +:+ String Str.newline "  Replica  ").

Definition settings_with_words : Settings :=
  {| webhook_url := None; telegram_bot_token := None; telegram_chat_id := None;
     discord_webhook_url := None; user_agent := default_user_agent;
     user_agent_list := None; user_agent_rotation := true; default_headers := None;
     max_products_per_search := 100; proxies_enabled := false; proxy_list := None;
     proxy_rotation := true; global_banned_words := Some banned_words_text;
     global_min_price := 0; global_banned_sellers := None;
     scheduler_error_notifications_enabled := true;
     scheduler_error_threshold := 3 |}.

Definition store_with_words : database :=
  {| settings := Some settings_with_words; searches := [Sample.search7 true];
     products := []; sellers := []; notifications := []; scraping_logs := [];
     scheduler_logs := [] |}.

(** A store without a settings row. *)
Definition store_without_settings : database :=
  {| settings := None; searches := [Sample.search7 true]; products := [];
     sellers := []; notifications := []; scraping_logs := [];
     scheduler_logs := [] |}.

(** Settings that block the seller with the external id 123. *)
Definition settings_blocking_seller : Settings :=
  {| webhook_url := None; telegram_bot_token := None; telegram_chat_id := None;
     discord_webhook_url := None; user_agent := default_user_agent;
     user_agent_list := None; user_agent_rotation := true; default_headers := None;
     max_products_per_search := 100; proxies_enabled := false; proxy_list := None;
     proxy_rotation := true; global_banned_words := None;
     global_min_price := 0; global_banned_sellers := Some "123";
     scheduler_error_notifications_enabled := true;
     scheduler_error_threshold := 3 |}.

Definition store_blocking_seller : database :=
  {| settings := Some settings_blocking_seller; searches := [Sample.search7 true];
     products := []; sellers := []; notifications := []; scraping_logs := [];
     scheduler_logs := [] |}.

(** An item of the seller 123 under the display name [name]. For a catalog
    entry whose user has no login, [scrape_catalog] builds the item with
    the empty string as display name. *)
Definition item_of_seller_123 (name : string) : ProductCreate :=
  {| pc_vinted_id := "55"; pc_title := "nike air"; pc_description := Some "";
     pc_price := 2500; pc_currency := "EUR"; pc_brand := None; pc_size := None;
     pc_condition := None; pc_url := "https://www.vinted.es/items/55";
     pc_image_url := None; pc_seller_vinted_id := Some "123";
     pc_seller_name := Some name; pc_seller_country := Some "" |}.

(** A store whose settings carry two User-Agents and an additional header
    that names the User-Agent in lower case. *)
Definition settings_with_headers : Settings :=
  {| webhook_url := None; telegram_bot_token := None; telegram_chat_id := None;
     discord_webhook_url := None; user_agent := default_user_agent;
     user_agent_list := Some ("agent one" +:+ String Str.newline "agent two");
     user_agent_rotation := true;
     default_headers := Some [("Accept-Language", "es"); ("user-agent", "my bot")];
     max_products_per_search := 100; proxies_enabled := false; proxy_list := None;
     proxy_rotation := true; global_banned_words := None;
     global_min_price := 0; global_banned_sellers := None;
     scheduler_error_notifications_enabled := true;
     scheduler_error_threshold := 3 |}.

Definition store_with_headers : database :=
  {| settings := Some settings_with_headers; searches := [Sample.search7 true];
     products := []; sellers := []; notifications := []; scraping_logs := [];
     scheduler_logs := [] |}.

(** Settings whose global banned words are two lines: a no-break space
    alone, and the word [Caf] followed by the letter U+00E9, with a no-break
    space on either side; and a title that has the word in capitals, with
    the letter U+00C9. *)
Definition no_break_space : ascii := ascii_of_nat 160.

Definition latin_words_text : string :=
  String no_break_space
    (String Str.newline
       (String no_break_space
          ("Caf" +:+ String (ascii_of_nat 233) (String no_break_space "")))).

Definition settings_with_latin_words : Settings :=
  {| webhook_url := None; telegram_bot_token := None; telegram_chat_id := None;
     discord_webhook_url := None; user_agent := default_user_agent;
     user_agent_list := None; user_agent_rotation := true; default_headers := None;
     max_products_per_search := 100; proxies_enabled := false; proxy_list := None;
     proxy_rotation := true; global_banned_words := Some latin_words_text;
     global_min_price := 0; global_banned_sellers := None;
     scheduler_error_notifications_enabled := true;
     scheduler_error_threshold := 3 |}.

Definition store_with_latin_words : database :=
  {| settings := Some settings_with_latin_words; searches := [Sample.search7 true];
     products := []; sellers := []; notifications := []; scraping_logs := [];
     scheduler_logs := [] |}.

Definition latin_title : string :=
  "CAF" +:+ String (ascii_of_nat 201) " RACER".

(** A process whose settings configure Telegram and the Discord webhook,
    with the counter of search 7 at 3. *)
Definition settings_with_channels : Settings :=
  {| webhook_url := None; telegram_bot_token := Some "token";
     telegram_chat_id := Some "chat";
     discord_webhook_url := Some "https://discord.example/hook";
     user_agent := default_user_agent;
     user_agent_list := None; user_agent_rotation := true; default_headers := None;
     max_products_per_search := 100; proxies_enabled := false; proxy_list := None;
     proxy_rotation := true; global_banned_words := None;
     global_min_price := 0; global_banned_sellers := None;
     scheduler_error_notifications_enabled := true;
     scheduler_error_threshold := 3 |}.

Definition w_failed_thrice : world :=
  set_error_counts {[ 7 := 3 ]}
    (Sample.start
       {| settings := Some settings_with_channels; searches := [Sample.search7 true];
          products := []; sellers := []; notifications := []; scraping_logs := [];
          scheduler_logs := [] |}).

(** An outside world one million seconds later than the samples. *)
Definition e_later : env :=
  Sample.env_of 2000000 (fun _ => Responded Sample.blocked).

(** A configuration with three User-Agents, rotation on, the index at 1. *)
Definition three_agents : requester_state :=
  {| _settings := default_settings; _user_agents := ["a"; "b"; "c"]; _proxies := [];
     _user_agent_index := 1%nat; _proxy_index := 0%nat;
     session_user_agent := "a"; session_proxy := None |}.

End Cases.

(** ** Vocabulary of the further properties *)

(** [rejection_reasons.get(k, 0)] *)
Definition times_rejected (k : option Filter.reason)
    (d : list (option Filter.reason * Z)) : Z :=
  default 0 (snd <$> find (fun kv => bool_decide (fst kv = k)) d).

(** [k] successive calls of [ScraperConfig.get_user_agent]: the agents they
    return, in order, and the configuration they leave. *)
Fixpoint user_agents_served (k : nat) (c : requester_state)
    : list string * requester_state :=
  match k with
  | O => ([], c)
  | S k' =>
      let '(ua, c1) := Client.get_user_agent c in
      let '(l, c2) := user_agents_served k' c1 in
      (ua :: l, c2)
  end.

(** The values that the additional headers of the settings give to the
    header User-Agent: those of the keys that read [user-agent] up to
    case. *)
Definition user_agent_overrides (st : Settings) : list string :=
  match default_headers st with
  | Some additional_headers =>
      map snd (List.filter (fun kv => String.eqb (Str.lower (fst kv)) "user-agent")
                           additional_headers)
  | None => []
  end.

(** The requester is consistent with its configuration: the list of
    User-Agents is not empty and has no empty entry, the rotation indices are
    within their lists, the session sends a User-Agent of the list, or one
    that the additional headers of the settings put in its place, and goes
    through a proxy of the list, or through none. *)
Definition requester_ok (c : requester_state) : Prop :=
  _user_agents c <> [] /\
  Forall (fun ua => ua <> "") (_user_agents c) /\
  (_user_agent_index c < length (_user_agents c))%nat /\
  In (session_user_agent c)
     (match user_agent_overrides (_settings c) with
      | [] => _user_agents c
      | overrides => overrides
      end) /\
  (_proxies c <> [] -> (_proxy_index c < length (_proxies c))%nat) /\
  match session_proxy c with
  | Some proxy => In proxy (_proxies c) /\ proxies_enabled (_settings c) = true
  | None => True
  end.

(** The requester stays consistent. *)
Definition keeps_requester_ok (w w' : world) : Prop :=
  requester_ok (requester w) -> requester_ok (requester w').

(** Whether some configured channel reports success for a product. *)
Definition delivered (e : env) (self : Notify.NotificationManager) (product : Z) : bool :=
  existsb (fun c => Notify.configured self c && Notify.reports_success e c product)
          Notify.all_channels.

(** The [Notification] row that the block of a channel leaves for a
    product. *)
Definition notification_row (e : env) (product : Z) (c : channel) : Notification :=
  {| notification_product_id := product;
     notification_channel := channel_name c;
     notification_status :=
       if Notify.reports_success e c product then "sent" else "failed";
     notification_error_message :=
       match send_product_notification e c product with
       | SendRaised ex => Some (str ex)
       | Sent _ => None
       end |}.

(** Everything in the store but the products and the notifications is
    left alone, and so is the scheduler state. *)
Definition same_but_deliveries (w w' : world) : Prop :=
  settings (db w') = settings (db w) /\ searches (db w') = searches (db w) /\
  sellers (db w') = sellers (db w) /\ scraping_logs (db w') = scraping_logs (db w) /\
  scheduler_logs (db w') = scheduler_logs (db w).

(** The items of a page that the existence check of the product loop does
    not find in the store. *)
Definition new_items (d : database) (products_data : list ProductCreate)
    : list ProductCreate :=
  List.filter
    (fun product_data =>
       match Scraper.find_product (pc_vinted_id product_data) d with
       | Some _ => false
       | None => true
       end)
    products_data.

(** The columns of a seller that no refresh writes. *)
Definition seller_identity (s : Seller) : Z * Z :=
  (seller_id s, seller_first_seen_at s).

(** What the seller loop may do to the state between two of its points:
    the table of sellers only grows, by as many rows as [sellers_new]
    advanced; the rows already stored keep their place, [id] and
    [first_seen_at]; the UNIQUE constraint stays satisfied; both counters
    only advance, together by at most [budget]. *)
Definition seller_progress (budget : nat) (before after : (Z * Z) * world) : Prop :=
  let '(counts, w) := before in
  let '(counts', w') := after in
  fst counts <= fst counts' /\ snd counts <= snd counts' /\
  (fst counts' - fst counts) + (snd counts' - snd counts) <= Z.of_nat budget /\
  Z.of_nat (length (sellers (db w')))
  = Z.of_nat (length (sellers (db w))) + (fst counts' - fst counts) /\
  take (length (sellers (db w))) (map seller_identity (sellers (db w')))
  = map seller_identity (sellers (db w)) /\
  (NoDup (seller_keys w) -> NoDup (seller_keys w')).

(** The [ScrapingLog] row of a run that started in [w] and returned [r]. *)
Definition run_log_row (e : env) (search : Search) (w : world)
    (r : Scraper.run_result) : ScrapingLog :=
  {| slog_id := Scraper.next_id slog_id (scraping_logs (db w));
     slog_search_id := search_id search;
     slog_started_at := utcnow e;
     slog_finished_at := Some (utcnow e);
     slog_status := match Scraper.error r with None => "success" | Some _ => "failed" end;
     slog_products_found := Scraper.products_new r;
     slog_error_message :=
       match Scraper.error r with
       | Some msg => if Str.truthy msg then Some msg else None
       | None => None
       end;
     slog_products_filtered := Scraper.products_filtered r;
     slog_products_notified := Scraper.products_notified r;
     slog_sellers_new := Scraper.sellers_new r;
     slog_sellers_updated := Scraper.sellers_updated r |}.

(** The run logs and the settings held by the requester are left alone. *)
Definition same_run_context (w w' : world) : Prop :=
  scraping_logs (db w') = scraping_logs (db w) /\
  _settings (requester w') = _settings (requester w).

(** The counters of a result are consistent with one another and with the
    configured maximum. *)
Definition counters_consistent (max_products : Z) (r : Scraper.run_result) : Prop :=
  0 <= Scraper.products_filtered r <= Scraper.products_found r /\
  0 <= Scraper.products_new r
    <= Scraper.products_found r - Scraper.products_filtered r /\
  0 <= Scraper.products_notified r <= Scraper.products_new r /\
  0 <= Scraper.sellers_new r /\ 0 <= Scraper.sellers_updated r /\
  (0 <= max_products -> Scraper.products_found r <= max_products).

(** The channels that a text alert reaches: the Discord webhook and the
    generic webhook, each when its URL is set, in that order. *)
Definition alert_channels (d : database) : list channel :=
  match settings d with
  | Some st =>
      (if Str.truthy_opt (discord_webhook_url st) then [Discord] else [])
      ++ (if Str.truthy_opt (webhook_url st) then [Webhook] else [])
  | None => []
  end.

(** The job logs are left alone. *)
Definition same_job_logs (w w' : world) : Prop :=
  scheduler_logs (db w') = scheduler_logs (db w).

(** Only the record of the calls made changes. *)
Definition same_but_trace (w w' : world) : Prop :=
  db w' = db w /\ requester w' = requester w /\ jobs w' = jobs w /\
  _error_counts w' = _error_counts w.

(** The row that a maintenance job of type [job_type] run in [w] leaves in
    the job log when it ends with [status] and [error_message]. *)
Definition maintenance_log_row (e : env) (job_type : string) (w : world)
    (status : string) (error_message : option string) : SchedulerLog :=
  {| jlog_id := Scraper.next_id jlog_id (scheduler_logs (db w));
     jlog_search_id := None; jlog_job_type := job_type;
     jlog_started_at := utcnow e; jlog_finished_at := Some (utcnow e);
     jlog_status := status;
     jlog_products_found := 0; jlog_products_new := 0;
     jlog_products_filtered := 0; jlog_products_notified := 0;
     jlog_error_message := error_message; jlog_error_count := 0 |}.

(** Whether a maintenance job acts: the settings row exists and its column
    is not 0. *)
Definition job_enabled (d : database) (column : Z) : bool :=
  match settings d with
  | Some _ => negb (column =? 0)
  | None => false
  end.

(** Whether the runtime can compute [now - timedelta] for a timedelta of
    [timedelta_days] whole days (and a rest of less than a day) that ends at
    [cutoff]: a timedelta holds at most 999999999 days in either direction,
    and a [datetime] lies between the first second of year 1 and the last
    of year 9999. *)
Definition representable (timedelta_days cutoff : Z) : bool :=
  (-999999999 <=? timedelta_days) && (timedelta_days <=? 999999999)
  && (-62135596800 <=? cutoff) && (cutoff <=? 253402300799).

(** * Properties *)

(** ** Frame reasoning *)

Section Stable.
Variable R : world -> world -> Prop.
Hypothesis R_refl : forall w, R w w.
Hypothesis R_trans : forall w1 w2 w3, R w1 w2 -> R w2 w3 -> R w1 w3.

Lemma stable_ret {A} (a : A) : stable R (ret a).
Proof. intros w. apply R_refl. Qed.

Lemma stable_raise {A} (ex : exn) : stable R (@raise A ex).
Proof. intros w. apply R_refl. Qed.

Lemma stable_get_world : stable R get_world.
Proof. intros w. apply R_refl. Qed.

Lemma stable_read_db : stable R read_db.
Proof. intros w. apply R_refl. Qed.

Lemma stable_bind {A B} (m : M A) (k : A -> M B) :
  stable R m -> (forall a, stable R (k a)) -> stable R (bind m k).
Proof.
  intros Hm Hk w. unfold bind. specialize (Hm w).
  destruct (m w) as [[a|ex] w1]; simpl in *; [|exact Hm].
  eapply R_trans; [exact Hm | apply Hk].
Qed.

Lemma stable_try_except {A} (m : M A) (h : exn -> M A) :
  stable R m -> (forall ex, stable R (h ex)) -> stable R (try_except m h).
Proof.
  intros Hm Hh w. unfold try_except. specialize (Hm w).
  destruct (m w) as [[a|ex] w1]; simpl in *; [exact Hm|].
  eapply R_trans; [exact Hm | apply Hh].
Qed.

Lemma stable_modify (f : world -> world) :
  (forall w, R w (f w)) -> stable R (modify f).
Proof. intros H w. apply H. Qed.

Lemma stable_for_each {X} (l : list X) (body : X -> M unit) :
  (forall x, stable R (body x)) -> stable R (for_each l body).
Proof.
  intros H. induction l as [|x l IH]; simpl.
  - apply stable_ret.
  - apply stable_bind; [apply H | intros _; exact IH].
Qed.
End Stable.

Create HintDb frame.

(** One step of a frame proof for the relation whose reflexivity and
    transitivity are [Hr] and [Ht]; [base] closes the state changes. *)
Ltac stable_step Hr Ht base :=
  first
    [ solve [auto with frame nocore]
    | apply (stable_ret _ Hr)
    | apply (stable_raise _ Hr)
    | apply (stable_get_world _ Hr)
    | apply (stable_read_db _ Hr)
    | apply (stable_bind _ Ht); [ | intros ]
    | apply (stable_try_except _ Ht); [ | intros ]
    | apply stable_modify; intros; base
    | match goal with
      | |- stable _ (match ?x with _ => _ end) => destruct x
      | |- stable _ (if ?x then _ else _) => destruct x
      end ].

Lemma same_scheduler_refl w : same_scheduler w w.
Proof. split; reflexivity. Qed.

Lemma same_scheduler_trans w1 w2 w3 :
  same_scheduler w1 w2 -> same_scheduler w2 w3 -> same_scheduler w1 w3.
Proof. intros [? ?] [? ?]. split; congruence. Qed.

Ltac scheduler_base :=
  unfold Client.headers_updated, Client.proxy_configured;
  repeat match goal with
         | |- context [let '(_, _) := ?x in _] => destruct x
         end;
  split; reflexivity.

Ltac scheduler_frame :=
  unfold update_db, emit, Client._update_headers, Client._configure_proxy,
    Client._refresh_cookies, emit;
  repeat stable_step same_scheduler_refl same_scheduler_trans scheduler_base.

Lemma get_loop_same_scheduler e url remaining :
  forall tried, stable same_scheduler (Client.get_loop e url remaining tried).
Proof.
  induction remaining as [|remaining IH]; intros tried; cbn [Client.get_loop];
    scheduler_frame.
Qed.
#[local] Hint Resolve get_loop_same_scheduler : frame.

Lemma get_same_scheduler e url : stable same_scheduler (Client.get e url).
Proof. unfold Client.get. scheduler_frame. Qed.
#[local] Hint Resolve get_same_scheduler : frame.

Lemma scrape_catalog_same_scheduler e url :
  stable same_scheduler (Client.scrape_catalog e url).
Proof. unfold Client.scrape_catalog. scheduler_frame. Qed.
#[local] Hint Resolve scrape_catalog_same_scheduler : frame.

Lemma get_seller_info_same_scheduler e v :
  stable same_scheduler (Client.get_seller_info e v).
Proof. unfold Client.get_seller_info. scheduler_frame. Qed.
#[local] Hint Resolve get_seller_info_same_scheduler : frame.

Lemma new_requester_same_scheduler : stable same_scheduler Client.new_requester.
Proof. unfold Client.new_requester. scheduler_frame. Qed.
#[local] Hint Resolve new_requester_same_scheduler : frame.

Lemma channel_block_same_scheduler e b c p r :
  stable same_scheduler (Notify.channel_block e b c p r).
Proof. unfold Notify.channel_block, Notify._log_notification. scheduler_frame. Qed.
#[local] Hint Resolve channel_block_same_scheduler : frame.

Lemma notify_product_same_scheduler e nm p :
  stable same_scheduler (Notify.notify_product e nm p).
Proof. unfold Notify.notify_product. scheduler_frame. Qed.
#[local] Hint Resolve notify_product_same_scheduler : frame.

Lemma notify_loop_same_scheduler e nm ps :
  forall a b, stable same_scheduler (Notify.notify_loop e nm ps a b).
Proof.
  induction ps as [|p ps IH]; intros a b; cbn [Notify.notify_loop]; scheduler_frame.
Qed.
#[local] Hint Resolve notify_loop_same_scheduler : frame.

Lemma seller_body_same_scheduler e th v counts :
  stable same_scheduler (Scraper.seller_body e th v counts).
Proof. unfold Scraper.seller_body, Scraper.commit_sellers. scheduler_frame. Qed.
#[local] Hint Resolve seller_body_same_scheduler : frame.

Lemma seller_loop_same_scheduler e th ids :
  forall counts, stable same_scheduler (Scraper.seller_loop e th ids counts).
Proof.
  induction ids as [|v ids IH]; intros counts; cbn [Scraper.seller_loop];
    scheduler_frame.
Qed.
#[local] Hint Resolve seller_loop_same_scheduler : frame.

Lemma scrape_and_save_same_scheduler e self search :
  stable same_scheduler (Scraper.scrape_and_save e self search).
Proof.
  unfold Scraper.scrape_and_save, Scraper.open_log, Scraper.fetch_step,
    Scraper._finish_log, Scraper.seller_step, Scraper.save_step,
    Scraper.save_products, Scraper.send_notifications, Notify.new_manager,
    Notify.notify_products.
  scheduler_frame.
Qed.

Lemma new_scraper_same_scheduler : stable same_scheduler Scraper.new_scraper.
Proof. unfold Scraper.new_scraper. scheduler_frame. Qed.

(** ** The filter chain *)

Section FilterProperties.
Import Filter.

Lemma existsb_find {A} (f : A -> bool) (l : list A) :
  existsb f l = match find f l with Some _ => true | None => false end.
Proof.
  induction l as [|x l IH]; simpl; [reflexivity|].
  destruct (f x); simpl; [reflexivity | exact IH].
Qed.

Lemma normalized_text_agrees p : text_to_check p = normalized_text p.
Proof.
  unfold text_to_check, normalized_text.
  destruct (pc_description p) as [[|c d]|]; reflexivity.
Qed.

Lemma present_truthy (column : option string) :
  Str.truthy_opt column = match present column with Some _ => true | None => false end.
Proof. destruct column as [[|c v]|]; reflexivity. Qed.

Lemma present_default (column : option string) (v : string) :
  present column = Some v -> default "" column = v.
Proof.
  destruct column as [[|c u]|]; cbn; intros H; try discriminate.
  injection H as <-. reflexivity.
Qed.

Lemma global_words_find fm p :
  match _global_banned_words fm with
  | [] => None
  | words => find (fun w => Str.contains w (text_to_check p)) words
  end = find (fun w => Str.contains w (text_to_check p)) (_global_banned_words fm).
Proof. destruct (_global_banned_words fm); reflexivity. Qed.

Lemma rule2_agrees fm s p :
  rule_global_banned_words fm s p
  = GlobalBannedWord <$>
      match _global_banned_words fm with
      | [] => None
      | words => find (fun w => Str.contains w (text_to_check p)) words
      end.
Proof.
  unfold rule_global_banned_words, first_banned_word.
  rewrite global_words_find, normalized_text_agrees. reflexivity.
Qed.

Lemma rule3_agrees fm s p :
  rule_global_banned_sellers fm s p =
  match
    match _global_banned_sellers fm with
    | [] => None
    | sellers =>
        if Str.truthy_opt (pc_seller_name p) then
          let seller_name_lower := Str.lower (default "" (pc_seller_name p)) in
          let seller_id_lower :=
            if Str.truthy_opt (pc_seller_vinted_id p)
            then Str.lower (default "" (pc_seller_vinted_id p)) else "" in
          find (fun banned_seller =>
                  Str.contains banned_seller seller_name_lower
                  || String.eqb banned_seller seller_id_lower) sellers
        else None
    end
  with
  | Some _ => Some (GlobalBannedSeller (pc_seller_name p))
  | None => None
  end.
Proof.
  unfold rule_global_banned_sellers.
  assert (Hid : (if Str.truthy_opt (pc_seller_vinted_id p)
                 then Str.lower (default "" (pc_seller_vinted_id p)) else "")
                = match present (pc_seller_vinted_id p) with
                  | Some i => Str.lower i
                  | None => ""
                  end).
  { destruct (pc_seller_vinted_id p) as [[|c i]|]; reflexivity. }
  cbv zeta. rewrite Hid. rewrite present_truthy.
  destruct (present (pc_seller_name p)) as [name|] eqn:Hname.
  - rewrite (present_default _ _ Hname). rewrite existsb_find.
    destruct (_global_banned_sellers fm) as [|b l]; [reflexivity|].
    destruct (find _ (b :: l)); reflexivity.
  - destruct (_global_banned_sellers fm); reflexivity.
Qed.

Lemma banned_words_agree (s : Search) :
  banned_words_of s = search_banned_words_list (search_banned_words s).
Proof.
  unfold banned_words_of, search_banned_words_list, Str.clean_lines.
  destruct (search_banned_words s) as [|text|l]; try reflexivity.
  f_equal. apply filter_ext. intros line. destruct (Str.strip line); reflexivity.
Qed.

Lemma rule4_agrees fm (s : Search) p :
  rule_search_banned_words fm (Some s) p
  = SearchBannedWord <$>
      (if json_truthy (search_banned_words s) then
         find (fun w => Str.contains w (text_to_check p))
              (search_banned_words_list (search_banned_words s))
       else None).
Proof.
  unfold rule_search_banned_words, first_banned_word.
  rewrite normalized_text_agrees, banned_words_agree.
  destruct (search_banned_words s) as [|w|l]; simpl; try reflexivity.
  - destruct w; reflexivity.
  - destruct l; reflexivity.
Qed.

Lemma mem_existsb (x : string) (l : list string) :
  Str.mem x l = existsb (String.eqb x) l.
Proof. reflexivity. Qed.

Lemma rule5_agrees fm (s : Search) p :
  rule_search_banned_sellers fm (Some s) p =
  if json_truthy (search_banned_seller_ids s)
     && Str.truthy_opt (pc_seller_vinted_id p)
     && Str.mem (default "" (pc_seller_vinted_id p))
                (json_list_or_empty (search_banned_seller_ids s))
  then Some (SearchBannedSeller (pc_seller_name p)) else None.
Proof.
  unfold rule_search_banned_sellers. rewrite present_truthy.
  destruct (present (pc_seller_vinted_id p)) as [sid|] eqn:Hsid.
  - rewrite (present_default _ _ Hsid), andb_true_r.
    destruct (search_banned_seller_ids s) as [|w|l]; cbn [json_truthy json_list_or_empty].
    + reflexivity.
    + unfold Str.mem. cbn [existsb]. rewrite andb_false_r. reflexivity.
    + rewrite mem_existsb. destruct l; reflexivity.
  - rewrite andb_false_r. reflexivity.
Qed.

Lemma rule6_agrees fm (s : Search) p :
  rule_search_allowed_countries fm (Some s) p =
  if json_truthy (search_allowed_countries s)
     && Str.truthy_opt (pc_seller_country p)
     && (match json_list_or_empty (search_allowed_countries s) with
         | [] => false
         | countries_list =>
             negb (Str.mem (default "" (pc_seller_country p)) countries_list)
         end)
  then Some (CountryNotAllowed (pc_seller_country p)) else None.
Proof.
  unfold rule_search_allowed_countries. rewrite present_truthy.
  destruct (present (pc_seller_country p)) as [c|] eqn:Hc.
  - rewrite (present_default _ _ Hc), andb_true_r.
    destruct (search_allowed_countries s) as [|w|l]; cbn [json_truthy json_list_or_empty].
    + reflexivity.
    + rewrite andb_false_r. reflexivity.
    + destruct l as [|c0 l]; [reflexivity|]. rewrite mem_existsb.
      cbn [andb]. destruct (existsb _ (c0 :: l)); reflexivity.
  - rewrite andb_false_r. reflexivity.
Qed.

(** C4, amended. For every candidate item and search context, the verdict
    of [filter_product] is the verdict of the six rules evaluated in the
    fixed order global minimum price, global banned words on the lower-cased
    title and description, global banned sellers (applied only to an item
    that has a seller display name), per-search banned words, per-search
    banned sellers, per-search allowed countries (only when both the list
    and the seller country are present), stopping at the first rule that
    rejects, whose reason is returned; an item that passes the six rules is
    accepted with no reason. *)
Theorem filter_product_is_rule_chain (fm : FilterManager) (p : ProductCreate)
    (s : option Search) :
  filter_product fm p s = evaluate fm p s.
Proof.
  unfold filter_product, evaluate, verdict, six_rules, first_rejection.
  unfold rule_global_min_price.
  destruct ((0 <? _global_min_price fm) && (pc_price p <? _global_min_price fm)); [reflexivity|].
  rewrite rule2_agrees.
  destruct (match _global_banned_words fm with [] => None | _ :: _ => _ end) as [w|];
    cbn [fmap option_fmap option_map]; [reflexivity|].
  rewrite rule3_agrees.
  destruct (match _global_banned_sellers fm with [] => None | _ :: _ => _ end);
    [reflexivity|].
  destruct s as [s|]; [|reflexivity].
  rewrite rule4_agrees.
  destruct (if json_truthy (search_banned_words s) then _ else None) as [w|];
    cbn [fmap option_fmap option_map]; [reflexivity|].
  rewrite rule5_agrees.
  destruct (json_truthy (search_banned_seller_ids s) && _ && _); [reflexivity|].
  rewrite rule6_agrees.
  destruct (json_truthy (search_allowed_countries s) && _ && _); reflexivity.
Qed.

Lemma filter_loop_accepted fm s (l : list ProductCreate) st :
  fst (fst (fold_left (filter_step fm s) l st)) = fst (fst st) ++ List.filter (passes fm s) l.
Proof.
  revert st. induction l as [|p l IH]; intros [[a r] rs]; simpl.
  - rewrite app_nil_r. reflexivity.
  - rewrite IH. unfold filter_step, passes.
    destruct (filter_product fm p s) as [[|] why]; simpl.
    + rewrite <- app_assoc. reflexivity.
    + reflexivity.
Qed.

Lemma filter_loop_all_pass fm s (l : list ProductCreate) a r rs :
  forallb (passes fm s) l = true ->
  fold_left (filter_step fm s) l (a, r, rs) = (a ++ l, r, rs).
Proof.
  revert a. induction l as [|p l IH]; intros a H; cbn [fold_left]; simpl in H.
  - rewrite app_nil_r. reflexivity.
  - apply andb_prop in H as [Hp Hl]. unfold passes in Hp.
    replace (filter_step fm s (a, r, rs) p) with (a ++ [p], r, rs).
    + rewrite IH by exact Hl. rewrite <- app_assoc. reflexivity.
    + unfold filter_step. destruct (filter_product fm p s) as [b why].
      simpl in Hp. subst b. reflexivity.
Qed.

Lemma forallb_filter {A} (f : A -> bool) (l : list A) :
  forallb f (List.filter f l) = true.
Proof.
  induction l as [|x l IH]; simpl; [reflexivity|].
  destruct (f x) eqn:E; simpl; [rewrite E|]; exact IH.
Qed.

Lemma filter_products_accepted fm s items :
  fst (filter_products fm items s) = List.filter (passes fm s) items.
Proof.
  unfold filter_products.
  pose proof (filter_loop_accepted fm s items ([], [], [])) as H.
  destruct (fold_left _ items _) as [[a r] rs]. simpl in *. exact H.
Qed.

(** C6. For every list of items and filter configuration, the batch filter
    run on its own accepted output returns that output unchanged, with
    nothing rejected on the second pass. *)
Theorem filter_products_idempotent (fm : FilterManager) (s : option Search)
    (items : list ProductCreate) :
  let accepted_items := fst (filter_products fm items s) in
  filter_products fm accepted_items s
  = (accepted_items,
     {| total := Z.of_nat (length accepted_items);
        accepted := Z.of_nat (length accepted_items);
        rejected := 0;
        rejection_reasons := [] |}).
Proof.
  intros accepted_items. subst accepted_items.
  rewrite filter_products_accepted.
  unfold filter_products.
  rewrite filter_loop_all_pass by apply forallb_filter.
  reflexivity.
Qed.
End FilterProperties.

(** ** The HTTP client *)

Section ClientProperties.
Import Client.

Lemma trace_headers_updated w : trace (headers_updated w) = trace w.
Proof. unfold headers_updated. destruct (get_headers (requester w)). reflexivity. Qed.

Lemma trace_proxy_configured w : trace (proxy_configured w) = trace w.
Proof. unfold proxy_configured. destruct (get_proxy (requester w)). reflexivity. Qed.

Lemma db_headers_updated w : db (headers_updated w) = db w.
Proof. unfold headers_updated. destruct (get_headers (requester w)). reflexivity. Qed.

Lemma db_proxy_configured w : db (proxy_configured w) = db w.
Proof. unfold proxy_configured. destruct (get_proxy (requester w)). reflexivity. Qed.

Lemma attempts_of_get url n tr :
  attempts_of url (HttpGet url n :: tr) = n :: attempts_of url tr.
Proof. unfold attempts_of. simpl. rewrite decide_True by reflexivity. reflexivity. Qed.

Lemma attempts_of_cookie url tr :
  attempts_of url (CookieRefresh :: tr) = attempts_of url tr.
Proof. reflexivity. Qed.

Lemma loop_post_step e url tried w w1 out :
  attempts_of url (trace w1) = S tried :: attempts_of url (trace w) ->
  db w1 = db w ->
  is_200 (http e url (S tried)) = false ->
  loop_post e url (S tried) w1 out ->
  loop_post e url tried w out.
Proof.
  intros Htr Hdb Hno (n & Hn & Hat & Hd & Hall & Hres).
  exists n. split; [lia|]. split; [|split; [congruence|split]].
  - rewrite Hat, Htr.
    replace (n - tried)%nat with (S (n - S tried)) by lia.
    cbn [seq rev]. rewrite <- app_assoc. reflexivity.
  - replace (n - tried - 1)%nat with (S (n - S tried - 1)) by lia.
    simpl. rewrite Hno. simpl. exact Hall.
  - exact Hres.
Qed.

Lemma loop_post_last e url tried w w1 r :
  S tried = 3%nat \/ (exists resp, r = Return resp /\ status_code resp = 200) ->
  attempts_of url (trace w1) = S tried :: attempts_of url (trace w) ->
  db w1 = db w ->
  (S tried <= 3)%nat ->
  match r with
  | Return resp => http e url (S tried) = Responded resp
                   /\ (status_code resp = 200 \/ S tried = 3%nat)
  | Raise ex =>
      S tried = 3%nat /\
      exists err, http e url 3 = Failed err /\
                  ex = HTTPError ("Failed after 3 attempts: " +:+ str err)
  end ->
  loop_post e url tried w (r, w1).
Proof.
  intros _ Htr Hdb Hle Hres. exists (S tried). simpl.
  split; [lia|]. replace (S tried - tried)%nat with 1%nat by lia.
  replace (tried - tried - 0)%nat with 0%nat by lia.
  simpl. repeat split; assumption.
Qed.

Lemma not_200_of_soft_block status :
  soft_block status = true -> (status =? 200) = false.
Proof.
  unfold soft_block. intros H. destruct (status =? 200) eqn:E; [|reflexivity].
  apply Z.eqb_eq in E. subst status. discriminate.
Qed.

Lemma get_loop_spec e url :
  forall remaining tried w,
    (remaining + tried = 3)%nat -> (1 <= remaining)%nat ->
    loop_post e url tried w (get_loop e url remaining tried w).
Proof.
  induction remaining as [|remaining IH]; intros tried w Hsum Hpos; [lia|].
  cbn [get_loop]. unfold bind, try_except, emit, modify, ret, raise,
    _update_headers, _configure_proxy, _refresh_cookies, emit, modify.
  set (w0 := {| db := db w; requester := requester w; jobs := jobs w;
                _error_counts := _error_counts w;
                trace := HttpGet url (S tried) :: trace w |}).
  assert (Htr0 : attempts_of url (trace w0) = S tried :: attempts_of url (trace w))
    by apply attempts_of_get.
  assert (Hcases : tried = 2%nat \/ (tried < 2)%nat) by lia.
  destruct Hcases as [-> | Hlt].
  - (* the last attempt *)
    destruct (http e url 3) as [resp|ex] eqn:Hhttp.
    + assert (Hret : loop_post e url 2 w (Return resp, w0)).
      { apply loop_post_last; auto. }
      destruct (soft_block (status_code resp)); simpl;
        destruct (status_code resp =? 200); exact Hret.
    + simpl. apply loop_post_last; auto. split; [reflexivity|]. eauto.
  - (* an earlier attempt *)
    assert (Hlt' : Nat.ltb (S tried) MAX_RETRIES = true)
      by (apply Nat.ltb_lt; unfold MAX_RETRIES; lia).
    assert (Hne : Nat.eqb (S tried) MAX_RETRIES = false)
      by (apply Nat.eqb_neq; unfold MAX_RETRIES; lia).
    rewrite Hlt', Hne.
    destruct (http e url (S tried)) as [resp|ex] eqn:Hhttp.
    + destruct (soft_block (status_code resp)) eqn:Hsoft; cbn [andb].
      * eapply loop_post_step; [| | |apply IH; lia].
        -- cbn [snd trace]. rewrite trace_headers_updated. exact Htr0.
        -- cbn [snd db]. rewrite db_headers_updated. reflexivity.
        -- rewrite Hhttp. simpl. apply not_200_of_soft_block. exact Hsoft.
      * destruct (status_code resp =? 200) eqn:E.
        -- apply Z.eqb_eq in E. apply loop_post_last; auto; try lia.
           right. eauto.
        -- eapply loop_post_step; [| | |apply IH; lia].
           ++ exact Htr0.
           ++ reflexivity.
           ++ rewrite Hhttp. simpl. exact E.
    + eapply loop_post_step; [| | |apply IH; lia].
      * rewrite trace_proxy_configured, trace_headers_updated. exact Htr0.
      * rewrite db_proxy_configured, db_headers_updated. reflexivity.
      * rewrite Hhttp. reflexivity.
Qed.

(** C8. One logical request makes between one and three [session.get]
    attempts, numbered 1..n in order; no attempt before the last one made
    ended with HTTP 200, so a 200 response stops the retries at once and is
    returned; otherwise all three attempts are made and the outcome of the
    third reaches the caller: its response is returned, or its transport
    error is raised as [HTTPError] carrying the error text. *)
Theorem get_makes_at_most_three_attempts (e : env) (url : request) (w : world) :
  let out := get e url w in
  exists n : nat,
    (1 <= n <= 3)%nat /\
    attempts_of url (trace (snd out)) = rev (seq 1 n) ++ attempts_of url (trace w) /\
    forallb (fun k => negb (is_200 (http e url k))) (seq 1 (n - 1)) = true /\
    match fst out with
    | Return resp =>
        http e url n = Responded resp /\ (status_code resp = 200 \/ n = 3%nat)
    | Raise ex =>
        n = 3%nat /\
        exists err, http e url 3 = Failed err /\
                    ex = HTTPError ("Failed after 3 attempts: " +:+ str err)
    end.
Proof.
  intros out. subst out. unfold get, bind, _configure_proxy, modify.
  destruct (get_loop_spec e url MAX_RETRIES 0 (proxy_configured w))
    as (n & Hn & Hat & _ & Hall & Hres); [reflexivity | unfold MAX_RETRIES; lia |].
  exists n. rewrite trace_proxy_configured in Hat.
  rewrite Nat.sub_0_r in Hat, Hall.
  split; [lia|]. split; [exact Hat|]. split; [exact Hall|]. exact Hres.
Qed.
End ClientProperties.

(** ** The notification fan-out *)

Section NotifyProperties.
Import Notify.

Lemma existsb_Permutation {A} (f : A -> bool) (l l' : list A) :
  l ≡ₚ l' -> existsb f l = existsb f l'.
Proof.
  induction 1; simpl; try congruence.
  destruct (f x), (f y); reflexivity.
Qed.

Lemma any_values_empty : any_values ∅ = false.
Proof. unfold any_values. rewrite map_to_list_empty. reflexivity. Qed.

Lemma any_values_insert (k : string) (v : bool) (m : gmap string bool) :
  m !! k = None -> any_values (<[k := v]> m) = v || any_values m.
Proof.
  intros H. unfold any_values.
  rewrite (existsb_Permutation _ _ _ (map_to_list_insert m k v H)). reflexivity.
Qed.

Lemma channel_block_spec e self c product results w :
  exists w',
    channel_block e (configured self c) c product results w
      = (Return (recorded e self product c results), w') /\
    trace w' = (if configured self c then ProductSend c product :: trace w else trace w) /\
    products (db w') = products (db w).
Proof.
  unfold channel_block, recorded, reports_success.
  destruct (configured self c); [|eexists; repeat split; reflexivity].
  unfold bind, try_except, emit, modify, ret, raise, _log_notification, update_db, modify.
  destruct (send_product_notification e c product) as [ok|ex];
    eexists; repeat split; reflexivity.
Qed.

Lemma channel_name_inj c c' : channel_name c = channel_name c' -> c = c'.
Proof. destruct c, c'; simpl; intros H; try reflexivity; discriminate. Qed.

Lemma sends_of_cons c product tr :
  sends_of product (ProductSend c product :: tr) = c :: sends_of product tr.
Proof. unfold sends_of. simpl. rewrite Z.eqb_refl. reflexivity. Qed.

Lemma mark_notified_marked now p : marked_delivered now p (mark_notified now p).
Proof. repeat split. Qed.

(** The rows after the marking of [notify_product], row by row. *)
Lemma marked_rows (now product : Z) (sent : bool) (l : list Product) :
  Forall2
    (fun p p' =>
       if (product_id p =? product) && sent then marked_delivered now p p' else p' = p)
    l
    (if sent
     then map (fun p => if product_id p =? product then mark_notified now p else p) l
     else l).
Proof.
  destruct sent.
  - induction l as [|p l IH]; cbn [map]; [constructor|].
    constructor; [|exact IH]. rewrite andb_true_r.
    destruct (product_id p =? product); [apply mark_notified_marked | reflexivity].
  - induction l as [|p l IH]; [constructor|].
    constructor; [|exact IH]. rewrite andb_false_r. reflexivity.
Qed.

(** C7. For every item handed to the fan-out, every configured channel is
    attempted once, in order, whatever the other channels did; a channel
    that raises is recorded as [false] in the result map and a channel that
    is not configured has no entry; the row of the item in the store is
    marked delivered (flag set, time recorded, other columns kept) exactly
    when some configured channel reports success, and no other row changes.
    With Telegram and Discord configured, Telegram succeeding and Discord
    raising, the result map is [{telegram: true, discord: false}] and the
    row of the item is marked delivered. *)
Theorem notify_product_isolates_channels (e : env) (self : NotificationManager)
    (product : Z) (w : world) :
  let out := notify_product e self product w in
  exists results : gmap string bool,
    fst out = Return results /\
    (forall c, results !! channel_name c =
               if configured self c then Some (reports_success e c product) else None) /\
    sends_of product (trace (snd out))
      = rev (List.filter (configured self) all_channels) ++ sends_of product (trace w) /\
    Forall2
      (fun p p' =>
         if (product_id p =? product)
            && existsb (fun c => configured self c && reports_success e c product)
                       all_channels
         then marked_delivered (utcnow e) p p'
         else p' = p)
      (products (db w)) (products (db (snd out))) /\
    (self = {| _telegram := true; _discord := true; _webhook := false |} ->
     send_product_notification e Telegram product = Sent true ->
     (exists ex, send_product_notification e Discord product = SendRaised ex) ->
     results = {[ "telegram" := true; "discord" := false ]} /\
     Forall2
       (fun p p' =>
          if product_id p =? product then marked_delivered (utcnow e) p p' else p' = p)
       (products (db w)) (products (db (snd out)))).
Proof.
  intros out. subst out.
  set (delivered :=
         existsb (fun c => configured self c && reports_success e c product) all_channels).
  pose (r3 := recorded e self product Webhook
                (recorded e self product Discord
                   (recorded e self product Telegram ∅))).
  assert (Hlook : forall c, r3 !! channel_name c =
            if configured self c then Some (reports_success e c product) else None).
  { intros c. unfold r3, recorded.
    destruct c; cbn [configured channel_name];
      destruct (_telegram self), (_discord self), (_webhook self);
      simplify_map_eq; reflexivity. }
  assert (Hany : any_values r3 = delivered).
  { unfold delivered, r3, recorded, all_channels.
    cbn [existsb configured channel_name].
    destruct (_telegram self), (_discord self), (_webhook self); cbn [andb];
      repeat (rewrite any_values_insert by (simplify_map_eq; reflexivity));
      rewrite any_values_empty;
      repeat match goal with
             | |- context [reports_success e ?c product] =>
                 destruct (reports_success e c product)
             end; reflexivity. }
  assert (Hscen : self = {| _telegram := true; _discord := true; _webhook := false |} ->
                  send_product_notification e Telegram product = Sent true ->
                  (exists ex, send_product_notification e Discord product = SendRaised ex) ->
                  r3 = {[ "telegram" := true; "discord" := false ]} /\ delivered = true).
  { intros -> Ht [ex Hd]. unfold delivered, r3, recorded, reports_success, all_channels.
    cbn [existsb configured channel_name _telegram _discord _webhook andb].
    rewrite Ht, Hd. split; [|reflexivity].
    rewrite insert_insert_ne by discriminate. rewrite insert_empty. reflexivity. }
  unfold notify_product, bind.
  destruct (channel_block_spec e self Telegram product ∅ w) as (w1 & E1 & T1 & P1).
  cbn [configured] in E1. rewrite E1. clear E1.
  destruct (channel_block_spec e self Discord product
              (recorded e self product Telegram ∅) w1) as (w2 & E2 & T2 & P2).
  cbn [configured] in E2. rewrite E2. clear E2.
  destruct (channel_block_spec e self Webhook product
              (recorded e self product Discord (recorded e self product Telegram ∅)) w2)
    as (w3 & E3 & T3 & P3).
  cbn [configured] in E3. rewrite E3. clear E3.
  fold r3. clearbody r3. rewrite Hany.
  assert (Htrace : sends_of product (trace w3)
            = rev (List.filter (configured self) all_channels) ++ sends_of product (trace w)).
  { rewrite T3, T2, T1. unfold all_channels. cbn [List.filter configured].
    destruct (_telegram self), (_discord self), (_webhook self); cbn [rev app];
      rewrite ?sends_of_cons; reflexivity. }
  assert (Hprod : products (db w3) = products (db w)) by congruence.
  pose proof (marked_rows (utcnow e) product delivered (products (db w))) as Hrows.
  exists r3.
  destruct delivered eqn:Hdel; unfold update_db, modify, ret; cbn [fst snd];
    (split; [reflexivity|]; split; [exact Hlook|]; split; [exact Htrace|]);
    cbn [db set_db set_products products]; rewrite ?Hprod.
  - split; [exact Hrows|]. intros H1 H2 H3. split; [apply (Hscen H1 H2 H3)|].
    eapply Forall2_impl; [exact Hrows|]. intros p p'. cbv beta.
    rewrite andb_true_r. auto.
  - split; [exact Hrows|]. intros H1 H2 H3.
    destruct (Hscen H1 H2 H3) as [_ H]. discriminate.
Qed.
End NotifyProperties.

(** ** The scrape pipeline *)

Lemma same_records_refl w : same_records w w.
Proof. split; reflexivity. Qed.

Lemma same_records_trans w1 w2 w3 :
  same_records w1 w2 -> same_records w2 w3 -> same_records w1 w3.
Proof. intros [? ?] [? ?]. split; congruence. Qed.

Ltac records_frame :=
  unfold update_db, emit, Client._update_headers, Client._configure_proxy,
    Client._refresh_cookies, emit;
  repeat stable_step same_records_refl same_records_trans scheduler_base.

Lemma get_loop_same_records e url remaining :
  forall tried, stable same_records (Client.get_loop e url remaining tried).
Proof.
  induction remaining as [|remaining IH]; intros tried; cbn [Client.get_loop];
    records_frame.
Qed.
#[local] Hint Resolve get_loop_same_records : frame.

Lemma get_same_records e url : stable same_records (Client.get e url).
Proof. unfold Client.get. records_frame. Qed.
#[local] Hint Resolve get_same_records : frame.

Lemma scrape_catalog_same_records e url :
  stable same_records (Client.scrape_catalog e url).
Proof. unfold Client.scrape_catalog. records_frame. Qed.
#[local] Hint Resolve scrape_catalog_same_records : frame.

Lemma get_seller_info_same_records e v :
  stable same_records (Client.get_seller_info e v).
Proof. unfold Client.get_seller_info. records_frame. Qed.
#[local] Hint Resolve get_seller_info_same_records : frame.

Lemma seller_body_same_records e th v counts :
  stable same_records (Scraper.seller_body e th v counts).
Proof. unfold Scraper.seller_body, Scraper.commit_sellers. records_frame. Qed.
#[local] Hint Resolve seller_body_same_records : frame.

Lemma seller_loop_same_records e th ids :
  forall counts, stable same_records (Scraper.seller_loop e th ids counts).
Proof.
  induction ids as [|v ids IH]; intros counts; cbn [Scraper.seller_loop];
    records_frame.
Qed.
#[local] Hint Resolve seller_loop_same_records : frame.

Lemma seller_step_same_records e products_data :
  stable same_records (Scraper.seller_step e products_data).
Proof. unfold Scraper.seller_step. records_frame. Qed.

Lemma new_requester_same_records : stable same_records Client.new_requester.
Proof. unfold Client.new_requester. records_frame. Qed.

Lemma bind_return {A B} (m : M A) (k : A -> M B) w a w' :
  m w = (Return a, w') -> bind m k w = k a w'.
Proof. intros H. unfold bind. rewrite H. reflexivity. Qed.

Lemma bind_raise {A B} (m : M A) (k : A -> M B) w ex w' :
  m w = (Raise ex, w') -> bind m k w = (Raise ex, w').
Proof. intros H. unfold bind. rewrite H. reflexivity. Qed.

Lemma try_except_return {A} (m : M A) (h : exn -> M A) w a w' :
  m w = (Return a, w') -> try_except m h w = (Return a, w').
Proof. intros H. unfold try_except. rewrite H. reflexivity. Qed.

Lemma try_except_raise {A} (m : M A) (h : exn -> M A) w ex w' :
  m w = (Raise ex, w') -> try_except m h w = h ex w'.
Proof. intros H. unfold try_except. rewrite H. reflexivity. Qed.

Lemma get_all_blocked e url w r1 r2 r3 :
  http e url 1 = Responded r1 -> Client.soft_block (status_code r1) = true ->
  http e url 2 = Responded r2 -> Client.soft_block (status_code r2) = true ->
  http e url 3 = Responded r3 -> Client.soft_block (status_code r3) = true ->
  exists w', Client.get e url w = (Return r3, w') /\ db w' = db w.
Proof.
  intros H1 S1 H2 S2 H3 S3.
  destruct (get_loop_spec e url Client.MAX_RETRIES 0 (Client.proxy_configured w))
    as (n & Hn & _ & Hdb & _ & Hres); [reflexivity | unfold Client.MAX_RETRIES; lia |].
  unfold Client.get. erewrite bind_return by reflexivity.
  change (snd (Client._configure_proxy w)) with (Client.proxy_configured w).
  change (Client._configure_proxy w) with (Return tt, Client.proxy_configured w).
  cbn [snd].
  destruct (Client.get_loop e url Client.MAX_RETRIES 0 (Client.proxy_configured w))
    as [[resp|ex] w'] eqn:E; cbn [fst snd] in *.
  - exists w'. rewrite db_proxy_configured in Hdb. split; [|exact Hdb].
    destruct Hres as [Hn' Hs].
    assert (Hc : n = 1%nat \/ n = 2%nat \/ n = 3%nat) by lia.
    destruct Hc as [-> | [-> | ->]].
    + rewrite H1 in Hn'. injection Hn' as <-.
      destruct Hs as [Hs | Hs]; [|discriminate].
      apply not_200_of_soft_block in S1. rewrite Hs in S1. discriminate.
    + rewrite H2 in Hn'. injection Hn' as <-.
      destruct Hs as [Hs | Hs]; [|discriminate].
      apply not_200_of_soft_block in S2. rewrite Hs in S2. discriminate.
    + rewrite H3 in Hn'. injection Hn' as <-. reflexivity.
  - destruct Hres as [_ (err & Herr & _)]. rewrite H3 in Herr. discriminate.
Qed.

Lemma get_first_200 e url w r :
  http e url 1 = Responded r -> status_code r = 200 ->
  exists w', Client.get e url w = (Return r, w') /\ db w' = db w.
Proof.
  intros H1 S1.
  unfold Client.get, Client.get_loop, Client.MAX_RETRIES, bind, try_except, emit,
    modify, ret, Client._configure_proxy, modify.
  rewrite H1. unfold Client.soft_block. rewrite S1. cbn.
  eexists. split; [reflexivity|]. cbn. apply db_proxy_configured.
Qed.

Lemma slice_to_nil {A} (n : Z) : Scraper.slice_to n (@nil A) = [].
Proof. unfold Scraper.slice_to. destruct (0 <=? n); apply firstn_nil. Qed.

Lemma open_log_spec e search w :
  Scraper.open_log e search w
  = (Return (Scraper.next_id slog_id (scraping_logs (db w))), log_opened e search w).
Proof. reflexivity. Qed.

Lemma finish_log_latest e search w w' status err :
  scraping_logs (db w') = scraping_logs (db w) ++ [opened_log e search w] ->
  Scraper.latest_log
    (snd (Scraper._finish_log e (Scraper.next_id slog_id (scraping_logs (db w)))
            status 0 err 0 0 0 0 w'))
  = Some (closed_log e search w status
            (if Str.truthy_opt err then err else None)).
Proof.
  intros H. unfold Scraper._finish_log, Scraper.latest_log, update_db, modify.
  cbn [snd db set_db Scraper.set_scraping_logs scraping_logs].
  rewrite H, map_app. cbn [map opened_log slog_id]. rewrite Z.eqb_refl.
  rewrite last_snoc. reflexivity.
Qed.

Lemma finish_log_products e lid status found err a b c d w :
  products (db (snd (Scraper._finish_log e lid status found err a b c d w)))
  = products (db w).
Proof. reflexivity. Qed.

Lemma scrape_and_save_nothing_found e self search w w2 :
  Client.scrape_catalog e (Scraper.catalog_request search) (log_opened e search w)
    = (Return [], w2) ->
  db w2 = db (log_opened e search w) ->
  exists w3,
    Scraper.scrape_and_save e self search w = (Return Scraper._build_empty_result, w3)
    /\ Scraper.latest_log w3 = Some (closed_log e search w "success" None)
    /\ products (db w3) = products (db w).
Proof.
  intros Hcat Hdb.
  unfold Scraper.scrape_and_save, Scraper.fetch_step, bind, try_except.
  rewrite open_log_spec, Hcat. unfold get_world, ret.
  cbn [rev length]. change (Z.of_nat 0) with 0.
  replace (if Client.get_max_products (requester w2) <? 0
           then Scraper.slice_to (Client.get_max_products (requester w2)) []
           else @nil ProductCreate) with (@nil ProductCreate)
    by (destruct (_ <? 0); [rewrite slice_to_nil|]; reflexivity).
  cbv beta iota.
  match goal with
  | |- context [Scraper._finish_log ?e ?l ?s ?f ?er ?a ?b ?c ?d w2] =>
      pose proof (finish_log_latest e search w w2 "success" None) as Hlatest;
      pose proof (finish_log_products e l s f er a b c d w2) as Hprod;
      destruct (Scraper._finish_log e l s f er a b c d w2) as [[[]|ex] w3] eqn:E
  end.
  - exists w3. cbn [snd] in *. split; [reflexivity|]. split.
    + apply Hlatest. rewrite Hdb. reflexivity.
    + rewrite Hprod, Hdb. reflexivity.
  - discriminate E.
Qed.

Lemma scrape_and_save_fetch_raises e self search w ex w2 :
  Client.scrape_catalog e (Scraper.catalog_request search) (log_opened e search w)
    = (Raise ex, w2) ->
  exists w3,
    Scraper.scrape_and_save e self search w
      = (Return (Scraper._build_error_result (str ex)), w3)
    /\ Scraper.latest_log w3
       = Some (closed_log e search w "failed"
                 (if Str.truthy (str ex) then Some (str ex) else None))
    /\ products (db w3) = products (db w).
Proof.
  intros Hcat.
  pose proof (scrape_catalog_same_records e (Scraper.catalog_request search)
                (log_opened e search w)) as [Hlogs Hprods].
  rewrite Hcat in Hlogs, Hprods. cbn [snd] in Hlogs, Hprods.
  unfold Scraper.scrape_and_save, Scraper.fetch_step, bind, try_except.
  rewrite open_log_spec, Hcat.
  match goal with
  | |- context [Scraper._finish_log ?e ?l ?s ?f ?er ?a ?b ?c ?d w2] =>
      pose proof (finish_log_latest e search w w2 "failed" (Some (str ex))) as Hlatest;
      pose proof (finish_log_products e l s f er a b c d w2) as Hprod;
      destruct (Scraper._finish_log e l s f er a b c d w2) as [[[]|ex'] w3] eqn:E
  end.
  - exists w3. cbn [snd] in *. split; [reflexivity|]. split.
    + rewrite Hlatest by exact Hlogs. cbn [Str.truthy_opt].
      destruct (Str.truthy (str ex)); reflexivity.
    + rewrite Hprod, Hprods. reflexivity.
  - discriminate E.
Qed.

Lemma scrape_catalog_all_blocked e url w r1 r2 r3 :
  http e url 1 = Responded r1 -> Client.soft_block (status_code r1) = true ->
  http e url 2 = Responded r2 -> Client.soft_block (status_code r2) = true ->
  http e url 3 = Responded r3 -> Client.soft_block (status_code r3) = true ->
  exists w', Client.scrape_catalog e url w = (Return [], w') /\ db w' = db w.
Proof.
  intros H1 S1 H2 S2 H3 S3.
  destruct (get_all_blocked e url w r1 r2 r3 H1 S1 H2 S2 H3 S3) as (w' & Hget & Hdb).
  exists w'. split; [|exact Hdb].
  unfold Client.scrape_catalog. rewrite (bind_return _ _ _ _ _ Hget).
  rewrite (not_200_of_soft_block _ S3). reflexivity.
Qed.

Lemma scrape_catalog_empty_page e url w r u :
  http e url 1 = Responded r -> status_code r = 200 ->
  json_body r = Some {| items := []; user := u |} ->
  exists w', Client.scrape_catalog e url w = (Return [], w') /\ db w' = db w.
Proof.
  intros H1 S1 Hbody.
  destruct (get_first_200 e url w r H1 S1) as (w' & Hget & Hdb).
  exists w'. split; [|exact Hdb].
  unfold Client.scrape_catalog. rewrite (bind_return _ _ _ _ _ Hget).
  rewrite S1, Hbody. reflexivity.
Qed.

(** C10. When the three attempts of the catalog request all end in a soft
    block (401, 403 or 404), [get] returns the third response without
    raising, [scrape_catalog] returns the empty list, and [scrape_and_save]
    returns the empty result and closes the run log with status [success]
    and zero products; a run over a catalog that answers 200 with no items
    at the same instant returns the same result and leaves the same log
    row. *)
Theorem blocked_fetch_is_recorded_as_success (e : env) (self : Scraper.VintedScraper)
    (search : Search) (w : world) (r1 r2 r3 : response) :
  let url := Scraper.catalog_request search in
  http e url 1 = Responded r1 -> Client.soft_block (status_code r1) = true ->
  http e url 2 = Responded r2 -> Client.soft_block (status_code r2) = true ->
  http e url 3 = Responded r3 -> Client.soft_block (status_code r3) = true ->
  (exists w', Client.get e url w = (Return r3, w')) /\
  (exists w', Client.scrape_catalog e url w = (Return [], w')) /\
  (exists w',
     Scraper.scrape_and_save e self search w = (Return Scraper._build_empty_result, w')
     /\ Scraper.latest_log w' = Some (closed_log e search w "success" None)
     /\ forall e' r u,
          utcnow e' = utcnow e ->
          http e' url 1 = Responded r -> status_code r = 200 ->
          json_body r = Some {| items := []; user := u |} ->
          exists w'',
            Scraper.scrape_and_save e' self search w
              = (Return Scraper._build_empty_result, w'')
            /\ Scraper.latest_log w'' = Scraper.latest_log w').
Proof.
  intros url H1 S1 H2 S2 H3 S3. subst url.
  split; [|split].
  - destruct (get_all_blocked e _ w r1 r2 r3 H1 S1 H2 S2 H3 S3) as (w' & Hget & _).
    exists w'. exact Hget.
  - destruct (scrape_catalog_all_blocked e _ w r1 r2 r3 H1 S1 H2 S2 H3 S3)
      as (w' & Hcat & _).
    exists w'. exact Hcat.
  - destruct (scrape_catalog_all_blocked e _ (log_opened e search w) r1 r2 r3
                H1 S1 H2 S2 H3 S3) as (w2 & Hcat & Hdb).
    destruct (scrape_and_save_nothing_found e self search w w2 Hcat Hdb)
      as (w3 & Hrun & Hlog & _).
    exists w3. split; [exact Hrun|]. split; [exact Hlog|].
    intros e' r u Hnow Hr Hs Hbody.
    destruct (scrape_catalog_empty_page e' _ (log_opened e' search w) r u Hr Hs Hbody)
      as (w2' & Hcat' & Hdb').
    destruct (scrape_and_save_nothing_found e' self search w w2' Hcat' Hdb')
      as (w3' & Hrun' & Hlog' & _).
    exists w3'. split; [exact Hrun'|]. rewrite Hlog', Hlog.
    unfold closed_log. rewrite Hnow. reflexivity.
Qed.

Lemma fetch_step_continues e log search w1 products_data w2 :
  Scraper.fetch_step e log search w1 = (Return (inr products_data), w2) ->
  same_records w1 w2.
Proof.
  unfold Scraper.fetch_step, try_except, bind.
  pose proof (scrape_catalog_same_records e (Scraper.catalog_request search) w1) as Hs.
  destruct (Client.scrape_catalog e (Scraper.catalog_request search) w1)
    as [[l|ex] w'] eqn:Hcat; cbn [snd] in Hs.
  - unfold get_world, ret.
    match goal with
    | |- context [match ?x with [] => _ | _ :: _ => _ end w'] => destruct x
    end.
    + destruct (Scraper._finish_log _ _ _ _ _ _ _ _ _ w') as [[[]|?] ?]; discriminate.
    + intros H. injection H as _ <-. exact Hs.
  - destruct (Scraper._finish_log _ _ _ _ _ _ _ _ _ w') as [[[]|?] ?]; discriminate.
Qed.

Lemma save_products_raises e search products_data w ex w' :
  Scraper.save_products e search products_data w = (Raise ex, w') -> w' = w.
Proof.
  unfold Scraper.save_products, bind, read_db, update_db, modify, ret, raise.
  destruct (bool_decide _); intros H; [discriminate|].
  injection H as _ <-. reflexivity.
Qed.

(** C1 (amended). When the catalog fetch raises, or when the run reaches
    the persistence step and that step raises, [scrape_and_save] aborts
    the run without persisting any product, closes the [ScrapingLog] of the
    run with status [failed] and the text of the exception, and returns the
    error result carrying that text to its caller; it does not raise. *)
Theorem scrape_and_save_contains_failures (e : env) (self : Scraper.VintedScraper)
    (search : Search) (w : world) (ex : exn) :
  let aborted w' :=
    Scraper.scrape_and_save e self search w
      = (Return (Scraper._build_error_result (str ex)), w')
    /\ Scraper.latest_log w'
       = Some (closed_log e search w "failed"
                 (if Str.truthy (str ex) then Some (str ex) else None))
    /\ products (db w') = products (db w) in
  (forall w2,
     Client.scrape_catalog e (Scraper.catalog_request search) (log_opened e search w)
       = (Raise ex, w2) ->
     exists w', aborted w') /\
  (forall fetched w1 counts w2 w3,
     let accepted_items :=
       fst (Filter.filter_products (Scraper.filter_manager self) fetched (Some search)) in
     Scraper.fetch_step e (Scraper.next_id slog_id (scraping_logs (db w))) search
       (log_opened e search w) = (Return (inr fetched), w1) ->
     accepted_items <> [] ->
     Scraper.seller_step e accepted_items w1 = (Return counts, w2) ->
     Scraper.save_products e search accepted_items w2 = (Raise ex, w3) ->
     exists w', aborted w').
Proof.
  intros aborted. subst aborted. split.
  - intros w2 Hcat. apply (scrape_and_save_fetch_raises e self search w ex w2 Hcat).
  - intros fetched w1 counts w2 w3 accepted_items Hfetch Hne Hsell Hsave.
    pose proof (fetch_step_continues _ _ _ _ _ _ Hfetch) as [Hl1 Hp1].
    pose proof (seller_step_same_records e accepted_items w1) as [Hl2 Hp2].
    rewrite Hsell in Hl2, Hp2. cbn [snd] in Hl2, Hp2.
    pose proof (save_products_raises _ _ _ _ _ _ Hsave) as ->.
    unfold Scraper.scrape_and_save.
    rewrite (bind_return _ _ _ _ _ (open_log_spec e search w)).
    rewrite (bind_return _ _ _ _ _ Hfetch).
    subst accepted_items.
    destruct (Filter.filter_products (Scraper.filter_manager self) fetched (Some search))
      as [[|p l] st]; [contradiction Hne; reflexivity|].
    cbn [fst] in *.
    rewrite (bind_return _ _ _ _ _ Hsell).
    unfold Scraper.save_step.
    erewrite bind_return;
      [|erewrite try_except_raise;
          [reflexivity | erewrite bind_raise by exact Hsave; reflexivity]].
    eexists. split; [reflexivity|]. split.
    + etransitivity;
        [apply (finish_log_latest e search w w2 "failed" (Some (str ex)));
         rewrite Hl2, Hl1; reflexivity|].
      cbn [Str.truthy_opt]. destruct (Str.truthy (str ex)); reflexivity.
    + cbn [db set_db Scraper.set_scraping_logs products]. rewrite Hp2, Hp1. reflexivity.
Qed.

(** *** Computations that never raise *)

Lemma returns_ret {A} (a : A) : returns (ret a).
Proof. intros w. exists a. reflexivity. Qed.

Lemma returns_modify f : returns (modify f).
Proof. intros w. exists tt. reflexivity. Qed.

Lemma returns_get_world : returns get_world.
Proof. intros w. exists w. reflexivity. Qed.

Lemma returns_read_db : returns read_db.
Proof. intros w. exists (db w). reflexivity. Qed.

Lemma returns_bind {A B} (m : M A) (k : A -> M B) :
  returns m -> (forall a, returns (k a)) -> returns (bind m k).
Proof.
  intros Hm Hk w. unfold bind. destruct (Hm w) as [a Ha].
  destruct (m w) as [[a'|ex] w1]; cbn [fst] in Ha; [|discriminate].
  apply Hk.
Qed.

Lemma returns_try_except {A} (m : M A) (h : exn -> M A) :
  (forall ex, returns (h ex)) -> returns (try_except m h).
Proof.
  intros Hh w. unfold try_except.
  destruct (m w) as [[a|ex] w1]; [exists a; reflexivity | apply Hh].
Qed.

Create HintDb returns.

Ltac returns_step :=
  first
    [ solve [auto with returns nocore]
    | apply returns_ret
    | apply returns_modify
    | apply returns_get_world
    | apply returns_read_db
    | apply returns_try_except; intros
    | apply returns_bind; [ | intros ]
    | match goal with
      | |- returns (match ?x with _ => _ end) => destruct x
      | |- returns (if ?x then _ else _) => destruct x
      end ].

Ltac returns_auto := unfold update_db, emit; repeat returns_step.

Lemma finish_log_returns e l s f er a b c d :
  returns (Scraper._finish_log e l s f er a b c d).
Proof. unfold Scraper._finish_log. returns_auto. Qed.
#[local] Hint Resolve finish_log_returns : returns.

Lemma fetch_step_returns e log search : returns (Scraper.fetch_step e log search).
Proof. unfold Scraper.fetch_step. returns_auto. Qed.
#[local] Hint Resolve fetch_step_returns : returns.

Lemma seller_loop_returns e th ids :
  forall counts, returns (Scraper.seller_loop e th ids counts).
Proof.
  induction ids as [|v ids IH]; intros counts; cbn [Scraper.seller_loop]; returns_auto.
Qed.
#[local] Hint Resolve seller_loop_returns : returns.

Lemma seller_step_returns e pd : returns (Scraper.seller_step e pd).
Proof. unfold Scraper.seller_step. returns_auto. Qed.
#[local] Hint Resolve seller_step_returns : returns.

Lemma save_step_returns e log search pd : returns (Scraper.save_step e log search pd).
Proof. unfold Scraper.save_step. returns_auto. Qed.
#[local] Hint Resolve save_step_returns : returns.

Lemma send_notifications_returns e rows : returns (Scraper.send_notifications e rows).
Proof. unfold Scraper.send_notifications. returns_auto. Qed.
#[local] Hint Resolve send_notifications_returns : returns.

Lemma open_log_returns e search : returns (Scraper.open_log e search).
Proof. unfold Scraper.open_log. returns_auto. Qed.
#[local] Hint Resolve open_log_returns : returns.

Lemma scrape_and_save_returns e self search :
  returns (Scraper.scrape_and_save e self search).
Proof. unfold Scraper.scrape_and_save. returns_auto. Qed.

(** *** What a run does to the products *)

Lemma same_products_refl w : same_products w w.
Proof. reflexivity. Qed.

Lemma same_products_trans w1 w2 w3 :
  same_products w1 w2 -> same_products w2 w3 -> same_products w1 w3.
Proof. unfold same_products. congruence. Qed.

Lemma same_records_products {A} (m : M A) :
  stable same_records m -> stable same_products m.
Proof. intros H w. apply H. Qed.

Ltac products_base :=
  unfold Client.headers_updated, Client.proxy_configured;
  repeat match goal with
         | |- context [let '(_, _) := ?x in _] => destruct x
         end;
  reflexivity.

Ltac products_frame :=
  unfold update_db, emit;
  repeat stable_step same_products_refl same_products_trans products_base.

Lemma finish_log_same_products e l s f er a b c d :
  stable same_products (Scraper._finish_log e l s f er a b c d).
Proof. unfold Scraper._finish_log. products_frame. Qed.
#[local] Hint Resolve finish_log_same_products : frame.

Lemma open_log_same_products e search : stable same_products (Scraper.open_log e search).
Proof. unfold Scraper.open_log. products_frame. Qed.
#[local] Hint Resolve open_log_same_products : frame.

Lemma scrape_catalog_same_products e url :
  stable same_products (Client.scrape_catalog e url).
Proof. apply same_records_products, scrape_catalog_same_records. Qed.
#[local] Hint Resolve scrape_catalog_same_products : frame.

Lemma fetch_step_same_products e log search :
  stable same_products (Scraper.fetch_step e log search).
Proof. unfold Scraper.fetch_step. products_frame. Qed.
#[local] Hint Resolve fetch_step_same_products : frame.

Lemma seller_step_same_products e pd : stable same_products (Scraper.seller_step e pd).
Proof. apply same_records_products, seller_step_same_records. Qed.
#[local] Hint Resolve seller_step_same_products : frame.

Lemma marks_only_refl ids w : marks_only ids w w.
Proof.
  exists (fun p => p). split; [symmetry; apply map_id|].
  intros p. split; reflexivity.
Qed.

Lemma marks_only_trans ids w1 w2 w3 :
  marks_only ids w1 w2 -> marks_only ids w2 w3 -> marks_only ids w1 w3.
Proof.
  intros (f & Hf & Pf) (g & Hg & Pg). exists (fun p => g (f p)). split.
  - rewrite Hg, Hf, map_map. reflexivity.
  - intros p. destruct (Pf p) as [Hv Hid]. destruct (Pg (f p)) as [Hv' Hid']. split.
    + congruence.
    + intros Hn. rewrite (Hid Hn) in *. apply Hid'. exact Hn.
Qed.

Lemma marks_only_same ids w w' : same_products w w' -> marks_only ids w w'.
Proof.
  intros H. exists (fun p => p). split.
  - rewrite map_id. exact H.
  - intros p. split; reflexivity.
Qed.

Lemma channel_block_marks_only ids e b c p r :
  stable (marks_only ids) (Notify.channel_block e b c p r).
Proof.
  intros w. apply marks_only_same.
  destruct (channel_block_spec e {| Notify._telegram := b; Notify._discord := b;
                                    Notify._webhook := b |} c p r w)
    as (w' & E & _ & P).
  replace (Notify.configured _ c) with b in E by (destruct c; reflexivity).
  rewrite E. exact P.
Qed.

Lemma notify_product_marks_only ids e nm p :
  In p ids -> stable (marks_only ids) (Notify.notify_product e nm p).
Proof.
  intros Hin. unfold Notify.notify_product.
  repeat (apply (stable_bind _ (marks_only_trans ids));
          [try apply channel_block_marks_only | intros]).
  - destruct (Notify.any_values _).
    + intros w. unfold update_db, modify. cbn [snd].
      exists (fun q => if product_id q =? p then Notify.mark_notified (utcnow e) q else q).
      split; [reflexivity|].
      intros q. destruct (product_id q =? p) eqn:E.
      * split; [reflexivity|]. intros Hn. apply Z.eqb_eq in E. subst p. contradiction.
      * split; reflexivity.
    + apply (stable_ret _ (marks_only_refl ids)).
  - apply (stable_ret _ (marks_only_refl ids)).
Qed.

Lemma notify_loop_marks_only ids e nm ps :
  (forall p, In p ps -> In p ids) ->
  forall a b, stable (marks_only ids) (Notify.notify_loop e nm ps a b).
Proof.
  induction ps as [|p ps IH]; intros Hsub a b; cbn [Notify.notify_loop].
  - apply (stable_ret _ (marks_only_refl ids)).
  - apply (stable_bind _ (marks_only_trans ids)).
    + apply notify_product_marks_only. apply Hsub. left. reflexivity.
    + intros results. destruct (Notify.any_values results);
        apply IH; intros q Hq; apply Hsub; right; exact Hq.
Qed.

Lemma send_notifications_marks_only e rows :
  stable (marks_only (map product_id rows)) (Scraper.send_notifications e rows).
Proof.
  unfold Scraper.send_notifications. destruct rows as [|r rows].
  - apply (stable_ret _ (marks_only_refl _)).
  - set (ids := map product_id (r :: rows)).
    apply (stable_try_except _ (marks_only_trans ids)).
    + apply (stable_bind _ (marks_only_trans ids)).
      * intros w. apply marks_only_refl.
      * intros nm. destruct (Notify.any_active nm).
        -- apply (stable_bind _ (marks_only_trans ids)).
           ++ unfold Notify.notify_products.
              apply (stable_bind _ (marks_only_trans ids)).
              ** apply notify_loop_marks_only. intros p Hp. exact Hp.
              ** intros counts. apply (stable_ret _ (marks_only_refl ids)).
           ++ intros st. apply (stable_ret _ (marks_only_refl ids)).
        -- apply (stable_ret _ (marks_only_refl ids)).
    + intros ex. apply (stable_ret _ (marks_only_refl ids)).
Qed.

Lemma next_id_above {A} (key : A -> Z) (rows : list A) (x : A) :
  In x rows -> key x < Scraper.next_id key rows.
Proof.
  unfold Scraper.next_id. induction rows as [|y rows IH]; intros Hin; [destruct Hin|].
  cbn [map fold_right]. destruct Hin as [-> | Hin]; [lia|].
  specialize (IH Hin). lia.
Qed.

Lemma new_products_ids now sid pending :
  forall next q, In q (Scraper.new_products now sid next pending) -> next <= product_id q.
Proof.
  induction pending as [|[pd seller] pending IH]; intros next q Hin; [destruct Hin|].
  cbn [Scraper.new_products] in Hin. destruct Hin as [<- | Hin]; [cbn; lia|].
  apply IH in Hin. lia.
Qed.

(** A successful [save_products] appends rows with fresh keys and leaves
    the UNIQUE constraint satisfied. *)
Lemma save_products_returns e search pd w rows w' :
  Scraper.save_products e search pd w = (Return rows, w') ->
  products (db w') = products (db w) ++ rows /\
  NoDup (map Scraper.vinted_id_of (products (db w) ++ rows)) /\
  (forall p q, In p (products (db w)) -> In q rows -> product_id p < product_id q).
Proof.
  unfold Scraper.save_products, bind, read_db, update_db, modify, ret, raise.
  destruct (bool_decide _) eqn:Hdec; intros H; [|discriminate].
  injection H as <- <-. apply bool_decide_eq_true in Hdec.
  split; [reflexivity|]. split; [exact Hdec|].
  intros p q Hp Hq. apply new_products_ids in Hq.
  pose proof (next_id_above product_id (products (db w)) p Hp). lia.
Qed.

Lemma step_run {A} (R : world -> world -> Prop) (m : M A) (w : world) :
  returns m -> stable R m -> exists a w', m w = (Return a, w') /\ R w w'.
Proof.
  intros Hr Hs. specialize (Hr w). specialize (Hs w).
  destruct (m w) as [[a|ex] w'] eqn:E; cbn [fst snd] in *.
  - exists a, w'. split; [reflexivity | exact Hs].
  - destruct Hr as [a Ha]. discriminate.
Qed.

Lemma fetch_step_early e log search w r w' :
  Scraper.fetch_step e log search w = (Return (inl r), w') -> Scraper.products_new r = 0.
Proof.
  unfold Scraper.fetch_step, try_except, bind.
  destruct (Client.scrape_catalog e (Scraper.catalog_request search) w) as [[l|ex] w1].
  - unfold get_world, ret.
    match goal with
    | |- context [match ?x with [] => _ | _ :: _ => _ end w1] => destruct x
    end.
    + destruct (Scraper._finish_log _ _ _ _ _ _ _ _ _ w1) as [[[]|?] ?];
        intros H; cbv beta iota in H; inversion H; reflexivity.
    + discriminate.
  - destruct (Scraper._finish_log _ _ _ _ _ _ _ _ _ w1) as [[[]|?] ?];
      intros H; cbv beta iota in H; inversion H; reflexivity.
Qed.

Lemma map_unmarked (f : Product -> Product) (ids : list Z) (old : list Product) :
  (forall p, ~ In (product_id p) ids -> f p = p) ->
  (forall p, In p old -> ~ In (product_id p) ids) ->
  map f old = old.
Proof.
  intros Hf Hold. induction old as [|p old IH]; [reflexivity|].
  cbn [map]. rewrite Hf by (apply Hold; left; reflexivity).
  rewrite IH; [reflexivity|]. intros q Hq. apply Hold. right. exact Hq.
Qed.

Lemma pending_products_spec d pd :
  Scraper.pending_products d pd
  = map (fun p => (p, seller_id <$> Scraper.find_seller (pc_seller_vinted_id p) d))
        (new_items d pd).
Proof.
  unfold Scraper.pending_products, new_items.
  assert (H : forall acc,
            fold_left
              (fun pending product_data =>
                 match Scraper.find_product (pc_vinted_id product_data) d with
                 | Some _ => pending
                 | None =>
                     pending ++
                     [(product_data,
                       seller_id <$> Scraper.find_seller (pc_seller_vinted_id product_data) d)]
                 end) pd acc
            = acc ++ map (fun p => (p, seller_id <$> Scraper.find_seller (pc_seller_vinted_id p) d))
                         (List.filter
                            (fun product_data =>
                               match Scraper.find_product (pc_vinted_id product_data) d with
                               | Some _ => false
                               | None => true
                               end) pd)).
  { induction pd as [|p pd IH]; intros acc; cbn [fold_left List.filter].
    - rewrite app_nil_r. reflexivity.
    - rewrite IH. destruct (Scraper.find_product (pc_vinted_id p) d); [reflexivity|].
      cbn [map]. rewrite <- app_assoc. reflexivity. }
  apply (H []).
Qed.

Lemma new_products_fields now sid pending :
  forall next,
    map product_fields (Scraper.new_products now sid next pending) = map fst pending.
Proof.
  induction pending as [|[pd seller] pending IH]; intros next; [reflexivity|].
  cbn [Scraper.new_products map fst product_fields]. rewrite IH. reflexivity.
Qed.

Lemma new_products_columns now sid pending :
  forall next,
    Forall (fun r => product_search_id r = sid /\ product_found_at r = now /\
                     product_is_notified r = false /\ product_is_available r = true /\
                     product_notified_at r = None)
           (Scraper.new_products now sid next pending).
Proof.
  induction pending as [|[pd seller] pending IH]; intros next; cbn [Scraper.new_products].
  - constructor.
  - constructor; [repeat split | apply IH].
Qed.

Lemma find_product_none v d :
  Scraper.find_product v d = None -> ~ In v (map Scraper.vinted_id_of (products d)).
Proof.
  unfold Scraper.find_product. intros H Hin. apply in_map_iff in Hin as (q & Hq & Hin).
  pose proof (find_none _ _ H q Hin) as Hn. cbn in Hn.
  unfold Scraper.vinted_id_of in Hq. rewrite Hq, String.eqb_refl in Hn. discriminate.
Qed.

Lemma new_items_absent d pd p :
  In p (new_items d pd) -> ~ In (pc_vinted_id p) (map Scraper.vinted_id_of (products d)).
Proof.
  unfold new_items. intros H. apply filter_In in H as [_ H].
  destruct (Scraper.find_product (pc_vinted_id p) d) eqn:E; [discriminate|].
  apply find_product_none. exact E.
Qed.

Lemma new_items_not_stored d pd :
  new_items d pd = not_stored (products d) pd.
Proof.
  unfold new_items, not_stored, Scraper.find_product. apply filter_ext. intros item.
  rewrite existsb_find. destruct (find _ (products d)); reflexivity.
Qed.

(** Over a store that satisfies the UNIQUE constraint, the product step
    succeeds when the items not yet stored have distinct keys, and its rows
    are those items. *)
Lemma save_products_succeeds (e : env) (search : Search)
    (products_data : list ProductCreate) (w : world) :
  Scraper.unique_products w ->
  NoDup (map pc_vinted_id (new_items (db w) products_data)) ->
  exists rows w',
    Scraper.save_products e search products_data w = (Return rows, w') /\
    map product_fields rows = new_items (db w) products_data.
Proof.
  intros Huniq Hnd.
  unfold Scraper.save_products, bind, read_db.
  set (rows := Scraper.new_products (utcnow e) (search_id search)
                 (Scraper.next_id product_id (products (db w)))
                 (Scraper.pending_products (db w) products_data)).
  assert (Hfields : map product_fields rows = new_items (db w) products_data).
  { unfold rows. rewrite new_products_fields, pending_products_spec, map_map.
    cbn [fst]. apply map_id. }
  rewrite bool_decide_eq_true_2.
  - unfold update_db, modify, ret. eexists _, _. split; [reflexivity | exact Hfields].
  - rewrite map_app, <- (map_map product_fields pc_vinted_id rows), Hfields.
    apply NoDup_app. split; [exact Huniq|]. split; [|exact Hnd].
    intros v Hv Hv'. apply list_elem_of_In in Hv, Hv'.
    apply in_map_iff in Hv' as (p & <- & Hp).
    exact (new_items_absent _ _ _ Hp Hv).
Qed.

(** What one run does to the products: it returns, the rows already stored
    are untouched, the rows it appends are as many as its [products_new]
    and none of them has the [vinted_id] of a stored row; and when the
    items it is about to save that are not yet stored have distinct
    [vinted_id]s, it ends without an error and appends exactly these. *)
Lemma scrape_and_save_products e self search w :
  exists r w' added,
    Scraper.scrape_and_save e self search w = (Return r, w') /\
    products (db w') = products (db w) ++ added /\
    Scraper.products_new r = Z.of_nat (length added) /\
    NoDup (map Scraper.vinted_id_of added) /\
    (forall q, In q added ->
               ~ In (Scraper.vinted_id_of q) (map Scraper.vinted_id_of (products (db w)))) /\
    (forall offered,
       Scraper.unique_products w ->
       items_to_save e self search w = Some offered ->
       NoDup (map pc_vinted_id (not_stored (products (db w)) offered)) ->
       Scraper.error r = None /\
       map product_fields added = not_stored (products (db w)) offered).
Proof.
  assert (Hnone : forall r w',
            Scraper.products_new r = 0 -> products (db w') = products (db w) ->
            items_to_save e self search w = None ->
            exists r0 w0 added,
              (Return r, w') = (Return r0, w0) /\
              products (db w0) = products (db w) ++ added /\
              Scraper.products_new r0 = Z.of_nat (length added) /\
              NoDup (map Scraper.vinted_id_of added) /\
              (forall q, In q added ->
                 ~ In (Scraper.vinted_id_of q)
                      (map Scraper.vinted_id_of (products (db w)))) /\
              (forall offered,
                 Scraper.unique_products w ->
                 items_to_save e self search w = Some offered ->
                 NoDup (map pc_vinted_id (not_stored (products (db w)) offered)) ->
                 Scraper.error r0 = None /\
                 map product_fields added = not_stored (products (db w)) offered)).
  { intros r w' Hn Hp Hoff. exists r, w', []. split; [reflexivity|].
    split; [rewrite app_nil_r; exact Hp|]. split; [exact Hn|].
    split; [constructor|]. split; [intros q []|].
    intros offered _ H. rewrite Hoff in H. discriminate. }
  unfold Scraper.scrape_and_save.
  rewrite (bind_return _ _ _ _ _ (open_log_spec e search w)).
  set (w1 := log_opened e search w).
  assert (P1 : products (db w1) = products (db w)) by reflexivity.
  set (log := Scraper.next_id slog_id (scraping_logs (db w))).
  destruct (step_run same_products (Scraper.fetch_step e log search) w1
              (fetch_step_returns _ _ _) (fetch_step_same_products _ _ _))
    as (a & w2 & E2 & P2).
  rewrite (bind_return _ _ _ _ _ E2).
  assert (Hoffer : items_to_save e self search w
                   = match a with
                     | inr fetched =>
                         match fst (Filter.filter_products (Scraper.filter_manager self)
                                      fetched (Some search)) with
                         | [] => None
                         | kept => Some kept
                         end
                     | inl _ => None
                     end).
  { unfold items_to_save. fold log. fold w1. rewrite E2. destruct a; reflexivity. }
  destruct a as [early | fetched].
  { apply Hnone; [exact (fetch_step_early _ _ _ _ _ _ E2)
                 | unfold same_products in *; congruence
                 | exact Hoffer]. }
  destruct (Filter.filter_products (Scraper.filter_manager self) fetched (Some search))
    as [[|p0 accepted_items] st].
  { destruct (step_run same_products
                (Scraper._finish_log e log "success" 0 None (Filter.rejected st) 0 0 0) w2
                (finish_log_returns _ _ _ _ _ _ _ _ _)
                (finish_log_same_products _ _ _ _ _ _ _ _ _))
      as ([] & w3 & E3 & P3).
    rewrite (bind_return _ _ _ _ _ E3).
    apply Hnone; [reflexivity | unfold same_products in *; congruence | exact Hoffer]. }
  cbn [fst] in Hoffer.
  set (items := p0 :: accepted_items) in *.
  destruct (step_run same_products (Scraper.seller_step e items) w2
              (seller_step_returns _ _) (seller_step_same_products _ _))
    as (counts & w3 & E3 & P3).
  rewrite (bind_return _ _ _ _ _ E3).
  assert (Hold : products (db w3) = products (db w))
    by (unfold same_products in *; congruence).
  assert (Hfresh3 : new_items (db w3) items = not_stored (products (db w)) items).
  { rewrite new_items_not_stored, Hold. reflexivity. }
  unfold Scraper.save_step.
  destruct (Scraper.save_products e search items w3) as [[rows|ex] w4] eqn:E4.
  2:{ pose proof (save_products_raises _ _ _ _ _ _ E4) as ->.
      erewrite bind_return;
        [|erewrite try_except_raise; [reflexivity|rewrite (bind_raise _ _ _ _ _ E4); reflexivity]].
      eexists _, _, []. split; [reflexivity|].
      cbn [db set_db Scraper.set_scraping_logs products].
      split; [rewrite app_nil_r; exact Hold|]. split; [reflexivity|].
      split; [constructor|]. split; [intros q []|].
      intros offered Huniq Hoff Hnd. exfalso.
      rewrite Hoffer in Hoff. injection Hoff as <-.
      assert (Huniq3 : Scraper.unique_products w3)
        by (unfold Scraper.unique_products; rewrite Hold; exact Huniq).
      rewrite <- Hfresh3 in Hnd.
      destruct (save_products_succeeds e search items w3 Huniq3 Hnd)
        as (rows & w' & E & _).
      congruence. }
  erewrite bind_return;
    [|erewrite try_except_return; [reflexivity|rewrite (bind_return _ _ _ _ _ E4); reflexivity]].
  destruct (save_products_returns _ _ _ _ _ _ E4) as (P4 & Huniq & Hfresh).
  set (ids := map product_id rows).
  assert (Hsend :
            exists notified w5,
              (if 0 <? Z.of_nat (length rows)
               then Scraper.send_notifications e rows else ret 0) w4
                = (Return notified, w5) /\ marks_only ids w4 w5).
  { destruct (0 <? Z.of_nat (length rows)).
    - apply step_run;
        [apply send_notifications_returns | apply send_notifications_marks_only].
    - exists 0, w4. split; [reflexivity | apply marks_only_refl]. }
  destruct Hsend as (notified & w5 & E5 & (f & Hf & Pf)).
  rewrite (bind_return _ _ _ _ _ E5).
  destruct (step_run same_products
              (Scraper._finish_log e log "success" (Z.of_nat (length rows)) None
                 (Filter.rejected st) notified (fst counts) (snd counts)) w5
              (finish_log_returns _ _ _ _ _ _ _ _ _)
              (finish_log_same_products _ _ _ _ _ _ _ _ _))
    as ([] & w6 & E6 & P6).
  rewrite (bind_return _ _ _ _ _ E6).
  eexists _, w6, (map f rows). split; [reflexivity|].
  assert (Hfields : map product_fields (map f rows) = map product_fields rows).
  { rewrite map_map. apply map_ext. intros q. apply Pf. }
  assert (Hvid : map Scraper.vinted_id_of (map f rows) = map Scraper.vinted_id_of rows).
  { unfold Scraper.vinted_id_of.
    rewrite <- (map_map product_fields pc_vinted_id (map f rows)), Hfields, map_map.
    reflexivity. }
  rewrite Hold in *.
  split; [|split; [|split; [|split]]].
  - unfold same_products in P6. rewrite P6, Hf, P4, map_app.
    rewrite (map_unmarked f ids); [reflexivity | intros q; apply Pf |].
    intros q Hq Hin. unfold ids in Hin. apply in_map_iff in Hin as (q' & Hid & Hq').
    pose proof (Hfresh q q' Hq Hq'). lia.
  - cbn [Scraper.products_new]. rewrite length_map. reflexivity.
  - rewrite Hvid. rewrite map_app in Huniq. apply NoDup_app in Huniq. apply Huniq.
  - intros q Hq Hin. rewrite map_app in Huniq. apply NoDup_app in Huniq.
    destruct Huniq as (_ & Hdisj & _).
    apply (Hdisj (Scraper.vinted_id_of q)).
    + apply list_elem_of_In. exact Hin.
    + apply list_elem_of_In. rewrite <- Hvid. apply in_map. exact Hq.
  - intros offered Huniq0 Hoff Hnd. rewrite Hoffer in Hoff. injection Hoff as <-.
    split; [reflexivity|].
    assert (Huniq3 : Scraper.unique_products w3)
      by (unfold Scraper.unique_products; rewrite Hold; exact Huniq0).
    rewrite <- Hfresh3 in Hnd.
    destruct (save_products_succeeds e search items w3 Huniq3 Hnd)
      as (rows' & w' & E & Hf').
    rewrite Hfields, <- Hfresh3. congruence.
Qed.

Lemma filter_absent_key (v : string) (l : list Product) :
  (forall q, In q l -> Scraper.vinted_id_of q <> v) ->
  List.filter (fun q => String.eqb (Scraper.vinted_id_of q) v) l = [].
Proof.
  induction l as [|x l IH]; intros H; [reflexivity|].
  cbn [List.filter].
  destruct (String.eqb_spec (Scraper.vinted_id_of x) v) as [E|_].
  - exfalso. apply (H x); [left; reflexivity | exact E].
  - apply IH. intros q Hq. apply H. right. exact Hq.
Qed.

Lemma filter_unique_key (p : Product) (l : list Product) :
  NoDup (map Scraper.vinted_id_of l) -> In p l ->
  List.filter (fun q => String.eqb (Scraper.vinted_id_of q) (Scraper.vinted_id_of p)) l
  = [p].
Proof.
  induction l as [|x l IH]; intros Hnd Hin; [destruct Hin|].
  cbn [map] in Hnd. apply NoDup_cons in Hnd as [Hx Hnd].
  cbn [List.filter]. destruct Hin as [-> | Hin].
  - rewrite String.eqb_refl. f_equal.
    apply filter_absent_key. intros q Hq E.
    apply Hx. rewrite <- E. apply list_elem_of_In, in_map. exact Hq.
  - destruct (String.eqb_spec (Scraper.vinted_id_of x) (Scraper.vinted_id_of p)) as [E|_].
    + exfalso. apply Hx. rewrite E. apply list_elem_of_In, in_map. exact Hin.
    + apply IH; assumption.
Qed.

(** C5. In two consecutive runs over a store that satisfies the UNIQUE
    constraint, every item stored when the second run starts is still
    stored, unchanged, when it ends and is the only row with its
    [vinted_id]; the second run returns, the products it appends are as many
    as its [products_new], and none of them has that [vinted_id]. The
    existence check skips what is stored: whenever the items that the
    second run is about to save and that are not yet stored have distinct
    [vinted_id]s, the run ends without an error and appends exactly these
    items, however many stored items the page offers again. *)
Theorem persisted_item_is_not_duplicated (e1 e2 : env)
    (self1 self2 : Scraper.VintedScraper) (search1 search2 : Search) (w : world) :
  Scraper.unique_products w ->
  let out1 := Scraper.scrape_and_save e1 self1 search1 w in
  let out2 := Scraper.scrape_and_save e2 self2 search2 (snd out1) in
  forall p, In p (products (db (snd out1))) ->
    List.filter
      (fun q => String.eqb (Scraper.vinted_id_of q) (Scraper.vinted_id_of p))
      (products (db (snd out2))) = [p] /\
    exists r2 added,
      fst out2 = Return r2 /\
      products (db (snd out2)) = products (db (snd out1)) ++ added /\
      Scraper.products_new r2 = Z.of_nat (length added) /\
      (forall q, In q added -> Scraper.vinted_id_of q <> Scraper.vinted_id_of p) /\
      (forall offered,
         items_to_save e2 self2 search2 (snd out1) = Some offered ->
         NoDup (map pc_vinted_id (not_stored (products (db (snd out1))) offered)) ->
         Scraper.error r2 = None /\
         map product_fields added = not_stored (products (db (snd out1))) offered).
Proof.
  intros Huniq out1 out2 p Hp. subst out2 out1.
  destruct (scrape_and_save_products e1 self1 search1 w)
    as (r1 & w1 & added1 & E1 & P1 & _ & Hnd1 & Hnew1 & _).
  rewrite E1 in *. cbn [snd] in *.
  destruct (scrape_and_save_products e2 self2 search2 w1)
    as (r2 & w2 & added2 & E2 & P2 & N2 & _ & Hnew2 & Hskip).
  rewrite E2. cbn [fst snd].
  assert (Huniq1 : NoDup (map Scraper.vinted_id_of (products (db w1)))).
  { rewrite P1, map_app. apply NoDup_app. split; [exact Huniq|]. split; [|exact Hnd1].
    intros v Hv Hv'. apply list_elem_of_In in Hv, Hv'.
    apply in_map_iff in Hv' as (q & <- & Hq). exact (Hnew1 q Hq Hv). }
  assert (Hfresh : forall q, In q added2 ->
                     Scraper.vinted_id_of q <> Scraper.vinted_id_of p).
  { intros q Hq E. apply (Hnew2 q Hq). rewrite E. apply in_map. exact Hp. }
  split.
  - rewrite P2, List.filter_app.
    rewrite (filter_unique_key p _ Huniq1 Hp).
    rewrite (filter_absent_key _ _ Hfresh). reflexivity.
  - exists r2, added2. repeat split; try assumption;
      apply (Hskip offered Huniq1); assumption.
Qed.

(** *** Seller enrichment *)

Lemma get_effect e url w :
  db (snd (Client.get e url w)) = db w /\
  exists n, (1 <= n)%nat /\
    Client.attempts_of url (trace (snd (Client.get e url w)))
      = rev (seq 1 n) ++ Client.attempts_of url (trace w).
Proof.
  destruct (get_loop_spec e url Client.MAX_RETRIES 0 (Client.proxy_configured w))
    as (n & Hn & Hat & Hdb & _ & _); [reflexivity | unfold Client.MAX_RETRIES; lia |].
  unfold Client.get, bind, Client._configure_proxy, modify.
  rewrite db_proxy_configured in Hdb. rewrite trace_proxy_configured in Hat.
  rewrite Nat.sub_0_r in Hat.
  split; [exact Hdb|]. exists n. split; [lia | exact Hat].
Qed.

Lemma get_seller_info_effect e v w r w1 :
  Client.get_seller_info e v w = (r, w1) ->
  db w1 = db w /\
  exists n, (1 <= n)%nat /\
    Client.attempts_of (SellerProfile v) (trace w1)
      = rev (seq 1 n) ++ Client.attempts_of (SellerProfile v) (trace w).
Proof.
  intros H. pose proof (get_effect e (SellerProfile v) w) as Heff.
  unfold Client.get_seller_info, bind in H.
  destruct (Client.get e (SellerProfile v) w) as [[resp|ex] w'] eqn:E; cbn [snd] in Heff.
  - destruct (status_code resp =? 200).
    + destruct (json_body resp); unfold ret, raise in H;
        injection H as _ <-; exact Heff.
    + unfold ret in H. injection H as _ <-. exact Heff.
  - injection H as _ <-. exact Heff.
Qed.

Lemma find_seller_some v d s :
  Scraper.find_seller (Some v) d = Some s ->
  In s (sellers d) /\ sc_vinted_id (seller_fields s) = v.
Proof.
  unfold Scraper.find_seller. intros H. apply find_some in H as [Hin Heq].
  split; [exact Hin|]. apply String.eqb_eq. exact Heq.
Qed.

Lemma NoDup_map_inj {A B} (f : A -> B) (l : list A) (x y : A) :
  NoDup (map f l) -> In x l -> In y l -> f x = f y -> x = y.
Proof.
  induction l as [|a l IH]; intros Hnd Hx Hy E; [destruct Hx|].
  cbn [map] in Hnd. apply NoDup_cons in Hnd as [Ha Hnd].
  destruct Hx as [-> | Hx], Hy as [-> | Hy].
  - reflexivity.
  - exfalso. apply Ha. rewrite E. apply list_elem_of_In, in_map. exact Hy.
  - exfalso. apply Ha. rewrite <- E. apply list_elem_of_In, in_map. exact Hx.
  - apply IH; assumption.
Qed.

Lemma no_request_for_refl url w : no_request_for url w w.
Proof. split; reflexivity. Qed.

Lemma no_request_for_trans url w1 w2 w3 :
  no_request_for url w1 w2 -> no_request_for url w2 w3 -> no_request_for url w1 w3.
Proof. intros [? ?] [? ?]. split; congruence. Qed.

Lemma attempts_of_other url url' n tr :
  url' <> url ->
  Client.attempts_of url (HttpGet url' n :: tr) = Client.attempts_of url tr.
Proof.
  intros H. unfold Client.attempts_of. simpl.
  destruct (decide (url' = url)) as [E|_]; [contradiction | reflexivity].
Qed.

Ltac requests_base url' :=
  first
    [ split; [rewrite trace_headers_updated | rewrite db_headers_updated]; reflexivity
    | split; [rewrite trace_proxy_configured | rewrite db_proxy_configured]; reflexivity
    | split; [cbn [trace]; rewrite ?attempts_of_other by assumption; reflexivity
             | reflexivity] ].

Lemma get_loop_no_request e url url' remaining :
  url' <> url ->
  forall tried, stable (no_request_for url) (Client.get_loop e url' remaining tried).
Proof.
  intros Hne.
  induction remaining as [|remaining IH]; intros tried; cbn [Client.get_loop];
    unfold emit, Client._update_headers, Client._configure_proxy,
      Client._refresh_cookies, emit;
    repeat stable_step (no_request_for_refl url) (no_request_for_trans url)
      ltac:(requests_base url').
  all: try apply IH.
Qed.

Lemma get_seller_info_no_request e url v :
  SellerProfile v <> url ->
  stable (no_request_for url) (Client.get_seller_info e v).
Proof.
  intros Hne. unfold Client.get_seller_info, Client.get, Client._configure_proxy.
  repeat stable_step (no_request_for_refl url) (no_request_for_trans url)
    ltac:(requests_base (SellerProfile v)).
  all: try (apply get_loop_no_request; exact Hne).
Qed.

(** What a request returns does not depend on the state. *)
Lemma get_loop_result e url remaining :
  forall tried w w',
    fst (Client.get_loop e url remaining tried w)
    = fst (Client.get_loop e url remaining tried w').
Proof.
  induction remaining as [|remaining IH]; intros tried w w'; cbn [Client.get_loop];
    [reflexivity|].
  unfold bind, try_except, emit, modify, ret, raise, Client._update_headers,
    Client._configure_proxy, Client._refresh_cookies, emit, modify.
  destruct (http e url (S tried)) as [resp|ex].
  - destruct (Client.soft_block (status_code resp) && Nat.ltb (S tried) Client.MAX_RETRIES);
      [apply IH|].
    destruct (status_code resp =? 200); [reflexivity|].
    destruct (Nat.eqb (S tried) Client.MAX_RETRIES); [reflexivity | apply IH].
  - destruct (Nat.ltb (S tried) Client.MAX_RETRIES); [apply IH|].
    destruct (Nat.eqb (S tried) Client.MAX_RETRIES); [reflexivity | apply IH].
Qed.

Lemma get_seller_info_result e v w w' :
  fst (Client.get_seller_info e v w) = fst (Client.get_seller_info e v w').
Proof.
  unfold Client.get_seller_info, Client.get, bind, Client._configure_proxy, modify.
  pose proof (get_loop_result e (SellerProfile v) Client.MAX_RETRIES 0
                (Client.proxy_configured w) (Client.proxy_configured w')) as H.
  destruct (Client.get_loop e (SellerProfile v) Client.MAX_RETRIES 0
              (Client.proxy_configured w)) as [[r|ex] w1];
    destruct (Client.get_loop e (SellerProfile v) Client.MAX_RETRIES 0
                (Client.proxy_configured w')) as [[r'|ex'] w1'];
    cbn [fst] in H; try discriminate; injection H as <-; [|reflexivity].
  destruct (status_code r =? 200); [|reflexivity].
  destruct (json_body r); reflexivity.
Qed.

Lemma find_seller_unique (s : Seller) (d : database) :
  In s (sellers d) ->
  NoDup (map (fun x => sc_vinted_id (seller_fields x)) (sellers d)) ->
  Scraper.find_seller (Some (sc_vinted_id (seller_fields s))) d = Some s.
Proof.
  unfold Scraper.find_seller. induction (sellers d) as [|x l IH]; intros Hin Hnd;
    [destruct Hin|].
  cbn [map] in Hnd. apply NoDup_cons in Hnd as [Hx Hnd]. cbn [find].
  destruct Hin as [-> | Hin]; [rewrite String.eqb_refl; reflexivity|].
  destruct (String.eqb_spec (sc_vinted_id (seller_fields x))
              (sc_vinted_id (seller_fields s))) as [E|_]; [|apply IH; assumption].
  exfalso. apply Hx. rewrite E. apply list_elem_of_In.
  apply (in_map (fun x => sc_vinted_id (seller_fields x))). exact Hin.
Qed.

Lemma find_seller_found v d x :
  Scraper.find_seller v d = Some x ->
  In x (sellers d) /\ v = Some (sc_vinted_id (seller_fields x)).
Proof.
  destruct v as [v|]; [|discriminate]. intros H.
  destruct (find_seller_some _ _ _ H) as [Hin Hv]. split; [exact Hin | congruence].
Qed.

Lemma commit_sellers_cases change w :
  (Scraper.commit_sellers change w
   = (Return tt, set_db (Scraper.set_sellers (change (sellers (db w))) (db w)) w) /\
   NoDup (map (fun s => sc_vinted_id (seller_fields s)) (change (sellers (db w))))) \/
  Scraper.commit_sellers change w
  = (Raise (IntegrityError "UNIQUE constraint failed: sellers.vinted_id"), w).
Proof.
  unfold Scraper.commit_sellers, bind, read_db, update_db, modify, raise.
  destruct (bool_decide _) eqn:E.
  - left. split; [reflexivity|]. apply bool_decide_eq_true in E. exact E.
  - right. reflexivity.
Qed.

Lemma seller_kept_same_db s w w' : db w' = db w -> seller_kept s w -> seller_kept s w'.
Proof. unfold seller_kept, seller_keys. intros ->. auto. Qed.

(** An iteration of the seller loop for another seller leaves the row [s]
    and the requests for its profile alone. *)
Lemma seller_iteration_other e th v' counts w (s : Seller) :
  v' <> Some (sc_vinted_id (seller_fields s)) ->
  seller_kept s w ->
  exists counts' w',
    try_except (Scraper.seller_body e th v' counts) (fun _ => ret counts) w
      = (Return counts', w') /\
    seller_kept s w' /\
    Client.attempts_of (SellerProfile (Some (sc_vinted_id (seller_fields s)))) (trace w')
    = Client.attempts_of (SellerProfile (Some (sc_vinted_id (seller_fields s)))) (trace w).
Proof.
  intros Hne Hkept.
  set (url := SellerProfile (Some (sc_vinted_id (seller_fields s)))).
  assert (Hurl : SellerProfile v' <> url) by (unfold url; congruence).
  assert (Hskip : forall (c : Z * Z) w1, no_request_for url w w1 ->
            exists counts' w',
              (@Return (Z * Z) c, w1) = (Return counts', w') /\
              seller_kept s w' /\
              Client.attempts_of url (trace w') = Client.attempts_of url (trace w)).
  { intros c w1 [Ht Hd]. exists c, w1. split; [reflexivity|]. split; [|exact Ht].
    apply (seller_kept_same_db s w w1 Hd Hkept). }
  assert (Hget : forall r w1, Client.get_seller_info e v' w = (r, w1) ->
                              no_request_for url w w1).
  { intros r w1 E. pose proof (get_seller_info_no_request e url v' Hurl w) as H.
    rewrite E in H. exact H. }
  destruct Hkept as (Hin & Hkeys & Hids).
  unfold try_except, Scraper.seller_body.
  unfold bind at 1, read_db at 1.
  destruct (Scraper.find_seller v' (db w)) as [existing|] eqn:Hfind.
  - destruct (find_seller_found _ _ _ Hfind) as [Hex Hv'].
    assert (Hid : seller_id existing <> seller_id s).
    { intros E. apply Hne. rewrite Hv'. f_equal. f_equal. f_equal.
      apply (NoDup_map_inj seller_id (sellers (db w))); assumption. }
    destruct (match seller_last_updated_at existing with
              | Some t => th <? t | None => false end).
    + apply Hskip. apply no_request_for_refl.
    + unfold bind at 1.
      destruct (Client.get_seller_info e v' w) as [[[d|]|ex] w1] eqn:Eget;
        pose proof (Hget _ _ eq_refl) as Hnr;
        try (apply Hskip; exact Hnr).
      unfold bind at 1. destruct Hnr as [Ht Hd].
      match goal with
      | |- context [Scraper.commit_sellers ?change w1] =>
          destruct (commit_sellers_cases change w1) as [[E Hnd] | E]; rewrite E
      end.
      * unfold ret. eexists _, _. split; [reflexivity|].
        cbn [db set_db Scraper.set_sellers sellers trace]. split; [|exact Ht].
        unfold seller_kept, seller_keys.
        cbn [db set_db Scraper.set_sellers sellers]. rewrite Hd in *.
        split; [|split; [exact Hnd|]].
        -- apply in_map_iff. exists s. split; [|exact Hin].
           destruct (Z.eqb_spec (seller_id s) (seller_id existing)) as [E'|_];
             [congruence | reflexivity].
        -- rewrite map_map.
           erewrite map_ext; [exact Hids|]. intros x.
           destruct (seller_id x =? seller_id existing); reflexivity.
      * apply Hskip. split; assumption.
  - unfold bind at 1.
    destruct (Client.get_seller_info e v' w) as [[[d|]|ex] w1] eqn:Eget;
      pose proof (Hget _ _ eq_refl) as Hnr;
      try (apply Hskip; exact Hnr).
    unfold bind at 1. destruct Hnr as [Ht Hd].
    match goal with
    | |- context [Scraper.commit_sellers ?change w1] =>
        destruct (commit_sellers_cases change w1) as [[E Hnd] | E]; rewrite E
    end.
    + unfold ret. eexists _, _. split; [reflexivity|].
      cbn [db set_db Scraper.set_sellers sellers trace]. split; [|exact Ht].
      unfold seller_kept, seller_keys.
      cbn [db set_db Scraper.set_sellers sellers]. rewrite Hd in *.
      split; [apply in_or_app; left; exact Hin|]. split; [exact Hnd|].
      rewrite map_app. cbn [map Scraper.new_seller seller_id].
      apply NoDup_app. split; [exact Hids|]. split; [|apply NoDup_singleton].
      intros i Hi Hi'. apply list_elem_of_singleton in Hi'. subst i.
      apply list_elem_of_In, in_map_iff in Hi as (x & Hx & Hxin).
      pose proof (next_id_above seller_id (sellers (db w)) x Hxin). lia.
    + apply Hskip. split; assumption.
Qed.

Lemma seller_loop_others e th (s : Seller) ids :
  ~ In (Some (sc_vinted_id (seller_fields s))) ids ->
  forall counts w,
    seller_kept s w ->
    exists counts' w',
      Scraper.seller_loop e th ids counts w = (Return counts', w') /\
      seller_kept s w' /\
      Client.attempts_of (SellerProfile (Some (sc_vinted_id (seller_fields s)))) (trace w')
      = Client.attempts_of (SellerProfile (Some (sc_vinted_id (seller_fields s)))) (trace w).
Proof.
  induction ids as [|v' ids IH]; intros Hnot counts w Hkept; cbn [Scraper.seller_loop].
  - exists counts, w. repeat split; apply Hkept.
  - destruct (seller_iteration_other e th v' counts w s) as (c1 & w1 & E1 & K1 & T1);
      [intros E; apply Hnot; left; exact E | exact Hkept |].
    rewrite (bind_return _ _ _ _ _ E1).
    destruct (IH (fun H => Hnot (or_intror H)) c1 w1 K1) as (c2 & w2 & E2 & K2 & T2).
    exists c2, w2. split; [exact E2|]. split; [exact K2 | congruence].
Qed.

Lemma seller_loop_app e th l1 l2 :
  forall counts w counts1 w1,
    Scraper.seller_loop e th l1 counts w = (Return counts1, w1) ->
    Scraper.seller_loop e th (l1 ++ l2) counts w = Scraper.seller_loop e th l2 counts1 w1.
Proof.
  induction l1 as [|v l1 IH]; intros counts w counts1 w1 H; cbn [Scraper.seller_loop app] in *.
  - unfold ret in H. injection H as <- <-. reflexivity.
  - unfold bind in *.
    destruct (try_except _ _ w) as [[c|ex] w0]; [|discriminate].
    apply IH. exact H.
Qed.

Lemma seller_iteration_fresh e th counts w (s : Seller) t :
  seller_kept s w ->
  seller_last_updated_at s = Some t -> th < t ->
  try_except (Scraper.seller_body e th (Some (sc_vinted_id (seller_fields s))) counts)
             (fun _ => ret counts) w
  = (Return counts, w).
Proof.
  intros (Hin & Hkeys & _) Ht Hlt.
  unfold try_except, Scraper.seller_body, bind, read_db.
  rewrite (find_seller_unique s (db w) Hin Hkeys), Ht.
  apply Z.ltb_lt in Hlt. rewrite Hlt. reflexivity.
Qed.

Lemma seller_iteration_stale e th counts w (s : Seller) d :
  seller_kept s w ->
  match seller_last_updated_at s with Some t => t <= th | None => True end ->
  fst (Client.get_seller_info e (Some (sc_vinted_id (seller_fields s))) w)
  = Return (Some d) ->
  sc_vinted_id d = sc_vinted_id (seller_fields s) ->
  exists w',
    try_except (Scraper.seller_body e th (Some (sc_vinted_id (seller_fields s))) counts)
               (fun _ => ret counts) w
    = (Return (fst counts, snd counts + 1), w') /\
    seller_kept (Scraper.overwrite_seller (utcnow e) d s) w' /\
    exists n, (1 <= n)%nat /\
      Client.attempts_of (SellerProfile (Some (sc_vinted_id (seller_fields s)))) (trace w')
      = rev (seq 1 n)
        ++ Client.attempts_of (SellerProfile (Some (sc_vinted_id (seller_fields s))))
             (trace w).
Proof.
  intros (Hin & Hkeys & Hids) Hstale Hget Hd.
  destruct (Client.get_seller_info e (Some (sc_vinted_id (seller_fields s))) w)
    as [r w1] eqn:Eget.
  cbn [fst] in Hget. subst r.
  destruct (get_seller_info_effect _ _ _ _ _ Eget) as [Hdb Hatt].
  assert (Hcond : match seller_last_updated_at s with
                  | Some last_updated => th <? last_updated
                  | None => false
                  end = false).
  { destruct (seller_last_updated_at s) as [t|]; [|reflexivity].
    apply Z.ltb_ge. exact Hstale. }
  assert (Hsame : map (fun x => sc_vinted_id (seller_fields x))
                    (map (refreshed (utcnow e) d s) (sellers (db w)))
                  = seller_keys w).
  { unfold seller_keys. rewrite map_map. apply map_ext_in. intros x Hx.
    unfold refreshed. destruct (seller_id x =? seller_id s) eqn:E; [|reflexivity].
    apply Z.eqb_eq in E.
    assert (x = s) by (apply (NoDup_map_inj seller_id (sellers (db w))); assumption).
    subst x. cbn. exact Hd. }
  exists (set_db (Scraper.set_sellers
                    (map (refreshed (utcnow e) d s) (sellers (db w))) (db w1)) w1).
  split; [|split].
  - unfold try_except, Scraper.seller_body, bind, read_db.
    rewrite (find_seller_unique s (db w) Hin Hkeys). rewrite Hcond, Eget.
    unfold Scraper.commit_sellers, bind, read_db, update_db, modify, ret.
    rewrite Hdb. fold (refreshed (utcnow e) d s). rewrite Hsame.
    rewrite bool_decide_eq_true_2 by exact Hkeys. rewrite <- Hdb. reflexivity.
  - unfold seller_kept, seller_keys. cbn [db set_db Scraper.set_sellers sellers].
    split; [|split].
    + apply in_map_iff. exists s. split; [|exact Hin].
      unfold refreshed. rewrite Z.eqb_refl. reflexivity.
    + rewrite Hsame. exact Hkeys.
    + rewrite map_map. erewrite map_ext; [exact Hids|]. intros x.
      unfold refreshed. destruct (seller_id x =? seller_id s); reflexivity.
  - exact Hatt.
Qed.

Lemma seller_loop_split (v : option string) (ids : list (option string)) :
  NoDup ids -> In v ids ->
  exists l1 l2, ids = l1 ++ v :: l2 /\ ~ In v l1 /\ ~ In v l2.
Proof.
  intros Hnd Hin. apply list_elem_of_In, list_elem_of_split in Hin as (l1 & l2 & ->).
  exists l1, l2. split; [reflexivity|].
  apply NoDup_app in Hnd as (_ & Hdisj & Hnd2). apply NoDup_cons in Hnd2 as [Hv _].
  split.
  - intros H. apply list_elem_of_In in H. apply (Hdisj v H). left.
  - intros H. apply Hv. apply list_elem_of_In. exact H.
Qed.

(** C9. During the seller step of a run, whose cutoff is one day before
    now, and whatever other sellers the accepted items name: a stored seller
    refreshed less than one day ago is skipped, no request is made for its
    profile and its row is left as it is; a stored seller never refreshed, or
    refreshed one day ago or more, is fetched again (at least one request is
    made for its profile) and, when the fetch gives its document, its row
    takes every field of the document and the new refresh time while its
    [id], [first_seen_at] and [ban_date] are unchanged. *)
Theorem seller_refresh_follows_cutoff (e : env) (items : list ProductCreate)
    (w : world) (s : Seller) :
  let v := sc_vinted_id (seller_fields s) in
  let requests := fun w0 : world => Client.attempts_of (SellerProfile (Some v)) (trace w0) in
  let w' := snd (Scraper.seller_step e items w) in
  In s (sellers (db w)) ->
  In (Some v) (map pc_seller_vinted_id items) ->
  NoDup (seller_keys w) ->
  NoDup (map seller_id (sellers (db w))) ->
  (forall t,
     seller_last_updated_at s = Some t -> utcnow e - t < 86400 ->
     In s (sellers (db w')) /\ requests w' = requests w) /\
  (forall d,
     match seller_last_updated_at s with
     | Some t => 86400 <= utcnow e - t
     | None => True
     end ->
     fst (Client.get_seller_info e (Some v) w) = Return (Some d) ->
     sc_vinted_id d = v ->
     exists row,
       In row (sellers (db w')) /\
       seller_fields row = d /\
       seller_last_updated_at row = Some (utcnow e) /\
       seller_id row = seller_id s /\
       seller_first_seen_at row = seller_first_seen_at s /\
       seller_ban_date row = seller_ban_date s /\
       exists n, (1 <= n)%nat /\ requests w' = rev (seq 1 n) ++ requests w).
Proof.
  intros v requests w' Hin Hitem Hkeys Hids. subst w' requests.
  assert (Hkept : seller_kept s w) by (repeat split; assumption).
  unfold Scraper.seller_step.
  set (th := utcnow e - Scraper.days Scraper.UPDATE_SELLER_AFTER_DAYS).
  assert (Hth : th = utcnow e - 86400) by reflexivity.
  destruct (seller_loop_split (Some v) (remove_dups (map pc_seller_vinted_id items)))
    as (l1 & l2 & Hsplit & Hl1 & Hl2).
  { apply NoDup_remove_dups. }
  { apply list_elem_of_In, elem_of_remove_dups, list_elem_of_In. exact Hitem. }
  rewrite Hsplit.
  destruct (seller_loop_others e th s l1 Hl1 (0, 0) w Hkept) as (c1 & w1 & E1 & K1 & T1).
  rewrite (seller_loop_app e th l1 (Some v :: l2) _ _ _ _ E1).
  cbn [Scraper.seller_loop]. fold v in T1.
  split.
  - intros t Ht Hfresh.
    rewrite (bind_return _ _ _ _ _
               (seller_iteration_fresh e th c1 w1 s t K1 Ht ltac:(lia))).
    destruct (seller_loop_others e th s l2 Hl2 c1 w1 K1) as (c2 & w2 & E2 & K2 & T2).
    rewrite E2. cbn [snd]. fold v in T2. split; [apply K2 | congruence].
  - intros d Hstale Hget Hd.
    destruct (seller_iteration_stale e th c1 w1 s d K1) as (w2 & E2 & K2 & n & Hn & T2).
    { destruct (seller_last_updated_at s); [lia | exact I]. }
    { transitivity (fst (Client.get_seller_info e (Some v) w));
        [apply get_seller_info_result | exact Hget]. }
    { exact Hd. }
    rewrite (bind_return _ _ _ _ _ E2).
    set (row := Scraper.overwrite_seller (utcnow e) d s) in *.
    assert (Hrow : sc_vinted_id (seller_fields row) = v) by exact Hd.
    destruct (seller_loop_others e th row l2) with (counts := (fst c1, snd c1 + 1))
                                                   (w := w2)
      as (c3 & w3 & E3 & K3 & T3).
    { rewrite Hrow. exact Hl2. }
    { exact K2. }
    rewrite E3. cbn [snd]. exists row. split; [apply K3|].
    repeat (split; [reflexivity|]).
    exists n. split; [exact Hn|]. rewrite Hrow in T3. fold v in T2. congruence.
Qed.

(** ** The scheduler *)

Lemma new_requester_returns : returns Client.new_requester.
Proof.
  unfold Client.new_requester, Client._update_headers. returns_auto.
Qed.
#[local] Hint Resolve new_requester_returns : returns.

Lemma new_scraper_returns : returns Scraper.new_scraper.
Proof. unfold Scraper.new_scraper. returns_auto. Qed.
#[local] Hint Resolve new_scraper_returns scrape_and_save_returns : returns.

Lemma update_log_returns log f : returns (Scheduler.update_log log f).
Proof. unfold Scheduler.update_log. returns_auto. Qed.
#[local] Hint Resolve update_log_returns : returns.

Lemma update_search_returns id f : returns (Scheduler.update_search id f).
Proof. unfold Scheduler.update_search. returns_auto. Qed.
#[local] Hint Resolve update_search_returns : returns.

Lemma update_log_same_scheduler log f :
  stable same_scheduler (Scheduler.update_log log f).
Proof. unfold Scheduler.update_log. scheduler_frame. Qed.
#[local] Hint Resolve update_log_same_scheduler : frame.

Lemma update_search_same_scheduler id f :
  stable same_scheduler (Scheduler.update_search id f).
Proof. unfold Scheduler.update_search. scheduler_frame. Qed.
#[local] Hint Resolve update_search_same_scheduler : frame.

#[local] Hint Resolve new_scraper_same_scheduler scrape_and_save_same_scheduler : frame.

Lemma quiet_refl sid w : quiet sid w w.
Proof. split; reflexivity. Qed.

Lemma quiet_trans sid w1 w2 w3 : quiet sid w1 w2 -> quiet sid w2 w3 -> quiet sid w1 w3.
Proof. intros [? ?] [? ?]. split; congruence. Qed.

Ltac quiet_frame sid :=
  unfold update_db, emit;
  repeat stable_step (quiet_refl sid) (quiet_trans sid) ltac:(split; reflexivity).

Lemma alert_channel_quiet sid e b c :
  stable (quiet sid) (Scheduler.alert_channel e b c sid).
Proof. unfold Scheduler.alert_channel. quiet_frame sid. Qed.

Lemma alert_channel_returns e b c sid : returns (Scheduler.alert_channel e b c sid).
Proof. unfold Scheduler.alert_channel. returns_auto. Qed.
#[local] Hint Resolve alert_channel_returns : returns.

Lemma alert_attempts_cons sid c tr :
  Scheduler.alert_attempts sid (AlertAttempt sid c :: tr)
  = (1 + Scheduler.alert_attempts sid tr)%nat.
Proof.
  unfold Scheduler.alert_attempts. cbn [List.filter]. rewrite Z.eqb_refl. reflexivity.
Qed.

(** What [_check_and_notify_error] does: it never raises, leaves the
    counters alone and makes one alert attempt exactly when one is due. *)
Lemma check_and_notify_effect e sid msg w :
  exists w',
    Scheduler._check_and_notify_error e sid msg w = (Return tt, w') /\
    _error_counts w' = _error_counts w /\
    Scheduler.alert_attempts sid (trace w')
    = ((if Scheduler.alert_due sid (Scheduler.error_count sid w) (db w) then 1 else 0)
       + Scheduler.alert_attempts sid (trace w))%nat.
Proof.
  unfold Scheduler._check_and_notify_error, Scheduler.alert_due, Scheduler.error_count.
  unfold try_except at 1. unfold bind at 1. unfold read_db at 1.
  destruct (settings (db w)) as [st|]; [|eexists; repeat split; reflexivity].
  destruct (scheduler_error_notifications_enabled st); cbn [negb andb];
    [|eexists; repeat split; reflexivity].
  unfold bind at 1, get_world at 1.
  destruct (default 0 (_error_counts w !! sid) <? _);
    [eexists; repeat split; reflexivity|].
  cbn [negb andb].
  destruct (Scheduler.find_search sid (db w)) as [search|];
    [|eexists; repeat split; reflexivity].
  unfold bind at 1, emit at 1, modify at 1.
  match goal with
  | |- context [try_except ?m ?h ?w0] =>
      destruct (step_run (quiet sid) (try_except m h) w0) as ([] & w' & E & Hc & Ha)
  end.
  - unfold Notify.new_manager. returns_auto.
  - apply (stable_try_except _ (quiet_trans sid)).
    + unfold Notify.new_manager.
      repeat (apply (stable_bind _ (quiet_trans sid)); [|intros]);
        try apply alert_channel_quiet; try apply (stable_ret _ (quiet_refl sid)).
      intros w0. apply quiet_refl.
    + intros ex. apply (stable_ret _ (quiet_refl sid)).
  - rewrite E. exists w'. split; [reflexivity|]. split; [exact Hc|].
    rewrite Ha. cbn [trace]. apply alert_attempts_cons.
Qed.

Lemma search_job_try_raises e sid manual log w ex w' :
  Scheduler.search_job_try e sid manual log w = (Raise ex, w') -> w' = w.
Proof.
  unfold Scheduler.search_job_try. unfold bind at 1, read_db at 1.
  destruct (Scheduler.find_search sid (db w)) as [search|].
  - destruct (negb (search_is_active search) && negb manual).
    + unfold raise. intros H. injection H as _ <-. reflexivity.
    + match goal with
      | |- ?m w = _ -> _ => assert (Hr : returns m) by returns_auto
      end.
      intros H. destruct (Hr w) as [a Ha]. rewrite H in Ha. discriminate.
  - unfold raise. intros H. injection H as _ <-. reflexivity.
Qed.

Lemma search_job_try_returns e sid manual log w w' :
  Scheduler.search_job_try e sid manual log w = (Return tt, w') ->
  _error_counts w' = <[sid := 0]> (_error_counts w).
Proof.
  unfold Scheduler.search_job_try. unfold bind at 1, read_db at 1.
  destruct (Scheduler.find_search sid (db w)) as [search|]; [|discriminate].
  destruct (negb (search_is_active search) && negb manual); [discriminate|].
  destruct (step_run same_scheduler Scraper.new_scraper w
              new_scraper_returns new_scraper_same_scheduler)
    as (scraper & w1 & E1 & [C1 _]).
  rewrite (bind_return _ _ _ _ _ E1).
  destruct (step_run same_scheduler (Scraper.scrape_and_save e scraper search) w1
              (scrape_and_save_returns _ _ _) (scrape_and_save_same_scheduler _ _ _))
    as (results & w2 & E2 & [C2 _]).
  rewrite (bind_return _ _ _ _ _ E2).
  unfold Scheduler.update_log, Scheduler.update_search, update_db, bind, modify.
  intros H. injection H as <-.
  cbn [_error_counts set_db set_error_counts]. congruence.
Qed.

Lemma scheduler_open_log_spec e sid w :
  Scheduler.open_log e sid w
  = (Return (Scraper.next_id jlog_id (scheduler_logs (db w))), job_opened e sid w).
Proof. reflexivity. Qed.

(** The counters after a run: the counter of the search is reset by a run
    completed as success and advanced by a failing run; the run itself never
    raises. *)
Lemma run_effect e sid manual w :
  fst (Scheduler._run_search_job e sid manual w) = Return tt /\
  _error_counts (Scheduler.after_run e sid manual w)
  = match Scheduler.try_outcome e sid manual w with
    | Return _ => <[sid := 0]> (_error_counts w)
    | Raise _ => Scheduler.count_error sid (_error_counts w)
    end.
Proof.
  unfold Scheduler.after_run, Scheduler._run_search_job, Scheduler.try_outcome.
  rewrite !(bind_return _ _ _ _ _ (scheduler_open_log_spec e sid w)).
  set (log := Scraper.next_id jlog_id (scheduler_logs (db w))).
  assert (C0 : _error_counts (job_opened e sid w) = _error_counts w) by reflexivity.
  destruct (Scheduler.search_job_try e sid manual log (job_opened e sid w))
    as [[[]|ex] w1] eqn:E.
  - rewrite (try_except_return _ _ _ _ _ E). cbn [fst snd].
    split; [reflexivity|]. rewrite (search_job_try_returns _ _ _ _ _ _ E), C0.
    reflexivity.
  - rewrite (try_except_raise _ _ _ _ _ E). cbn [fst].
    pose proof (search_job_try_raises _ _ _ _ _ _ _ E) as ->.
    assert (Hex : exists w2,
              Scheduler.search_job_except e sid log ex (job_opened e sid w)
                = (Return tt, w2) /\
              _error_counts w2 = Scheduler.count_error sid (_error_counts w)).
    { unfold Scheduler.search_job_except.
      unfold bind at 1, modify at 1. unfold bind at 1, get_world at 1.
      unfold bind at 1, Scheduler.update_log at 1, update_db at 1, modify at 1.
      match goal with
      | |- context [Scheduler._check_and_notify_error e sid ?msg ?w0] =>
          destruct (check_and_notify_effect e sid msg w0) as (w2 & E2 & C2 & _)
      end.
      exists w2. split; [exact E2|]. rewrite C2.
      cbn [_error_counts set_db set_error_counts]. rewrite C0. reflexivity. }
    destruct Hex as (w2 & E2 & C2). rewrite E2. cbn [fst snd].
    split; [reflexivity | exact C2].
Qed.

Lemma count_error_lookup sid (c : gmap Z Z) :
  Scheduler.count_error sid c !! sid = Some (default 0 (c !! sid) + 1).
Proof.
  unfold Scheduler.count_error. rewrite lookup_insert_eq.
  destruct (c !! sid) as [x|] eqn:E.
  - rewrite E. reflexivity.
  - rewrite lookup_insert_eq. reflexivity.
Qed.

Lemma count_error_other sid k (c : gmap Z Z) :
  k <> sid -> Scheduler.count_error sid c !! k = c !! k.
Proof.
  intros Hne. unfold Scheduler.count_error.
  rewrite lookup_insert_ne by congruence.
  destruct (c !! sid); [reflexivity|]. rewrite lookup_insert_ne by congruence.
  reflexivity.
Qed.

Lemma count_error_default sid (c : gmap Z Z) :
  default 0 (Scheduler.count_error sid c !! sid) = default 0 (c !! sid) + 1.
Proof. rewrite count_error_lookup. reflexivity. Qed.

(** The alert attempts of a failing run: one when an alert is due for the
    advanced counter, none otherwise. *)
Lemma failing_run_alerts e sid manual w ex :
  Scheduler.try_outcome e sid manual w = Raise ex ->
  Scheduler.alert_attempts sid (trace (Scheduler.after_run e sid manual w))
  = ((if Scheduler.alert_due sid (Scheduler.error_count sid w + 1) (db w)
      then 1 else 0)
     + Scheduler.alert_attempts sid (trace w))%nat.
Proof.
  unfold Scheduler.after_run, Scheduler._run_search_job, Scheduler.try_outcome.
  rewrite !(bind_return _ _ _ _ _ (scheduler_open_log_spec e sid w)).
  set (log := Scraper.next_id jlog_id (scheduler_logs (db w))).
  destruct (Scheduler.search_job_try e sid manual log (job_opened e sid w))
    as [[[]|ex'] w1] eqn:E; cbn [fst]; intros Hout; [discriminate|].
  rewrite (try_except_raise _ _ _ _ _ E).
  pose proof (search_job_try_raises _ _ _ _ _ _ _ E) as ->.
  unfold Scheduler.search_job_except.
  unfold bind at 1, modify at 1. unfold bind at 1, get_world at 1.
  unfold bind at 1, Scheduler.update_log at 1, update_db at 1, modify at 1.
  match goal with
  | |- context [Scheduler._check_and_notify_error e sid ?msg ?w0] =>
      destruct (check_and_notify_effect e sid msg w0) as (w2 & E2 & _ & A2)
  end.
  rewrite E2. cbn [snd]. rewrite A2.
  unfold Scheduler.error_count.
  cbn [_error_counts set_db set_error_counts trace db].
  change (_error_counts (job_opened e sid w)) with (_error_counts w).
  rewrite count_error_default. reflexivity.
Qed.

Lemma streak_counts sid n w w' :
  Scheduler.error_count sid w = 0 ->
  Scheduler.failing_streak sid n w w' ->
  Scheduler.error_count sid w' = Z.of_nat n.
Proof.
  intros H0 Hs. induction Hs as [w | n w w1 e manual ex Hs IH Hout | n w w1 w2 Hs IH Hc].
  - exact H0.
  - specialize (IH H0). destruct (run_effect e sid manual w1) as [_ Hcounts].
    rewrite Hout in Hcounts. unfold Scheduler.error_count in *.
    rewrite Hcounts, count_error_default. lia.
  - specialize (IH H0). unfold Scheduler.error_count in *. rewrite Hc. exact IH.
Qed.

Lemma reachable_counts_nonneg w :
  Scheduler.reachable w -> forall k c, _error_counts w !! k = Some c -> 0 <= c.
Proof.
  induction 1 as [w H0 | e sid manual w Hr IH | sid w Hr IH | s w Hr IH | d w Hr IH];
    intros k c Hk.
  - rewrite H0 in Hk. rewrite lookup_empty in Hk. discriminate.
  - destruct (run_effect e sid manual w) as [_ Hcounts]. rewrite Hcounts in Hk.
    destruct (decide (k = sid)) as [-> | Hne].
    + destruct (Scheduler.try_outcome e sid manual w).
      * rewrite lookup_insert_eq in Hk. injection Hk as <-. lia.
      * rewrite count_error_lookup in Hk. injection Hk as <-.
        destruct (_error_counts w !! sid) as [x|] eqn:E.
        -- specialize (IH sid x E). change (default 0 (Some x)) with x. lia.
        -- change (default 0 (@None Z)) with 0. lia.
    + destruct (Scheduler.try_outcome e sid manual w).
      * rewrite lookup_insert_ne in Hk by congruence. exact (IH k c Hk).
      * rewrite count_error_other in Hk by exact Hne. exact (IH k c Hk).
  - unfold Scheduler.remove_search_job, modify in Hk. cbn [snd] in Hk.
    destruct (decide (sid ∈ jobs w)); [|exact (IH k c Hk)].
    cbn [_error_counts set_error_counts set_jobs] in Hk.
    apply lookup_delete_Some in Hk as [_ Hk]. exact (IH k c Hk).
  - exact (IH k c Hk).
  - exact (IH k c Hk).
Qed.

(** C3. For every search key: after N consecutive failing run completions
    with no other write to its counter, started from a counter that is
    absent or zero, the counter equals N; after a run completed as success
    the counter is 0; and in every reachable state every counter is
    non-negative. *)
Theorem error_counter_tracks_failing_streak (search_id : Z) :
  (forall n w w',
     Scheduler.error_count search_id w = 0 ->
     Scheduler.failing_streak search_id n w w' ->
     Scheduler.error_count search_id w' = Z.of_nat n) /\
  (forall e manual w,
     Scheduler.try_outcome e search_id manual w = Return tt ->
     _error_counts (Scheduler.after_run e search_id manual w) !! search_id = Some 0) /\
  (forall w, Scheduler.reachable w ->
     forall k c, _error_counts w !! k = Some c -> 0 <= c).
Proof.
  split; [|split].
  - intros n w w'. apply streak_counts.
  - intros e manual w Hout. destruct (run_effect e search_id manual w) as [_ Hcounts].
    rewrite Hout in Hcounts. rewrite Hcounts. apply lookup_insert_eq.
  - apply reachable_counts_nonneg.
Qed.

(** C2 (amended). With alerting enabled and the threshold set to 3, the
    k-th failure of a streak of consecutive failing runs of one search makes
    no alert attempt for k = 1, 2 and exactly one alert attempt for every
    k >= 3, provided the row of the search is in the store when the check
    runs (when the row is missing no alert is attempted); whatever the
    alert deliveries do, the run of the job ends without raising. *)
Theorem alert_from_third_failure_on (search_id : Z) (n : nat) (w w1 : world)
    (e : env) (manual : bool) (ex : exn) (st : Settings) :
  Scheduler.error_count search_id w = 0 ->
  Scheduler.failing_streak search_id n w w1 ->
  Scheduler.try_outcome e search_id manual w1 = Raise ex ->
  settings (db w1) = Some st ->
  scheduler_error_notifications_enabled st = true ->
  scheduler_error_threshold st = 3 ->
  fst (Scheduler._run_search_job e search_id manual w1) = Return tt /\
  Scheduler.alert_attempts search_id
    (trace (Scheduler.after_run e search_id manual w1))
  = (match Scheduler.find_search search_id (db w1) with
     | Some _ => if (3 <=? S n)%nat then 1 else 0
     | None => 0
     end
     + Scheduler.alert_attempts search_id (trace w1))%nat.
Proof.
  intros H0 Hs Hout Hst Hen Hth.
  split; [apply run_effect|].
  rewrite (failing_run_alerts e search_id manual w1 ex Hout).
  rewrite (streak_counts search_id n w w1 H0 Hs).
  unfold Scheduler.alert_due. rewrite Hst, Hen, Hth. cbn [andb Z.eqb].
  destruct (Scheduler.find_search search_id (db w1)) as [s|].
  - rewrite andb_true_r.
    destruct (Nat.leb_spec 3 (S n)) as [Hle | Hlt].
    + replace (Z.of_nat n + 1 <? 3) with false by (symmetry; apply Z.ltb_ge; lia).
      reflexivity.
    + replace (Z.of_nat n + 1 <? 3) with true by (symmetry; apply Z.ltb_lt; lia).
      reflexivity.
  - rewrite andb_false_r. reflexivity.
Qed.

(** ** Examples *)

(** C4 (amended), at a concrete input: the seller 123 is blocked and the
    item carries the display name of the seller. *)
Lemma filter_product_is_rule_chain_witness :
  Filter.filter_product (Filter._load_config Cases.store_blocking_seller)
    (Cases.item_of_seller_123 "ana") None
  = (false, Some (Filter.GlobalBannedSeller (Some "ana"))).
Proof.
  rewrite (filter_product_is_rule_chain (Filter._load_config Cases.store_blocking_seller)
             (Cases.item_of_seller_123 "ana") None).
  vm_compute. reflexivity.
Defined.

(** C4 as stated fails at rule 3: the seller with the external id 123 is
    among the global banned sellers, and an item of that seller whose
    display name is empty is accepted by [filter_product], which skips the
    rule for want of a name, while the chain of the specification, whose
    rule 3 matches the display name or the external id, rejects it. *)
Lemma banned_seller_without_name_is_accepted :
  Filter._global_banned_sellers (Filter._load_config Cases.store_blocking_seller)
  = ["123"] /\
  pc_seller_vinted_id (Cases.item_of_seller_123 "") = Some "123" /\
  Filter.filter_product (Filter._load_config Cases.store_blocking_seller)
    (Cases.item_of_seller_123 "") None = (true, None) /\
  Filter.spec_evaluate (Filter._load_config Cases.store_blocking_seller)
    (Cases.item_of_seller_123 "") None
  = (false, Some (Filter.GlobalBannedSeller (Some ""))) /\
  Filter.filter_product (Filter._load_config Cases.store_blocking_seller)
    (Cases.item_of_seller_123 "") None
  <> Filter.spec_evaluate (Filter._load_config Cases.store_blocking_seller)
       (Cases.item_of_seller_123 "") None.
Proof. vm_compute. repeat split; try reflexivity. discriminate. Qed.

(** C7, at a concrete input: Telegram succeeds and Discord raises; the
    result map holds both answers and the row of the item is marked. *)
Lemma notify_product_isolates_channels_witness :
  exists results : gmap string bool,
    fst (Notify.notify_product Sample.e_discord_down Sample.telegram_and_discord 1
           Sample.w_product) = Return results /\
    results = {[ "telegram" := true; "discord" := false ]} /\
    Forall2 (marked_delivered 1000000) [Sample.stored_product]
      (products (db (snd (Notify.notify_product Sample.e_discord_down
                            Sample.telegram_and_discord 1 Sample.w_product)))).
Proof.
  destruct (notify_product_isolates_channels Sample.e_discord_down
              Sample.telegram_and_discord 1 Sample.w_product)
    as (results & H1 & _ & _ & _ & H5).
  exists results. split; [exact H1|].
  destruct H5 as [Hres Hrows]; [reflexivity | reflexivity | eexists; reflexivity|].
  split; [exact Hres|].
  change (products (db Sample.w_product)) with [Sample.stored_product] in Hrows.
  apply Forall2_cons_inv_l in Hrows as (p' & l' & Hm & Hl & ->).
  apply Forall2_nil_inv_l in Hl as ->.
  constructor; [exact Hm | constructor].
Defined.

(** C10, at a concrete input: every attempt answers 403. *)
Lemma blocked_fetch_is_recorded_as_success_witness :
  exists w',
    Scraper.scrape_and_save Sample.e_blocked Sample.scraper0 (Sample.search7 true)
      Sample.w_active = (Return Scraper._build_empty_result, w') /\
    Scraper.latest_log w'
    = Some (closed_log Sample.e_blocked (Sample.search7 true) Sample.w_active
              "success" None).
Proof.
  destruct (blocked_fetch_is_recorded_as_success Sample.e_blocked Sample.scraper0
              (Sample.search7 true) Sample.w_active Sample.blocked Sample.blocked
              Sample.blocked eq_refl eq_refl eq_refl eq_refl eq_refl eq_refl)
    as (_ & _ & (w' & H1 & H2 & _)).
  exists w'. split; assumption.
Defined.

(** C1 (amended), at concrete inputs: an unreachable catalog, and a page
    that lists one item twice, which violates the UNIQUE constraint when
    the products are committed. *)
Lemma scrape_and_save_contains_failures_witness :
  (exists w',
     Scraper.scrape_and_save Sample.e_down Sample.scraper0 (Sample.search7 true)
       Sample.w_active
     = (Return (Scraper._build_error_result "Failed after 3 attempts: timed out"), w')
     /\ products (db w') = []) /\
  (exists w',
     Scraper.scrape_and_save Sample.e_dup Sample.scraper0 (Sample.search7 true)
       Sample.w_active
     = (Return (Scraper._build_error_result
                  "UNIQUE constraint failed: products.vinted_id"), w')
     /\ products (db w') = []).
Proof.
  split.
  - destruct (scrape_and_save_contains_failures Sample.e_down Sample.scraper0
                (Sample.search7 true) Sample.w_active
                (HTTPError "Failed after 3 attempts: timed out")) as [Hfetch _].
    edestruct Hfetch as (w' & H & _ & Hp); [vm_compute; reflexivity|].
    exists w'. split; [exact H | exact Hp].
  - destruct (scrape_and_save_contains_failures Sample.e_dup Sample.scraper0
                (Sample.search7 true) Sample.w_active
                (IntegrityError "UNIQUE constraint failed: products.vinted_id"))
      as [_ Hsave].
    edestruct Hsave as (w' & H & _ & Hp);
      [ vm_compute; reflexivity
      | vm_compute; discriminate
      | vm_compute; reflexivity
      | vm_compute; reflexivity
      | ].
    exists w'. split; [exact H | exact Hp].
Defined.

(** C1 as stated fails: with the catalog unreachable the fetch raises and
    the run log is closed as [failed], yet nothing reaches the [except] of
    the job: its [try] suite completes, the job log is closed as [success],
    and the counter of the search, which stood at 2, is reset to 0 instead
    of advancing to 3. *)
Lemma fetch_failure_is_not_counted :
  let w' := Scheduler.after_run Sample.e_down 7 false Sample.w_failed_twice in
  Scheduler.error_count 7 Sample.w_failed_twice = 2 /\
  (slog_status <$> Scraper.latest_log w') = Some "failed" /\
  (Scraper.latest_log w' ≫= slog_error_message)
    = Some "Failed after 3 attempts: timed out" /\
  Scheduler.try_outcome Sample.e_down 7 false Sample.w_failed_twice = Return tt /\
  (jlog_status <$> last (scheduler_logs (db w'))) = Some "success" /\
  Scheduler.error_count 7 w' = 0 /\
  Scheduler.error_count 7 w' <> 3.
Proof. vm_compute. repeat split; try reflexivity. discriminate. Qed.

(** C5, at a concrete input: the first run stores the item 1, the second
    is offered the items 1 and 3; it skips the item 1, stores the item 3
    and ends without an error. *)
Lemma persisted_item_is_not_duplicated_witness :
  let out1 := Scraper.scrape_and_save Sample.e_first Sample.scraper0
                (Sample.search7 true) Sample.w_active in
  let out2 := Scraper.scrape_and_save Sample.e_second Sample.scraper0
                (Sample.search7 true) (snd out1) in
  let p := nth 0 (products (db (snd out1))) Sample.stored_product in
  Scraper.vinted_id_of p = "1" /\
  List.filter
    (fun q => String.eqb (Scraper.vinted_id_of q) (Scraper.vinted_id_of p))
    (products (db (snd out2))) = [p] /\
  exists r2 added,
    fst out2 = Return r2 /\
    products (db (snd out2)) = products (db (snd out1)) ++ added /\
    Scraper.error r2 = None /\
    map product_fields added = [Sample.item "3" "c" 300 "9"].
Proof.
  intros out1 out2 p. split; [vm_compute; reflexivity|].
  destruct (persisted_item_is_not_duplicated Sample.e_first Sample.e_second
              Sample.scraper0 Sample.scraper0 (Sample.search7 true) (Sample.search7 true)
              Sample.w_active (NoDup_nil_2 : Scraper.unique_products Sample.w_active) p)
    as (Hone & r2 & added & Hret & Hadd & _ & _ & Hskip).
  - vm_compute. left. reflexivity.
  - split; [exact Hone|]. exists r2, added.
    split; [exact Hret|]. split; [exact Hadd|].
    apply (Hskip [Sample.item "3" "c" 300 "9"; Sample.item "1" "a" 100 "9"]).
    + vm_compute. reflexivity.
    + apply (bool_decide_unpack _). vm_compute. exact I.
Defined.

(** C9, at concrete inputs: the accepted items name the sellers 8 and 9;
    the stored seller 9 is skipped when it was refreshed 2 hours ago, and
    fetched again and overwritten when it was refreshed 25 hours ago. *)
Lemma seller_refresh_follows_cutoff_witness :
  let items := [Sample.item "1" "a" 100 "8"; Sample.item "2" "b" 200 "9"] in
  (let w := Sample.w_seller (1000000 - 2 * 3600) in
   let w' := snd (Scraper.seller_step Sample.e_ok items w) in
   In (Sample.stored_seller (1000000 - 2 * 3600)) (sellers (db w')) /\
   Client.attempts_of (SellerProfile (Some "9")) (trace w') = []) /\
  (let w := Sample.w_seller (1000000 - 25 * 3600) in
   let w' := snd (Scraper.seller_step Sample.e_ok items w) in
   exists row,
     In row (sellers (db w')) /\
     seller_fields row = Sample.seller_doc "9" "ana" 3 /\
     seller_last_updated_at row = Some 1000000 /\
     seller_id row = 1 /\
     seller_first_seen_at row = 500000 /\
     Client.attempts_of (SellerProfile (Some "9")) (trace w') = [1%nat]).
Proof.
  intros items. split.
  - apply (proj1 (seller_refresh_follows_cutoff Sample.e_ok items
                    (Sample.w_seller (1000000 - 2 * 3600))
                    (Sample.stored_seller (1000000 - 2 * 3600))
                    (or_introl eq_refl) (or_intror (or_introl eq_refl))
                    (NoDup_singleton _) (NoDup_singleton _))
             (1000000 - 2 * 3600));
      [reflexivity | vm_compute; reflexivity].
  - destruct (proj2 (seller_refresh_follows_cutoff Sample.e_ok items
                       (Sample.w_seller (1000000 - 25 * 3600))
                       (Sample.stored_seller (1000000 - 25 * 3600))
                       (or_introl eq_refl) (or_intror (or_introl eq_refl))
                       (NoDup_singleton _) (NoDup_singleton _))
                (Sample.seller_doc "9" "ana" 3))
      as (row & Hin & Hf & Ht & Hid & Hfirst & _ & n & Hn & Hreq);
      [ vm_compute; discriminate
      | vm_compute; reflexivity
      | reflexivity
      | ].
    exists row. repeat (split; [assumption|]).
    vm_compute. reflexivity.
Defined.

(** Two scheduled runs of the inactive search 7 fail one after the other. *)
Lemma sample_streak :
  Scheduler.failing_streak 7 2 Sample.w_inactive
    (Scheduler.after_run Sample.e_ok 7 false
       (Scheduler.after_run Sample.e_ok 7 false Sample.w_inactive)).
Proof.
  eapply Scheduler.streak_fail;
    [eapply Scheduler.streak_fail; [apply Scheduler.streak_start|] |];
    vm_compute; reflexivity.
Defined.

(** C3, at a concrete input: after two failing runs the counter is 2, and a
    manual run, which succeeds, resets it. *)
Lemma error_counter_tracks_failing_streak_witness :
  let w2 := Scheduler.after_run Sample.e_ok 7 false
              (Scheduler.after_run Sample.e_ok 7 false Sample.w_inactive) in
  Scheduler.error_count 7 w2 = 2 /\
  _error_counts (Scheduler.after_run Sample.e_ok 7 true w2) !! 7 = Some 0.
Proof.
  intros w2. split.
  - apply (proj1 (error_counter_tracks_failing_streak 7) 2%nat Sample.w_inactive w2);
      [reflexivity | exact sample_streak].
  - apply (proj1 (proj2 (error_counter_tracks_failing_streak 7))).
    vm_compute. reflexivity.
Defined.

(** C2 (amended), at a concrete input: the third consecutive failing run of
    the inactive search 7 makes one alert attempt, the first two made
    none. *)
Lemma alert_from_third_failure_on_witness :
  let w2 := Scheduler.after_run Sample.e_ok 7 false
              (Scheduler.after_run Sample.e_ok 7 false Sample.w_inactive) in
  Scheduler.alert_attempts 7 (trace w2) = 0%nat /\
  Scheduler.alert_attempts 7 (trace (Scheduler.after_run Sample.e_ok 7 false w2))
  = 1%nat.
Proof.
  intros w2. split; [vm_compute; reflexivity|].
  destruct (alert_from_third_failure_on 7 2 Sample.w_inactive w2 Sample.e_ok false
              (ValueError "Búsqueda 'nike' está desactivada") default_settings)
    as [_ H];
    [ reflexivity
    | exact sample_streak
    | vm_compute; reflexivity
    | vm_compute; reflexivity
    | reflexivity
    | reflexivity
    | ].
  rewrite H. vm_compute. reflexivity.
Defined.

(** C2 as stated fails: with alerting enabled and the threshold at 3, three
    consecutive runs of the job of a search whose row is not in the store
    all fail, the counter reaches 3, and no alert attempt is made. *)
Lemma no_alert_for_a_missing_search :
  let w1 := Scheduler.after_run Sample.e_ok 8 false Sample.w_active in
  let w2 := Scheduler.after_run Sample.e_ok 8 false w1 in
  let w3 := Scheduler.after_run Sample.e_ok 8 false w2 in
  (scheduler_error_notifications_enabled <$> settings (db w2)) = Some true /\
  (scheduler_error_threshold <$> settings (db w2)) = Some 3 /\
  Scheduler.try_outcome Sample.e_ok 8 false Sample.w_active
    = Raise (ValueError "Búsqueda #8 no encontrada") /\
  Scheduler.try_outcome Sample.e_ok 8 false w1
    = Raise (ValueError "Búsqueda #8 no encontrada") /\
  Scheduler.try_outcome Sample.e_ok 8 false w2
    = Raise (ValueError "Búsqueda #8 no encontrada") /\
  Scheduler.error_count 8 w3 = 3 /\
  (jlog_error_count <$> last (scheduler_logs (db w3))) = Some 3 /\
  Scheduler.alert_attempts 8 (trace w3) = 0%nat.
Proof. vm_compute. repeat split; reflexivity. Qed.

(** * Further properties *)

(** ** Strings *)

Section StringFacts.
Import Str.

Lemma lower_ascii_idem c : lower_ascii (lower_ascii c) = lower_ascii c.
Proof. destruct c as [[] [] [] [] [] [] [] []]; reflexivity. Qed.

Lemma is_space_lower_ascii c : is_space (lower_ascii c) = is_space c.
Proof. destruct c as [[] [] [] [] [] [] [] []]; reflexivity. Qed.

Lemma lower_idem s : lower (lower s) = lower s.
Proof.
  induction s as [|c s IH]; cbn [lower]; [reflexivity|].
  rewrite lower_ascii_idem, IH. reflexivity.
Qed.

Lemma append_cons c a b : String c a +:+ b = String c (a +:+ b).
Proof. reflexivity. Qed.

Lemma append_nil b : "" +:+ b = b.
Proof. reflexivity. Qed.

Lemma lower_app a b : lower (a +:+ b) = lower a +:+ lower b.
Proof.
  induction a as [|c a IH]; [reflexivity|].
  rewrite append_cons. cbn [lower]. rewrite append_cons, IH. reflexivity.
Qed.

Lemma truthy_lower s : truthy (lower s) = truthy s.
Proof. destruct s; reflexivity. Qed.

Lemma rstrip_cons c r :
  rstrip (String c r)
  = match rstrip r with
    | EmptyString => if is_space c then EmptyString else String c EmptyString
    | r' => String c r'
    end.
Proof. reflexivity. Qed.

Lemma lstrip_lower s : lstrip (lower s) = lower (lstrip s).
Proof.
  induction s as [|c s IH]; cbn [lower lstrip]; [reflexivity|].
  rewrite is_space_lower_ascii. destruct (is_space c); [exact IH | reflexivity].
Qed.

Lemma rstrip_lower s : rstrip (lower s) = lower (rstrip s).
Proof.
  induction s as [|c s IH]; [reflexivity|].
  cbn [lower]. rewrite !rstrip_cons, IH, is_space_lower_ascii.
  destruct (rstrip s); cbn [lower]; [destruct (is_space c)|]; reflexivity.
Qed.

Lemma strip_lower s : strip (lower s) = lower (strip s).
Proof. unfold strip. rewrite lstrip_lower, rstrip_lower. reflexivity. Qed.

Lemma rstrip_idem s : rstrip (rstrip s) = rstrip s.
Proof.
  induction s as [|c s IH]; [reflexivity|].
  rewrite rstrip_cons. destruct (rstrip s) as [|c' r'] eqn:E.
  - destruct (is_space c) eqn:Ec; [reflexivity|].
    rewrite rstrip_cons. cbn [rstrip]. rewrite Ec. reflexivity.
  - rewrite rstrip_cons, IH. reflexivity.
Qed.

Lemma lstrip_rstrip_lstrip s : lstrip (rstrip (lstrip s)) = rstrip (lstrip s).
Proof.
  induction s as [|c s IH]; cbn [lstrip]; [reflexivity|].
  destruct (is_space c) eqn:Ec; [exact IH|].
  rewrite rstrip_cons. destruct (rstrip s); rewrite ?Ec; cbn [lstrip]; rewrite Ec; reflexivity.
Qed.

Lemma strip_idem s : strip (strip s) = strip s.
Proof. unfold strip. rewrite lstrip_rstrip_lstrip. apply rstrip_idem. Qed.

Lemma clean_lines_words s w :
  In w (clean_lines s) -> w <> "" /\ lower w = w /\ strip w = w.
Proof.
  unfold clean_lines. intros H. apply in_map_iff in H as (x & <- & Hx).
  apply filter_In in Hx as [_ Hx]. split; [|split].
  - intros E. rewrite <- truthy_lower, E in Hx. discriminate.
  - apply lower_idem.
  - rewrite strip_lower, strip_idem. reflexivity.
Qed.

Lemma startswith_app p a b : startswith p a = true -> startswith p (a +:+ b) = true.
Proof.
  revert a. induction p as [|c p IH]; intros a H; [reflexivity|].
  destruct a as [|d a]; [discriminate|]. rewrite append_cons. cbn [startswith] in *.
  apply andb_prop in H as [H1 H2]. rewrite H1. cbn [andb]. apply IH. exact H2.
Qed.

Lemma contains_app_l w a b : contains w a = true -> contains w (a +:+ b) = true.
Proof.
  induction a as [|c a IH]; intros H.
  - cbn [contains] in H. rewrite orb_false_r in H. destruct w; [|discriminate].
    destruct b; reflexivity.
  - cbn [contains] in H. rewrite append_cons. cbn [contains].
    apply orb_prop in H as [H|H].
    + rewrite <- append_cons. rewrite (startswith_app _ _ b H). reflexivity.
    + rewrite (IH H). apply orb_true_r.
Qed.
End StringFacts.

(** ** The batch filter and its configuration *)

Section FilterStatistics.
Import Filter.

Lemma times_rejected_bump k k' d :
  times_rejected k' (bump k d)
  = times_rejected k' d + (if decide (k = k') then 1 else 0).
Proof.
  unfold times_rejected. induction d as [|[k0 n] d IH]; cbn [bump find fst].
  - destruct (decide (k = k')) as [->|Hne].
    + rewrite bool_decide_eq_true_2 by reflexivity. reflexivity.
    + rewrite bool_decide_eq_false_2 by exact Hne. reflexivity.
  - destruct (decide (k0 = k)) as [->|Hne]; cbn [find fst].
    + destruct (decide (k = k')) as [->|Hne'].
      * rewrite !bool_decide_eq_true_2 by reflexivity. reflexivity.
      * rewrite !bool_decide_eq_false_2 by exact Hne'. cbn. lia.
    + destruct (bool_decide (k0 = k')) eqn:E.
      * apply bool_decide_eq_true in E. subst k0.
        rewrite decide_False by congruence. cbn. lia.
      * exact IH.
Qed.

Lemma bump_keys k d :
  NoDup (map fst d) -> NoDup (map fst (bump k d)).
Proof.
  induction d as [|[k0 n] d IH]; intros Hnd; cbn [bump].
  - cbn. apply NoDup_singleton.
  - cbn [map fst] in Hnd. apply NoDup_cons in Hnd as [Hk0 Hnd].
    destruct (decide (k0 = k)) as [->|Hne]; cbn [map fst].
    + apply NoDup_cons. split; assumption.
    + apply NoDup_cons. split; [|apply IH; exact Hnd].
      intros Hin. apply Hk0. clear IH Hnd Hk0.
      induction d as [|[k1 m] d IH]; cbn [bump] in Hin.
      * cbn in Hin. apply list_elem_of_singleton in Hin. congruence.
      * destruct (decide (k1 = k)); cbn [map fst] in *; [exact Hin|].
        apply elem_of_cons in Hin as [->|Hin]; [left|right; apply IH; exact Hin].
Qed.

Lemma bump_sum k d :
  fold_right Z.add 0 (map snd (bump k d)) = fold_right Z.add 0 (map snd d) + 1.
Proof.
  induction d as [|[k0 n] d IH]; cbn [bump]; [reflexivity|].
  destruct (decide (k0 = k)); cbn [map snd fold_right]; [lia|]. rewrite IH. lia.
Qed.

Lemma bump_positive k d :
  Forall (fun kv => 0 < snd kv) d -> Forall (fun kv => 0 < snd kv) (bump k d).
Proof.
  induction d as [|[k0 n] d IH]; intros H; cbn [bump].
  - constructor; [cbn; lia | constructor].
  - apply Forall_cons in H as [Hn H].
    destruct (decide (k0 = k)); constructor; cbn in *; try lia; auto.
Qed.

(** The loop of [filter_products] from any state. *)
Lemma filter_loop_statistics fm s (l : list ProductCreate) :
  forall a r rs,
    let out := fold_left (filter_step fm s) l (a, r, rs) in
    (length (fst (fst out)) + length (snd (fst out))
     = length a + length r + length l)%nat /\
    fold_right Z.add 0 (map snd (snd out)) - Z.of_nat (length (snd (fst out)))
    = fold_right Z.add 0 (map snd rs) - Z.of_nat (length r) /\
    (NoDup (map fst rs) -> NoDup (map fst (snd out))) /\
    (Forall (fun kv => 0 < snd kv) rs -> Forall (fun kv => 0 < snd kv) (snd out)) /\
    (forall k, times_rejected k (snd out)
               = times_rejected k rs
                 + Z.of_nat (length (List.filter
                      (fun p => bool_decide (filter_product fm p s = (false, k))) l))).
Proof.
  induction l as [|p l IH]; intros a r rs; cbn [fold_left].
  - cbv zeta. cbn [fst snd List.filter length].
    split; [lia|]. split; [reflexivity|]. split; [auto|]. split; [auto|].
    intros k. lia.
  - destruct (filter_product fm p s) as [[|] why] eqn:E.
    + assert (Hstep : filter_step fm s (a, r, rs) p = (a ++ [p], r, rs))
        by (unfold filter_step; rewrite E; reflexivity).
      rewrite Hstep. clear Hstep.
      specialize (IH (a ++ [p]) r rs). cbv zeta in IH.
      destruct IH as (H1 & H2 & H3 & H4 & H5). cbv beta iota zeta.
      rewrite length_app in H1. cbn [length] in *.
      split; [lia|]. split; [exact H2|]. split; [exact H3|]. split; [exact H4|].
      intros k. rewrite H5. cbn [List.filter]. rewrite E.
      rewrite bool_decide_eq_false_2 by congruence. reflexivity.
    + assert (Hstep : filter_step fm s (a, r, rs) p = (a, r ++ [p], bump why rs))
        by (unfold filter_step; rewrite E; reflexivity).
      rewrite Hstep. clear Hstep.
      specialize (IH a (r ++ [p]) (bump why rs)). cbv zeta in IH.
      destruct IH as (H1 & H2 & H3 & H4 & H5). cbv beta iota zeta.
      rewrite length_app in H1, H2. cbn [length] in *. rewrite bump_sum in H2.
      split; [lia|]. split; [lia|].
      split; [intros Hnd; apply H3, bump_keys, Hnd|].
      split; [intros Hp; apply H4, bump_positive, Hp|].
      intros k. rewrite H5, times_rejected_bump. cbn [List.filter]. rewrite E.
      destruct (decide (why = k)) as [->|Hne].
      * rewrite bool_decide_eq_true_2 by reflexivity. cbn [length]. lia.
      * rewrite bool_decide_eq_false_2 by congruence. lia.
Qed.

(** X1. The statistics of [filter_products] add up: [total] is the number
    of items given, [accepted] the number of items that pass
    [filter_product], [total = accepted + rejected]; the counts of
    [rejection_reasons] add up to [rejected], every reason is listed once
    with a positive count, and the count under a reason is the number of
    items that [filter_product] rejects with that reason. *)
Theorem filter_products_statistics (fm : FilterManager) (items : list ProductCreate)
    (s : option Search) :
  let st := snd (filter_products fm items s) in
  total st = Z.of_nat (length items) /\
  accepted st = Z.of_nat (length (List.filter (passes fm s) items)) /\
  total st = accepted st + rejected st /\
  fold_right Z.add 0 (map snd (rejection_reasons st)) = rejected st /\
  NoDup (map fst (rejection_reasons st)) /\
  Forall (fun kv => 0 < snd kv) (rejection_reasons st) /\
  forall k, times_rejected k (rejection_reasons st)
            = Z.of_nat (length (List.filter
                (fun p => bool_decide (filter_product fm p s = (false, k))) items)).
Proof.
  intros st. subst st.
  pose proof (filter_products_accepted fm s items) as Hacc.
  unfold filter_products in *.
  pose proof (filter_loop_statistics fm s items [] [] []) as H. cbv zeta in H.
  destruct (fold_left (filter_step fm s) items ([], [], [])) as [[a r] rs].
  cbn [fst snd total accepted rejected rejection_reasons length map fold_right] in *.
  destruct H as (H1 & H2 & H3 & H4 & H5). subst a.
  split; [reflexivity|]. split; [reflexivity|]. split; [lia|]. split; [lia|].
  split; [apply H3; constructor|]. split; [apply H4; constructor|].
  intros k. rewrite H5. reflexivity.
Qed.
End FilterStatistics.

Section FurtherFilter.
Import Filter.

(** X2. Whatever the settings row holds, every global banned word and
    every global banned seller that [_load_config] keeps is a non-empty
    string, in lower case, without white space around it: a blank line of
    the settings never becomes an entry (which would match every item). *)
Theorem global_filter_entries_are_clean (d : database) (w : string) :
  In w (_global_banned_words (_load_config d)) \/
  In w (_global_banned_sellers (_load_config d)) ->
  w <> "" /\ Str.lower w = w /\ Str.strip w = w.
Proof.
  unfold _load_config. destruct (settings d) as [st|]; cbn [_global_banned_words
    _global_banned_sellers]; [|intros [[]|[]]].
  intros [H|H].
  - destruct (global_banned_words st) as [s|]; [|destruct H].
    destruct (Str.truthy s); [|destruct H]. apply (clean_lines_words s w H).
  - destruct (global_banned_sellers st) as [s|]; [|destruct H].
    destruct (Str.truthy s); [|destruct H]. apply (clean_lines_words s w H).
Qed.

(** X3. For texts made of code points below U+0100 (the strings of the
    model): an item whose title contains a line of the global banned words
    of the settings, compared without regard to letter case and to the
    white space around the line, is never accepted: [filter_product] rejects
    it, for its price when the price rule fires first, else for a global
    banned word that its text contains. *)
Theorem banned_word_in_title_is_rejected (d : database) (st : Settings)
    (cfg line : string) (p : ProductCreate) (s : option Search) :
  settings d = Some st ->
  global_banned_words st = Some cfg ->
  In line (Str.split Str.newline cfg) ->
  Str.strip line <> "" ->
  Str.contains (Str.lower (Str.strip line)) (Str.lower (pc_title p)) = true ->
  exists why,
    filter_product (_load_config d) p s = (false, Some why) /\
    ((exists price minimum, why = PriceBelowGlobalMin price minimum) \/
     (exists w, why = GlobalBannedWord w /\
                In w (_global_banned_words (_load_config d)) /\
                Str.contains w (text_to_check p) = true)).
Proof.
  intros Hst Hcfg Hline Hne Hocc.
  assert (Htruthy : Str.truthy cfg = true).
  { destruct cfg; [|reflexivity]. cbn in Hline. destruct Hline as [<-|[]].
    contradiction Hne. reflexivity. }
  assert (Hwords : _global_banned_words (_load_config d) = Str.clean_lines cfg).
  { unfold _load_config. rewrite Hst. cbn [_global_banned_words].
    rewrite Hcfg, Htruthy. reflexivity. }
  assert (Hin : In (Str.lower (Str.strip line)) (Str.clean_lines cfg)).
  { unfold Str.clean_lines. apply in_map_iff. exists line. split; [reflexivity|].
    apply filter_In. split; [exact Hline|]. destruct (Str.strip line); [contradiction Hne|];
      reflexivity. }
  assert (Htext : Str.contains (Str.lower (Str.strip line)) (text_to_check p) = true).
  { unfold text_to_check. rewrite lower_app. apply contains_app_l. exact Hocc. }
  assert (Hex : existsb (fun w => Str.contains w (text_to_check p))
                  (_global_banned_words (_load_config d)) = true).
  { rewrite Hwords. apply existsb_exists. eauto. }
  rewrite existsb_find in Hex.
  unfold filter_product.
  destruct ((0 <? _global_min_price (_load_config d))
            && (pc_price p <? _global_min_price (_load_config d))).
  - eexists. split; [reflexivity|]. left. eauto.
  - rewrite global_words_find.
    destruct (find _ (_global_banned_words (_load_config d))) as [w|] eqn:E;
      [|discriminate].
    apply find_some in E as [Ew Ec].
    eexists. split; [reflexivity|]. right. eauto.
Qed.

(** X4. The rules of a search only restrict the global ones: an item
    that the global rules reject is rejected with the same reason whatever
    the search, an item accepted with a search is accepted without it, and
    a search without banned words, banned sellers and allowed countries
    gives the verdict of the global rules. *)
Theorem search_rules_only_restrict (fm : FilterManager) (p : ProductCreate)
    (s : Search) :
  (forall why, filter_product fm p None = (false, why) ->
               filter_product fm p (Some s) = (false, why)) /\
  (fst (filter_product fm p (Some s)) = true ->
   filter_product fm p None = (true, None)) /\
  (json_truthy (search_banned_words s) = false ->
   json_truthy (search_banned_seller_ids s) = false ->
   json_truthy (search_allowed_countries s) = false ->
   filter_product fm p (Some s) = filter_product fm p None).
Proof.
  unfold filter_product.
  destruct ((0 <? _global_min_price fm) && (pc_price p <? _global_min_price fm)).
  { repeat split; try discriminate; auto. }
  destruct (match _global_banned_words fm with [] => None | _ :: _ => _ end).
  { repeat split; try discriminate; auto. }
  destruct (match _global_banned_sellers fm with [] => None | _ :: _ => _ end).
  { repeat split; try discriminate; auto. }
  split; [discriminate|]. split; [reflexivity|].
  intros -> -> ->. reflexivity.
Qed.

(** X5. Without a settings row there is no global filter: the batch
    filter run without a search returns every item, in order, with nothing
    rejected. *)
Theorem no_settings_no_global_filters (d : database) (items : list ProductCreate) :
  settings d = None ->
  filter_products (_load_config d) items None
  = (items, {| total := Z.of_nat (length items);
               accepted := Z.of_nat (length items);
               rejected := 0; rejection_reasons := [] |}).
Proof.
  intros H. unfold filter_products.
  rewrite filter_loop_all_pass; [reflexivity|].
  apply forallb_forall. intros p _. unfold passes, filter_product, _load_config.
  rewrite H. reflexivity.
Qed.
End FurtherFilter.

(** ** The requester and its configuration *)

Section FurtherClient.
Import Client.

Lemma stripped_lines_nonempty s : Forall (fun x => x <> "") (stripped_lines s).
Proof.
  unfold stripped_lines. apply Forall_forall. intros x Hx.
  apply list_elem_of_In, in_map_iff in Hx as (y & <- & Hy).
  apply filter_In in Hy as [_ Hy]. intros E. rewrite E in Hy. discriminate.
Qed.

Lemma parse_user_agents_nonempty st :
  _parse_user_agents st <> [] /\ Forall (fun ua => ua <> "") (_parse_user_agents st).
Proof.
  unfold _parse_user_agents.
  assert (Hdef : Forall (fun ua : string => ua <> "") [default_user_agent]).
  { constructor; [discriminate | constructor]. }
  assert (Hold : Forall (fun ua : string => ua <> "")
                   (if Str.truthy (user_agent st) then [user_agent st] else [])).
  { destruct (user_agent st); cbn; constructor; [discriminate | constructor]. }
  destruct (user_agent_list st) as [ua_list|].
  - destruct (Str.truthy ua_list).
    + pose proof (stripped_lines_nonempty ua_list) as Hs.
      destruct (stripped_lines ua_list) as [|x l].
      * destruct (Str.truthy (user_agent st)); split; try discriminate; assumption.
      * split; [discriminate | exact Hs].
    + destruct (Str.truthy (user_agent st)); split; try discriminate; assumption.
  - destruct (Str.truthy (user_agent st)); split; try discriminate; assumption.
Qed.

Lemma nth_In_or_default {A} (l : list A) (i : nat) (d : A) :
  (i < length l)%nat -> In (nth i l d) l.
Proof. apply nth_In. Qed.

Lemma get_user_agent_ok c :
  _user_agents c <> [] ->
  (_user_agent_index c < length (_user_agents c))%nat ->
  In (fst (get_user_agent c)) (_user_agents c) /\
  _user_agents (snd (get_user_agent c)) = _user_agents c /\
  _proxies (snd (get_user_agent c)) = _proxies c /\
  _settings (snd (get_user_agent c)) = _settings c /\
  _proxy_index (snd (get_user_agent c)) = _proxy_index c /\
  session_proxy (snd (get_user_agent c)) = session_proxy c /\
  (_user_agent_index (snd (get_user_agent c)) < length (_user_agents c))%nat.
Proof.
  intros Hne Hi. unfold get_user_agent.
  destruct (_user_agents c) as [|first rest] eqn:E; [contradiction Hne; reflexivity|].
  destruct (negb (user_agent_rotation (_settings c))).
  - cbn [fst snd]. rewrite E. repeat split; auto. left. reflexivity.
  - destruct rest as [|second rest].
    + cbn [fst snd]. rewrite E. repeat split; auto. left. reflexivity.
    + cbn [fst snd set_user_agent_index _user_agents _proxies _settings _proxy_index
             session_proxy _user_agent_index].
      repeat split; auto.
      * apply nth_In. exact Hi.
      * apply Nat.mod_upper_bound. cbn [length]. lia.
Qed.

Lemma get_proxy_ok c :
  (_proxies c <> [] -> (_proxy_index c < length (_proxies c))%nat) ->
  match fst (get_proxy c) with
  | Some proxy => In proxy (_proxies c) /\ proxies_enabled (_settings c) = true
  | None => True
  end /\
  _user_agents (snd (get_proxy c)) = _user_agents c /\
  _proxies (snd (get_proxy c)) = _proxies c /\
  _settings (snd (get_proxy c)) = _settings c /\
  _user_agent_index (snd (get_proxy c)) = _user_agent_index c /\
  session_user_agent (snd (get_proxy c)) = session_user_agent c /\
  (_proxies c <> [] -> (_proxy_index (snd (get_proxy c)) < length (_proxies c))%nat).
Proof.
  intros Hi. unfold get_proxy.
  destruct (proxies_enabled (_settings c)) eqn:En; cbn [negb];
    [|cbn [fst snd]; repeat split; auto].
  destruct (_proxies c) as [|first rest] eqn:E; [cbn [fst snd]; repeat split; auto|].
  destruct (negb (proxy_rotation (_settings c))).
  - cbn [fst snd]. rewrite E. repeat split; auto. left. reflexivity.
  - cbn [fst snd set_proxy_index _user_agents _proxies _settings _proxy_index
           session_user_agent _user_agent_index].
    rewrite E. repeat split; auto.
    + apply nth_In. apply Hi. discriminate.
    + intros _. apply Nat.mod_upper_bound. cbn [length]. lia.
Qed.

Lemma last_cons_Some {A} (m : list A) : forall x, exists y, last (x :: m) = Some y.
Proof.
  induction m as [|z m IH]; intros x; [exists x; reflexivity|].
  destruct (IH z) as [y Hy]. exists y. exact Hy.
Qed.

Lemma fold_last_override {A} (Q : A -> bool) (val : A -> string) (l : list A) :
  forall b,
    fold_left (fun current kv => if Q kv then val kv else current) l b
    = default b (val <$> last (List.filter Q l)).
Proof.
  induction l as [|kv l IH]; intros b; [reflexivity|].
  cbn [fold_left List.filter]. rewrite IH.
  destruct (Q kv); [|reflexivity].
  destruct (List.filter Q l) as [|x m]; [reflexivity|].
  destruct (last_cons_Some m x) as [y Hy].
  change (last (kv :: x :: m)) with (last (x :: m)). rewrite Hy. reflexivity.
Qed.

Lemma last_In {A} (l : list A) (x : A) : last l = Some x -> In x l.
Proof.
  induction l as [|y l IH]; [discriminate|].
  destruct l as [|z l]; cbn [last].
  - intros H. injection H as <-. left. reflexivity.
  - intros H. right. apply IH. exact H.
Qed.

(** The merged User-Agent is the one passed in when no additional header
    names the User-Agent, and the value of such a header otherwise. *)
Lemma merged_user_agent_spec (ua : string) (hs : list (string * string)) :
  match List.filter (fun kv => String.eqb (Str.lower (fst kv)) "user-agent") hs with
  | [] => merged_user_agent ua hs = ua
  | named => In (merged_user_agent ua hs) (map snd named)
  end.
Proof.
  unfold merged_user_agent. rewrite fold_last_override.
  set (P := fun kv : string * string => String.eqb (Str.lower (fst kv)) "user-agent").
  set (Q := fun kv : string * string =>
              String.eqb (Str.lower (fst kv)) "user-agent"
              && negb (String.eqb (fst kv) "User-Agent")).
  assert (HQ : forall kv, In kv (List.filter Q hs) -> In kv (List.filter P hs)).
  { intros kv Hkv. apply filter_In in Hkv as [Hin Hq]. apply filter_In.
    split; [exact Hin|]. unfold Q in Hq. apply andb_prop in Hq as [Hq _]. exact Hq. }
  assert (HE : forall kv, find (fun kv => String.eqb (fst kv) "User-Agent") hs = Some kv ->
                          In kv (List.filter P hs)).
  { intros kv Hkv. apply find_some in Hkv as [Hin He]. apply filter_In.
    split; [exact Hin|]. unfold P. apply String.eqb_eq in He. rewrite He. reflexivity. }
  assert (HP : List.filter P hs = [] ->
               List.filter Q hs = [] /\
               find (fun kv => String.eqb (fst kv) "User-Agent") hs = None).
  { intros E. split.
    - destruct (List.filter Q hs) as [|kv m] eqn:Eq; [reflexivity|].
      specialize (HQ kv (or_introl eq_refl)). rewrite E in HQ. destruct HQ.
    - destruct (find _ hs) as [kv|] eqn:Ef; [|reflexivity].
      specialize (HE kv eq_refl). rewrite E in HE. destruct HE. }
  assert (HN : List.filter Q hs = [] ->
               find (fun kv => String.eqb (fst kv) "User-Agent") hs = None ->
               List.filter P hs = []).
  { intros Eq Ef. destruct (List.filter P hs) as [|kv m] eqn:E; [reflexivity|].
    assert (Hkv : In kv (List.filter P hs)) by (rewrite E; left; reflexivity).
    apply filter_In in Hkv as [Hin Hp].
    destruct (String.eqb (fst kv) "User-Agent") eqn:Ex.
    - pose proof (find_none _ _ Ef kv Hin) as Hno. cbv beta in Hno. congruence.
    - assert (Hq : In kv (List.filter Q hs)).
      { apply filter_In. split; [exact Hin|]. unfold Q. unfold P in Hp.
        rewrite Hp, Ex. reflexivity. }
      rewrite Eq in Hq. destruct Hq. }
  destruct (List.filter P hs) as [|kv0 m0] eqn:EP.
  - destruct (HP eq_refl) as [Eq Ef]. rewrite Eq, Ef. reflexivity.
  - destruct (last (List.filter Q hs)) as [kv|] eqn:El.
    + cbn [fmap option_fmap option_map default from_option id].
      apply in_map. apply HQ. apply last_In. exact El.
    + cbn [fmap option_fmap option_map default from_option id].
      assert (Eq : List.filter Q hs = []).
      { destruct (List.filter Q hs) as [|x m] eqn:Eq; [reflexivity|].
        destruct (last_cons_Some m x) as [y Hy]. congruence. }
      destruct (find _ hs) as [kv|] eqn:Ef.
      * apply in_map. apply HE. reflexivity.
      * specialize (HN Eq eq_refl). discriminate.
Qed.

Lemma get_headers_ok c :
  _user_agents c <> [] ->
  (_user_agent_index c < length (_user_agents c))%nat ->
  In (fst (get_headers c))
     (match user_agent_overrides (_settings c) with
      | [] => _user_agents c
      | overrides => overrides
      end) /\
  _user_agents (snd (get_headers c)) = _user_agents c /\
  _proxies (snd (get_headers c)) = _proxies c /\
  _settings (snd (get_headers c)) = _settings c /\
  _proxy_index (snd (get_headers c)) = _proxy_index c /\
  session_proxy (snd (get_headers c)) = session_proxy c /\
  (_user_agent_index (snd (get_headers c)) < length (_user_agents c))%nat.
Proof.
  intros Hne Hi.
  destruct (get_user_agent_ok c Hne Hi) as (H1 & H2 & H3 & H4 & H5 & H6 & H7).
  unfold get_headers. destruct (get_user_agent c) as [ua c1]. cbn [fst snd] in *.
  split; [|repeat split; assumption].
  rewrite H4. unfold user_agent_overrides.
  destruct (default_headers (_settings c)) as [hs|]; [|exact H1].
  pose proof (merged_user_agent_spec ua hs) as Hm.
  destruct (List.filter _ hs) as [|kv m]; [rewrite Hm; exact H1 | exact Hm].
Qed.

Lemma headers_updated_ok w : keeps_requester_ok w (headers_updated w).
Proof.
  intros (Hne & Hall & Hi & Hs & Hp & Hsp). unfold headers_updated.
  destruct (get_headers_ok (requester w) Hne Hi) as (H1 & H2 & H3 & H4 & H5 & H6 & H7).
  destruct (get_headers (requester w)) as [ua c]. cbn [fst snd] in *.
  unfold requester_ok.
  cbn [requester set_requester set_session_user_agent _user_agents _user_agent_index
         session_user_agent _proxies _proxy_index session_proxy _settings].
  rewrite H2, H3, H4, H5, H6. repeat split; assumption.
Qed.

Lemma proxy_configured_ok w : keeps_requester_ok w (proxy_configured w).
Proof.
  intros (Hne & Hall & Hi & Hs & Hp & Hsp). unfold proxy_configured.
  destruct (get_proxy_ok (requester w) Hp) as (H1 & H2 & H3 & H4 & H5 & H6 & H7).
  destruct (get_proxy (requester w)) as [p c]. cbn [fst snd] in *.
  unfold requester_ok.
  cbn [requester set_requester set_session_proxy _user_agents _user_agent_index
         session_user_agent _proxies _proxy_index session_proxy _settings].
  rewrite H2, H3, H4, H5, H6. repeat split; assumption.
Qed.

Lemma keeps_requester_ok_refl w : keeps_requester_ok w w.
Proof. intros H. exact H. Qed.

Lemma keeps_requester_ok_trans w1 w2 w3 :
  keeps_requester_ok w1 w2 -> keeps_requester_ok w2 w3 -> keeps_requester_ok w1 w3.
Proof. unfold keeps_requester_ok. auto. Qed.

Ltac requester_frame :=
  unfold emit, _update_headers, _configure_proxy, _refresh_cookies, emit;
  repeat stable_step keeps_requester_ok_refl keeps_requester_ok_trans
    ltac:(first [apply headers_updated_ok | apply proxy_configured_ok
                | apply keeps_requester_ok_refl]).

Lemma get_loop_keeps_requester_ok e url remaining :
  forall tried, stable keeps_requester_ok (get_loop e url remaining tried).
Proof.
  induction remaining as [|remaining IH]; intros tried; cbn [get_loop];
    requester_frame.
Qed.

Lemma new_requester_state (st : Settings) :
  let c := {| _settings := st; _user_agents := _parse_user_agents st;
              _proxies := _parse_proxies st; _user_agent_index := 0%nat;
              _proxy_index := 0%nat; session_user_agent := "";
              session_proxy := None |} in
  requester_ok (set_session_user_agent (fst (get_headers c)) (snd (get_headers c))).
Proof.
  intros c.
  destruct (parse_user_agents_nonempty st) as [Hne Hall].
  assert (Hi : (_user_agent_index c < length (_user_agents c))%nat).
  { cbn. destruct (_parse_user_agents st); [contradiction Hne; reflexivity|cbn; lia]. }
  destruct (get_headers_ok c Hne Hi) as (H1 & H2 & H3 & H4 & H5 & H6 & H7).
  unfold requester_ok.
  cbn [set_session_user_agent _user_agents _user_agent_index
         session_user_agent _proxies _proxy_index session_proxy _settings].
  rewrite H2, H3, H4, H5, H6. cbn [c _user_agents _proxies _proxy_index session_proxy].
  repeat split; try assumption.
  intros Hp. destruct (_parse_proxies st); [contradiction Hp; reflexivity|cbn; lia].
Qed.

(** X6. The requester stays consistent with its configuration: whatever
    the settings row holds, a new requester has a non-empty list of
    User-Agents with no empty entry, rotation indices inside their lists, and
    a session User-Agent that is taken from the list when no additional
    header of the settings names the User-Agent (up to case), and is the
    value of such a header otherwise; and a request ([get],
    [scrape_catalog]) started from a consistent requester leaves it
    consistent, so the rotation never reads outside a list and the session
    never goes through a proxy that is not configured and enabled. *)
Theorem requester_stays_consistent (e : env) (url : request) (w : world) :
  requester_ok (requester (snd (new_requester w))) /\
  (requester_ok (requester w) ->
   requester_ok (requester (snd (get e url w))) /\
   requester_ok (requester (snd (scrape_catalog e url w)))).
Proof.
  split.
  - unfold new_requester, bind, read_db, update_db, modify, ret, _update_headers, modify.
    destruct (settings (db w)) as [st|]; cbn [snd];
      unfold headers_updated; cbn [requester set_requester];
      [pose proof (new_requester_state st) as H
      |pose proof (new_requester_state default_settings) as H];
      cbv zeta in H;
      match goal with
      | |- context [get_headers ?c] => destruct (get_headers c) as [ua c1]
      end; exact H.
  - intros Hok.
    assert (Hget : stable keeps_requester_ok (get e url)).
    { unfold get.
      apply (stable_bind _ keeps_requester_ok_trans);
        [requester_frame | intros; apply get_loop_keeps_requester_ok]. }
    split; [apply Hget; exact Hok|].
    assert (Hcat : stable keeps_requester_ok (scrape_catalog e url)).
    { unfold scrape_catalog.
      apply (stable_bind _ keeps_requester_ok_trans); [exact Hget | intros; requester_frame]. }
    apply Hcat. exact Hok.
Qed.
End FurtherClient.

Section Rotation.
Import Client.

Lemma get_user_agent_rotating c :
  user_agent_rotation (_settings c) = true ->
  (2 <= length (_user_agents c))%nat ->
  (_user_agent_index c < length (_user_agents c))%nat ->
  get_user_agent c
  = (nth (_user_agent_index c) (_user_agents c) "",
     set_user_agent_index
       ((_user_agent_index c + 1) mod length (_user_agents c)) c).
Proof.
  intros Hrot Hlen Hi. unfold get_user_agent. rewrite Hrot. cbn [negb].
  destruct (_user_agents c) as [|first [|second rest]] eqn:E; cbn [length] in Hlen;
    [lia | lia |].
  f_equal. apply nth_indep. exact Hi.
Qed.

Lemma user_agents_served_rotating k :
  forall c,
    user_agent_rotation (_settings c) = true ->
    (2 <= length (_user_agents c))%nat ->
    (_user_agent_index c < length (_user_agents c))%nat ->
    fst (user_agents_served k c)
    = map (fun j => nth ((_user_agent_index c + j) mod length (_user_agents c))
                        (_user_agents c) "")
          (seq 0 k) /\
    snd (user_agents_served (S k) c)
    = set_user_agent_index
        ((_user_agent_index c + S k) mod length (_user_agents c)) c.
Proof.
  induction k as [|k IH]; intros c Hrot Hlen Hi.
  - split; [reflexivity|]. cbn [user_agents_served].
    rewrite (get_user_agent_rotating c Hrot Hlen Hi). reflexivity.
  - set (n := length (_user_agents c)) in *.
    set (c1 := set_user_agent_index ((_user_agent_index c + 1) mod n) c).
    assert (Hstep : forall m, user_agents_served (S m) c
              = (nth (_user_agent_index c) (_user_agents c) ""
                   :: fst (user_agents_served m c1),
                 snd (user_agents_served m c1))).
    { intros m. cbn [user_agents_served].
      rewrite (get_user_agent_rotating c Hrot Hlen Hi). fold n. fold c1.
      destruct (user_agents_served m c1). reflexivity. }
    assert (Hi1 : (_user_agent_index c1 < length (_user_agents c1))%nat).
    { cbn. apply Nat.mod_upper_bound. unfold n in *. lia. }
    destruct (IH c1 Hrot Hlen Hi1) as [IH1 IH2].
    assert (Hua : _user_agents c1 = _user_agents c) by reflexivity.
    assert (Hidx : _user_agent_index c1 = ((_user_agent_index c + 1) mod n)%nat)
      by reflexivity.
    rewrite Hua, Hidx in IH1, IH2. fold n in IH1, IH2.
    split.
    + rewrite Hstep. cbn [fst]. rewrite IH1.
      cbn [seq map].
      replace ((_user_agent_index c + 0) mod n)%nat with (_user_agent_index c)
        by (rewrite Nat.add_0_r; symmetry; apply Nat.mod_small; exact Hi).
      f_equal.
      rewrite <- seq_shift, map_map. apply map_ext. intros j.
      f_equal. rewrite Nat.Div0.add_mod_idemp_l. f_equal. lia.
    + rewrite Hstep. cbn [snd]. rewrite IH2. unfold c1, set_user_agent_index.
      cbn [_settings _user_agents _proxies _proxy_index session_user_agent session_proxy].
      f_equal. rewrite Nat.Div0.add_mod_idemp_l. f_equal. lia.
Qed.

Lemma rotation_cycle {A} (l : list A) (i : nat) (d : A) :
  (i < length l)%nat ->
  map (fun j => nth ((i + j) mod length l) l d) (seq 0 (length l)) = drop i l ++ take i l.
Proof.
  intros Hi. apply list_eq. intros j.
  rewrite list_lookup_fmap.
  destruct (decide (j < length l)%nat) as [Hj|Hj].
  - rewrite lookup_seq_lt by exact Hj. cbn [fmap option_fmap option_map Nat.add].
    destruct (decide (i + j < length l)%nat) as [Hs|Hs].
    + rewrite Nat.mod_small by exact Hs.
      rewrite lookup_app_l by (rewrite length_drop; lia).
      rewrite lookup_drop.
      destruct (lookup_lt_is_Some_2 l (i + j) Hs) as [x Hx].
      rewrite Hx. f_equal. apply nth_lookup_Some with (d := d) in Hx. exact Hx.
    + assert (Hm : ((i + j) mod length l = i + j - length l)%nat).
      { symmetry. apply (Nat.mod_unique _ _ 1); lia. }
      rewrite Hm.
      rewrite lookup_app_r by (rewrite length_drop; lia).
      rewrite length_drop, lookup_take_lt by lia.
      replace (j - (length l - i))%nat with (i + j - length l)%nat by lia.
      assert (Hlt : (i + j - length l < length l)%nat) by lia.
      destruct (lookup_lt_is_Some_2 l _ Hlt) as [x Hx].
      rewrite Hx. f_equal. apply nth_lookup_Some with (d := d) in Hx. exact Hx.
  - rewrite lookup_seq_ge by lia. cbn.
    symmetry. apply lookup_ge_None.
    rewrite length_app, length_drop, length_take. lia.
Qed.

(** X7. With rotation on and at least two User-Agents, successive calls
    of [get_user_agent] serve the list in order starting at the current
    index and wrapping around: the call number [j] (from 0) returns the entry
    at index [(i + j) mod n]; after [n] calls every entry was served exactly
    once and the configuration is back in its initial state. *)
Theorem user_agents_rotate_round_robin (c : requester_state) :
  let l := _user_agents c in
  let i := _user_agent_index c in
  user_agent_rotation (_settings c) = true ->
  (2 <= length l)%nat ->
  (i < length l)%nat ->
  (forall k, fst (user_agents_served k c)
             = map (fun j => nth ((i + j) mod length l) l "") (seq 0 k)) /\
  user_agents_served (length l) c = (drop i l ++ take i l, c).
Proof.
  intros l i Hrot Hlen Hi. subst l i. split.
  - intros k. apply (user_agents_served_rotating k c Hrot Hlen Hi).
  - destruct (user_agents_served_rotating (length (_user_agents c)) c Hrot Hlen Hi)
      as [H1 _].
    assert (Hpos : exists n, length (_user_agents c) = S n)
      by (destruct (length (_user_agents c)); [lia | eauto]).
    destruct Hpos as [n En].
    destruct (user_agents_served_rotating n c Hrot Hlen Hi) as [_ H2].
    rewrite <- En in H2.
    rewrite (surjective_pairing (user_agents_served (length (_user_agents c)) c)), H1, H2.
    f_equal.
    + apply rotation_cycle. exact Hi.
    + replace ((_user_agent_index c + length (_user_agents c))
                 mod length (_user_agents c))%nat with (_user_agent_index c).
      * destruct c. reflexivity.
      * apply (Nat.mod_unique _ _ 1); lia.
Qed.
End Rotation.

(** ** Deliveries and their record *)

Section FurtherNotify.
Import Notify.

Lemma channel_block_rows e self c product results w :
  exists w',
    channel_block e (configured self c) c product results w
      = (Return (recorded e self product c results), w') /\
    notifications (db w')
    = notifications (db w)
      ++ (if configured self c then [notification_row e product c] else []) /\
    products (db w') = products (db w) /\
    same_but_deliveries w w'.
Proof.
  unfold channel_block, recorded, reports_success, notification_row, reports_success,
    same_but_deliveries.
  destruct (configured self c).
  2:{ eexists. split; [reflexivity|]. rewrite app_nil_r. repeat split; reflexivity. }
  unfold bind, try_except, emit, modify, ret, raise, _log_notification, update_db, modify.
  destruct (send_product_notification e c product) as [[|]|ex];
    eexists; repeat split; reflexivity.
Qed.

Lemma any_values_recorded e self product :
  any_values (recorded e self product Webhook
                (recorded e self product Discord
                   (recorded e self product Telegram ∅)))
  = delivered e self product.
Proof.
  unfold delivered, recorded, all_channels.
  cbn [existsb configured channel_name].
  destruct (_telegram self), (_discord self), (_webhook self); cbn [andb];
    repeat (rewrite any_values_insert by (simplify_map_eq; reflexivity));
    rewrite any_values_empty;
    repeat match goal with
           | |- context [reports_success e ?c product] =>
               destruct (reports_success e c product)
           end; reflexivity.
Qed.

(** What [notify_product] leaves behind: it returns, its result map has a
    true entry exactly when the product is delivered, and the notification
    table grows by one row per configured channel, in order. *)
Lemma notify_product_outcome e self product w :
  exists results w',
    notify_product e self product w = (Return results, w') /\
    any_values results = delivered e self product /\
    notifications (db w')
    = notifications (db w)
      ++ map (notification_row e product) (List.filter (configured self) all_channels) /\
    products (db w')
    = (if delivered e self product
       then map (fun p => if product_id p =? product
                          then mark_notified (utcnow e) p else p) (products (db w))
       else products (db w)) /\
    same_but_deliveries w w'.
Proof.
  unfold notify_product, bind.
  destruct (channel_block_rows e self Telegram product ∅ w)
    as (w1 & E1 & N1 & P1 & S1 & S1' & S1'' & S1''' & S1'''').
  cbn [configured] in E1. rewrite E1. clear E1.
  destruct (channel_block_rows e self Discord product
              (recorded e self product Telegram ∅) w1)
    as (w2 & E2 & N2 & P2 & S2 & S2' & S2'' & S2''' & S2'''').
  cbn [configured] in E2. rewrite E2. clear E2.
  destruct (channel_block_rows e self Webhook product
              (recorded e self product Discord (recorded e self product Telegram ∅)) w2)
    as (w3 & E3 & N3 & P3 & S3 & S3' & S3'' & S3''' & S3'''').
  cbn [configured] in E3. rewrite E3. clear E3.
  pose proof (any_values_recorded e self product) as Hany. rewrite Hany.
  assert (Hrows : notifications (db w3)
            = notifications (db w)
              ++ map (notification_row e product)
                     (List.filter (configured self) all_channels)).
  { rewrite N3, N2, N1. unfold all_channels. cbn [List.filter configured].
    destruct (_telegram self), (_discord self), (_webhook self);
      cbn [map app]; rewrite <- ?app_assoc, ?app_nil_r; reflexivity. }
  assert (Hprod : products (db w3) = products (db w)) by congruence.
  unfold same_but_deliveries.
  destruct (delivered e self product) eqn:Hd; unfold update_db, modify, ret;
    eexists _, _; (split; [reflexivity|]); (split; [congruence|]);
    cbn [db set_db set_products products notifications settings searches sellers
           scraping_logs scheduler_logs];
    (split; [exact Hrows|]); (split; [rewrite ?Hprod; reflexivity|]);
    repeat split; congruence.
Qed.

(** X8. [notify_product] leaves one [Notification] row for every
    configured channel, in the order Telegram, Discord, Webhook, with status
    [sent] when the channel reported success and [failed] otherwise (with
    the text of the exception when it raised); the row of the product is
    marked as notified (flag set, [notified_at] now, the other columns
    kept) exactly when one of these rows says [sent], and no other product
    row changes; nothing else in the store changes. *)
Theorem notify_product_leaves_audit_rows (e : env) (self : NotificationManager)
    (product : Z) (w : world) :
  let w' := snd (notify_product e self product w) in
  let rows := map (notification_row e product)
                  (List.filter (configured self) all_channels) in
  notifications (db w') = notifications (db w) ++ rows /\
  Forall2
    (fun p p' =>
       if (product_id p =? product)
          && existsb (fun r => String.eqb (notification_status r) "sent") rows
       then marked_delivered (utcnow e) p p'
       else p' = p)
    (products (db w)) (products (db w')) /\
  same_but_deliveries w w'.
Proof.
  intros w' rows. subst w' rows.
  destruct (notify_product_outcome e self product w)
    as (results & w' & E & _ & Hrows & Hprod & Hsame).
  rewrite E. cbn [snd]. split; [exact Hrows|]. split; [|exact Hsame].
  rewrite Hprod.
  replace (existsb _ (map (notification_row e product) _))
    with (delivered e self product); [apply marked_rows|].
  unfold delivered, all_channels, notification_row.
  cbn [List.filter configured existsb].
  destruct (_telegram self), (_discord self), (_webhook self);
    cbn [map existsb notification_status andb orb];
    destruct (reports_success e Telegram product),
      (reports_success e Discord product), (reports_success e Webhook product);
    reflexivity.
Qed.

Lemma notify_loop_counts e self ps :
  forall a b w,
    exists w',
      notify_loop e self ps a b w
      = (Return (a + Z.of_nat (length (List.filter (delivered e self) ps)),
                 b + Z.of_nat (length (List.filter (fun p => negb (delivered e self p)) ps))),
         w').
Proof.
  induction ps as [|p ps IH]; intros a b w; cbn [notify_loop List.filter].
  - exists w. unfold ret. rewrite !Z.add_0_r. reflexivity.
  - destruct (notify_product_outcome e self p w) as (results & w1 & E & Hany & _).
    rewrite (bind_return _ _ _ _ _ E), Hany.
    destruct (delivered e self p); cbn [negb length].
    + destruct (IH (a + 1) b w1) as (w' & E'). exists w'. rewrite E'.
      f_equal. f_equal. f_equal; lia.
    + destruct (IH a (b + 1) w1) as (w' & E'). exists w'. rewrite E'.
      f_equal. f_equal. f_equal; lia.
Qed.

Lemma filter_split_length {A} (f : A -> bool) (l : list A) :
  (length (List.filter f l) + length (List.filter (fun x => negb (f x)) l) = length l)%nat.
Proof.
  induction l as [|x l IH]; [reflexivity|]. cbn [List.filter].
  destruct (f x); cbn [negb length]; lia.
Qed.

(** X9. [notify_products] never raises; its [total] is the number of
    products given, its [success] the number of them that some configured
    channel delivered, and [success + failed = total]. *)
Theorem notify_products_counts_deliveries (e : env) (self : NotificationManager)
    (ps : list Z) (w : world) :
  exists st,
    fst (notify_products e self ps w) = Return st /\
    send_total st = Z.of_nat (length ps) /\
    send_success st = Z.of_nat (length (List.filter (delivered e self) ps)) /\
    send_success st + send_failed st = send_total st.
Proof.
  unfold notify_products.
  destruct (notify_loop_counts e self ps 0 0 w) as (w' & E).
  rewrite (bind_return _ _ _ _ _ E). unfold ret. eexists. split; [reflexivity|].
  cbn [send_total send_success send_failed fst snd].
  pose proof (filter_split_length (delivered e self) ps).
  repeat split; lia.
Qed.
End FurtherNotify.

(** ** Persistence of products and sellers *)

Section FurtherSave.
Import Scraper.

(** X10. Over a store that satisfies the UNIQUE constraint, the product
    step succeeds exactly when the items of the page that are not yet stored
    have distinct [vinted_id]s: then one row per such item is appended, in
    page order, for the search of the run, found now, available and not
    notified, and the constraint still holds; when the page lists a new
    [vinted_id] twice the commit raises [IntegrityError] and nothing is
    stored. *)
Theorem save_products_needs_distinct_new_keys (e : env) (search : Search)
    (products_data : list ProductCreate) (w : world) :
  unique_products w ->
  let fresh := new_items (db w) products_data in
  (NoDup (map pc_vinted_id fresh) ->
   exists rows w',
     save_products e search products_data w = (Return rows, w') /\
     map product_fields rows = fresh /\
     products (db w') = products (db w) ++ rows /\
     unique_products w' /\
     Forall (fun r => product_search_id r = search_id search /\
                      product_found_at r = utcnow e /\
                      product_is_notified r = false /\
                      product_is_available r = true /\
                      product_notified_at r = None) rows) /\
  (~ NoDup (map pc_vinted_id fresh) ->
   save_products e search products_data w
   = (Raise (IntegrityError "UNIQUE constraint failed: products.vinted_id"), w)).
Proof.
  intros Huniq fresh.
  unfold save_products, bind, read_db.
  set (rows := new_products (utcnow e) (search_id search)
                 (next_id product_id (products (db w)))
                 (pending_products (db w) products_data)).
  assert (Hfields : map product_fields rows = fresh).
  { unfold rows. rewrite new_products_fields, pending_products_spec, map_map.
    cbn [fst]. apply map_id. }
  assert (Hkeys : map (fun p => pc_vinted_id (product_fields p)) rows
                  = map pc_vinted_id fresh).
  { rewrite <- Hfields, map_map. reflexivity. }
  assert (Hiff : NoDup (map (fun p => pc_vinted_id (product_fields p))
                          (products (db w) ++ rows))
                 <-> NoDup (map pc_vinted_id fresh)).
  { rewrite map_app, Hkeys. split.
    - intros H. apply NoDup_app in H. apply H.
    - intros H. apply NoDup_app. split; [exact Huniq|]. split; [|exact H].
      intros v Hv Hv'. apply list_elem_of_In in Hv, Hv'.
      apply in_map_iff in Hv' as (p & <- & Hp).
      exact (new_items_absent _ _ _ Hp Hv). }
  split.
  - intros Hnd. rewrite bool_decide_eq_true_2 by (apply Hiff; exact Hnd).
    unfold update_db, modify, ret. eexists _, _. split; [reflexivity|].
    split; [exact Hfields|]. split; [reflexivity|]. split.
    + unfold unique_products. cbn [db set_db Notify.set_products products].
      apply Hiff. exact Hnd.
    + apply new_products_columns.
  - intros Hnd. rewrite bool_decide_eq_false_2; [reflexivity|].
    intros H. apply Hnd, Hiff, H.
Qed.
End FurtherSave.

Section FurtherSellers.
Import Scraper.

Lemma seller_progress_refl budget counts w :
  seller_progress budget (counts, w) (counts, w).
Proof.
  unfold seller_progress. repeat split; try lia; auto.
  rewrite <- (length_map seller_identity). apply firstn_all.
Qed.

Lemma seller_progress_trans b1 b2 c1 w1 c2 w2 c3 w3 :
  seller_progress b1 (c1, w1) (c2, w2) -> seller_progress b2 (c2, w2) (c3, w3) ->
  seller_progress (b1 + b2) (c1, w1) (c3, w3).
Proof.
  unfold seller_progress. intros (A1 & A2 & A3 & A4 & A5 & A6) (B1 & B2 & B3 & B4 & B5 & B6).
  repeat split; try lia; auto.
  transitivity (take (length (sellers (db w1))) (map seller_identity (sellers (db w2))));
    [|exact A5].
  rewrite <- B5, take_take. f_equal. lia.
Qed.

Lemma seller_progress_same_db budget counts w w' :
  db w' = db w -> seller_progress budget (counts, w) (counts, w').
Proof.
  intros H. unfold seller_progress, seller_keys. rewrite H.
  repeat split; try lia; auto.
  rewrite <- (length_map seller_identity). apply firstn_all.
Qed.

Lemma commit_sellers_outcome change w :
  (exists w', commit_sellers change w = (Return tt, w') /\
              sellers (db w') = change (sellers (db w)) /\
              NoDup (seller_keys w')) \/
  (commit_sellers change w
   = (Raise (IntegrityError "UNIQUE constraint failed: sellers.vinted_id"), w) /\
   ~ NoDup (map (fun s => sc_vinted_id (seller_fields s)) (change (sellers (db w))))).
Proof.
  unfold commit_sellers, bind, read_db, update_db, modify, raise.
  destruct (bool_decide _) eqn:E.
  - left. eexists. split; [reflexivity|]. split; [reflexivity|].
    apply bool_decide_eq_true in E. exact E.
  - right. split; [reflexivity|]. apply bool_decide_eq_false in E. exact E.
Qed.

Lemma overwrite_keeps_identity now d s (l : list Seller) :
  map seller_identity
    (map (fun x => if seller_id x =? seller_id s then overwrite_seller now d x else x) l)
  = map seller_identity l.
Proof.
  rewrite map_map. apply map_ext. intros x.
  destruct (seller_id x =? seller_id s); reflexivity.
Qed.

(** One iteration of the seller loop, with its [try]. *)
Lemma seller_iteration_progress e th v counts w :
  exists counts' w',
    try_except (seller_body e th v counts) (fun _ => ret counts) w
      = (Return counts', w') /\
    seller_progress 1 (counts, w) (counts', w').
Proof.
  unfold try_except, seller_body.
  unfold bind at 1, read_db at 1.
  assert (Hskip : forall w1, db w1 = db w ->
            exists counts' w',
              (Return counts, w1) = (Return counts', w') /\
              seller_progress 1 (counts, w) (counts', w')).
  { intros w1 H. exists counts, w1. split; [reflexivity|].
    apply seller_progress_same_db. exact H. }
  destruct (find_seller v (db w)) as [existing|] eqn:Hfind.
  - destruct (match seller_last_updated_at existing with
              | Some t => th <? t | None => false end).
    + apply Hskip. reflexivity.
    + unfold bind at 1.
      destruct (Client.get_seller_info e v w) as [[[d|]|ex] w1] eqn:Hget;
        destruct (get_seller_info_effect _ _ _ _ _ Hget) as [Hdb _];
        try (apply Hskip; exact Hdb).
      unfold bind at 1.
      match goal with
      | |- context [commit_sellers ?change w1] =>
          destruct (commit_sellers_outcome change w1)
            as [(w2 & E & Hs & Hk) | [E _]]; rewrite E
      end.
      * unfold ret. exists (fst counts, snd counts + 1), w2. split; [reflexivity|].
        rewrite Hdb in Hs. unfold seller_progress. cbn [fst snd].
        rewrite Hs, length_map, overwrite_keeps_identity.
        repeat split; try lia; auto.
        rewrite <- (length_map seller_identity). apply firstn_all.
      * apply Hskip. exact Hdb.
  - unfold bind at 1.
    destruct (Client.get_seller_info e v w) as [[[d|]|ex] w1] eqn:Hget;
      destruct (get_seller_info_effect _ _ _ _ _ Hget) as [Hdb _];
      try (apply Hskip; exact Hdb).
    unfold bind at 1.
    match goal with
    | |- context [commit_sellers ?change w1] =>
        destruct (commit_sellers_outcome change w1)
          as [(w2 & E & Hs & Hk) | [E _]]; rewrite E
    end.
    + unfold ret. exists (fst counts + 1, snd counts), w2. split; [reflexivity|].
      rewrite Hdb in Hs. unfold seller_progress. cbn [fst snd].
      rewrite Hs, length_app, map_app. cbn [length].
      repeat split; try lia; auto.
      rewrite take_app_length'; [reflexivity | symmetry; apply length_map].
    + apply Hskip. exact Hdb.
Qed.

Lemma seller_loop_progress e th ids :
  forall counts w,
    exists counts' w',
      seller_loop e th ids counts w = (Return counts', w') /\
      seller_progress (length ids) (counts, w) (counts', w').
Proof.
  induction ids as [|v ids IH]; intros counts w; cbn [seller_loop].
  - exists counts, w. split; [reflexivity | apply seller_progress_refl].
  - destruct (seller_iteration_progress e th v counts w) as (c1 & w1 & E1 & P1).
    rewrite (bind_return _ _ _ _ _ E1).
    destruct (IH c1 w1) as (c2 & w2 & E2 & P2).
    exists c2, w2. split; [exact E2|].
    apply (seller_progress_trans 1 (length ids) _ _ _ _ _ _ P1 P2).
Qed.

(** X11. The seller step never raises; both its counters are
    non-negative and together at most the number of distinct sellers of the
    items; the table of sellers grows by exactly [sellers_new] rows; every
    seller stored before keeps its place, [id] and [first_seen_at]; and the
    UNIQUE constraint on the seller keys stays satisfied. *)
Theorem seller_counters_match_table (e : env) (products_data : list ProductCreate)
    (w : world) :
  exists counts w',
    seller_step e products_data w = (Return counts, w') /\
    0 <= fst counts /\ 0 <= snd counts /\
    fst counts + snd counts
      <= Z.of_nat (length (remove_dups (map pc_seller_vinted_id products_data))) /\
    Z.of_nat (length (sellers (db w')))
      = Z.of_nat (length (sellers (db w))) + fst counts /\
    take (length (sellers (db w))) (map seller_identity (sellers (db w')))
      = map seller_identity (sellers (db w)) /\
    (NoDup (seller_keys w) -> NoDup (seller_keys w')).
Proof.
  unfold seller_step.
  destruct (seller_loop_progress e (utcnow e - days UPDATE_SELLER_AFTER_DAYS)
              (remove_dups (map pc_seller_vinted_id products_data)) (0, 0) w)
    as (counts & w' & E & P).
  exists counts, w'. split; [exact E|].
  unfold seller_progress in P. cbn [fst snd] in P.
  destruct P as (P1 & P2 & P3 & P4 & P5 & P6).
  repeat split; try lia; auto.
Qed.
End FurtherSellers.

Section UnknownSeller.
Import Scraper.

(** X12. For a seller that is not stored: when the profile fetch gives a
    document whose key is not stored, one row is appended with a fresh
    [id] and the document, first seen and last updated now, and
    [sellers_new] advances; when the key of the document is already stored
    the commit raises [IntegrityError], which the loop swallows, and nothing
    changes; when the profile is not available, or the fetch raises, the
    seller is skipped and nothing changes. *)
Theorem unknown_seller_is_inserted_once (e : env) (w : world) (v : option string)
    (counts : Z * Z) (cutoff : Z) :
  find_seller v (db w) = None ->
  NoDup (seller_keys w) ->
  (forall d w1,
     Client.get_seller_info e v w = (Return (Some d), w1) ->
     ~ In (sc_vinted_id d) (seller_keys w) ->
     exists w2,
       seller_body e cutoff v counts w = (Return (fst counts + 1, snd counts), w2) /\
       sellers (db w2)
       = sellers (db w)
         ++ [new_seller (utcnow e) (next_id seller_id (sellers (db w))) d] /\
       NoDup (seller_keys w2) /\
       (NoDup (map seller_id (sellers (db w)))
        -> NoDup (map seller_id (sellers (db w2))))) /\
  (forall d w1,
     Client.get_seller_info e v w = (Return (Some d), w1) ->
     In (sc_vinted_id d) (seller_keys w) ->
     seller_body e cutoff v counts w
       = (Raise (IntegrityError "UNIQUE constraint failed: sellers.vinted_id"), w1) /\
     seller_loop e cutoff [v] counts w = (Return counts, w1) /\
     sellers (db w1) = sellers (db w)) /\
  (forall w1,
     Client.get_seller_info e v w = (Return None, w1) ->
     seller_body e cutoff v counts w = (Return counts, w1) /\
     sellers (db w1) = sellers (db w)) /\
  (forall ex w1,
     Client.get_seller_info e v w = (Raise ex, w1) ->
     seller_body e cutoff v counts w = (Raise ex, w1) /\
     seller_loop e cutoff [v] counts w = (Return counts, w1) /\
     sellers (db w1) = sellers (db w)).
Proof.
  intros Hfind Hkeys.
  assert (Hbody : seller_body e cutoff v counts w
            = (seller_data <- Client.get_seller_info e v ;;
               match seller_data with
               | None => ret counts
               | Some seller_data =>
                   commit_sellers
                     (fun l => l ++ [new_seller (utcnow e) (next_id seller_id l) seller_data]) ;;;
                   ret (fst counts + 1, snd counts)
               end) w).
  { unfold seller_body. unfold bind at 1, read_db at 1. rewrite Hfind. reflexivity. }
  assert (Hloop : forall r w1, seller_body e cutoff v counts w = (r, w1) ->
            seller_loop e cutoff [v] counts w
            = (Return (match r with Return c => c | Raise _ => counts end), w1)).
  { intros r w1 H. cbn [seller_loop]. unfold bind, try_except. rewrite H.
    destruct r; reflexivity. }
  split; [|split; [|split]].
  - intros d w1 Hget Hnew.
    destruct (get_seller_info_effect _ _ _ _ _ Hget) as [Hdb _].
    assert (Hnd : NoDup (map (fun s => sc_vinted_id (seller_fields s))
                     (sellers (db w1)
                      ++ [new_seller (utcnow e) (next_id seller_id (sellers (db w1))) d]))).
    { rewrite Hdb, map_app. apply NoDup_app. split; [exact Hkeys|]. split.
      - intros x Hx Hx'. cbn in Hx'. apply list_elem_of_singleton in Hx'. subst x.
        apply Hnew. apply list_elem_of_In. exact Hx.
      - cbn. apply NoDup_singleton. }
    eexists. rewrite Hbody. rewrite (bind_return _ _ _ _ _ Hget).
    unfold commit_sellers, bind, read_db, update_db, modify, ret.
    rewrite bool_decide_eq_true_2 by exact Hnd.
    split; [reflexivity|].
    cbn [db set_db set_sellers sellers]. rewrite Hdb.
    split; [reflexivity|]. split.
    + unfold seller_keys. cbn [db set_db set_sellers sellers].
      rewrite Hdb in Hnd. exact Hnd.
    + intros Hids. rewrite map_app. apply NoDup_app. split; [exact Hids|]. split.
      * intros x Hx Hx'. cbn in Hx'. apply list_elem_of_singleton in Hx'. subst x.
        apply list_elem_of_In, in_map_iff in Hx as (s & Hs & Hin).
        pose proof (next_id_above seller_id _ s Hin). lia.
      * cbn. apply NoDup_singleton.
  - intros d w1 Hget Hold.
    destruct (get_seller_info_effect _ _ _ _ _ Hget) as [Hdb _].
    assert (Hbody' : seller_body e cutoff v counts w
              = (Raise (IntegrityError "UNIQUE constraint failed: sellers.vinted_id"), w1)).
    { rewrite Hbody. rewrite (bind_return _ _ _ _ _ Hget).
      unfold commit_sellers, bind, read_db, update_db, modify, ret, raise.
      rewrite bool_decide_eq_false_2; [reflexivity|].
      rewrite Hdb, map_app. intros Hnd. apply NoDup_app in Hnd as (_ & Hdisj & _).
      apply (Hdisj (sc_vinted_id d)).
      - apply list_elem_of_In. exact Hold.
      - cbn. apply list_elem_of_singleton. reflexivity. }
    split; [exact Hbody'|]. split; [apply (Hloop _ _ Hbody')|]. rewrite Hdb. reflexivity.
  - intros w1 Hget.
    destruct (get_seller_info_effect _ _ _ _ _ Hget) as [Hdb _].
    split; [|rewrite Hdb; reflexivity].
    rewrite Hbody. rewrite (bind_return _ _ _ _ _ Hget). reflexivity.
  - intros ex w1 Hget.
    destruct (get_seller_info_effect _ _ _ _ _ Hget) as [Hdb _].
    assert (Hbody' : seller_body e cutoff v counts w = (Raise ex, w1)).
    { rewrite Hbody. rewrite (bind_raise _ _ _ _ _ Hget). reflexivity. }
    split; [exact Hbody'|]. split; [apply (Hloop _ _ Hbody')|]. rewrite Hdb. reflexivity.
Qed.
End UnknownSeller.

(** ** The result and the log of a run *)

Section RunOutcome.

Lemma same_run_context_refl w : same_run_context w w.
Proof. split; reflexivity. Qed.

Lemma same_run_context_trans w1 w2 w3 :
  same_run_context w1 w2 -> same_run_context w2 w3 -> same_run_context w1 w3.
Proof. intros [? ?] [? ?]. split; congruence. Qed.

Lemma settings_get_user_agent c :
  _settings (snd (Client.get_user_agent c)) = _settings c.
Proof.
  unfold Client.get_user_agent.
  destruct (_user_agents c) as [|first [|second rest]]; [reflexivity| |];
    destruct (negb _); reflexivity.
Qed.

Lemma settings_get_proxy c : _settings (snd (Client.get_proxy c)) = _settings c.
Proof.
  unfold Client.get_proxy. destruct (negb _); [reflexivity|].
  destruct (_proxies c); [reflexivity|]. destruct (negb _); reflexivity.
Qed.

Lemma headers_updated_context w : same_run_context w (Client.headers_updated w).
Proof.
  unfold Client.headers_updated, Client.get_headers.
  pose proof (settings_get_user_agent (requester w)) as H.
  destruct (Client.get_user_agent (requester w)). split; [reflexivity | exact H].
Qed.

Lemma proxy_configured_context w : same_run_context w (Client.proxy_configured w).
Proof.
  unfold Client.proxy_configured. pose proof (settings_get_proxy (requester w)) as H.
  destruct (Client.get_proxy (requester w)). split; [reflexivity | exact H].
Qed.

Ltac context_frame :=
  unfold update_db, emit, Client._update_headers, Client._configure_proxy,
    Client._refresh_cookies, emit;
  repeat stable_step same_run_context_refl same_run_context_trans
    ltac:(first [apply headers_updated_context | apply proxy_configured_context
                | split; reflexivity]).

Lemma get_loop_context e url remaining :
  forall tried, stable same_run_context (Client.get_loop e url remaining tried).
Proof.
  induction remaining as [|remaining IH]; intros tried; cbn [Client.get_loop];
    context_frame.
Qed.

Lemma get_context e url : stable same_run_context (Client.get e url).
Proof.
  unfold Client.get. apply (stable_bind _ same_run_context_trans);
    [context_frame | intros; apply get_loop_context].
Qed.

Lemma scrape_catalog_context e url : stable same_run_context (Client.scrape_catalog e url).
Proof.
  unfold Client.scrape_catalog. apply (stable_bind _ same_run_context_trans);
    [apply get_context | intros; context_frame].
Qed.

Lemma get_seller_info_context e v : stable same_run_context (Client.get_seller_info e v).
Proof.
  unfold Client.get_seller_info. apply (stable_bind _ same_run_context_trans);
    [apply get_context | intros; context_frame].
Qed.

Lemma seller_body_context e th v counts :
  stable same_run_context (Scraper.seller_body e th v counts).
Proof.
  unfold Scraper.seller_body, Scraper.commit_sellers.
  repeat first
    [ apply get_seller_info_context
    | stable_step same_run_context_refl same_run_context_trans ltac:(split; reflexivity)
    | progress unfold update_db ].
Qed.

Lemma seller_loop_context e th ids :
  forall counts, stable same_run_context (Scraper.seller_loop e th ids counts).
Proof.
  induction ids as [|v ids IH]; intros counts; cbn [Scraper.seller_loop].
  - apply (stable_ret _ same_run_context_refl).
  - apply (stable_bind _ same_run_context_trans); [|intros; apply IH].
    apply (stable_try_except _ same_run_context_trans);
      [apply seller_body_context | intros; apply (stable_ret _ same_run_context_refl)].
Qed.

#[local] Hint Resolve get_loop_context get_context scrape_catalog_context
  get_seller_info_context seller_body_context seller_loop_context : frame.

Lemma channel_block_context e b c p r :
  stable same_run_context (Notify.channel_block e b c p r).
Proof. unfold Notify.channel_block, Notify._log_notification. context_frame. Qed.
#[local] Hint Resolve channel_block_context : frame.

Lemma notify_product_context e nm p : stable same_run_context (Notify.notify_product e nm p).
Proof. unfold Notify.notify_product. context_frame. Qed.
#[local] Hint Resolve notify_product_context : frame.

Lemma notify_loop_context e nm ps :
  forall a b, stable same_run_context (Notify.notify_loop e nm ps a b).
Proof.
  induction ps as [|p ps IH]; intros a b; cbn [Notify.notify_loop]; context_frame.
Qed.
#[local] Hint Resolve notify_loop_context : frame.

Lemma send_notifications_context e rows :
  stable same_run_context (Scraper.send_notifications e rows).
Proof.
  unfold Scraper.send_notifications, Notify.new_manager, Notify.notify_products.
  context_frame.
Qed.

Lemma finish_log_row e search w w' status found err filtered notified s_new s_updated :
  scraping_logs (db w') = scraping_logs (db w) ++ [opened_log e search w] ->
  exists w'',
    Scraper._finish_log e (Scraper.next_id slog_id (scraping_logs (db w)))
      status found err filtered notified s_new s_updated w' = (Return tt, w'') /\
    scraping_logs (db w'')
    = scraping_logs (db w)
      ++ [{| slog_id := Scraper.next_id slog_id (scraping_logs (db w));
             slog_search_id := search_id search;
             slog_started_at := utcnow e;
             slog_finished_at := Some (utcnow e);
             slog_status := status;
             slog_products_found := found;
             slog_error_message := (if Str.truthy_opt err then err else None);
             slog_products_filtered := filtered;
             slog_products_notified := notified;
             slog_sellers_new := s_new;
             slog_sellers_updated := s_updated |}] /\
    products (db w'') = products (db w') /\
    requester w'' = requester w'.
Proof.
  intros H. unfold Scraper._finish_log, update_db, modify.
  eexists. split; [reflexivity|]. split; [|split; reflexivity].
  cbn [db set_db Scraper.set_scraping_logs scraping_logs].
  rewrite H, map_app. cbn [map opened_log slog_id slog_search_id slog_started_at
                             slog_error_message].
  rewrite Z.eqb_refl. f_equal.
  rewrite <- (map_id (scraping_logs (db w))) at 2. apply map_ext_in.
  intros l Hl. pose proof (next_id_above slog_id _ l Hl) as Hlt.
  destruct (slog_id l =? _) eqn:E; [|reflexivity]. apply Z.eqb_eq in E. lia.
Qed.

Lemma counters_of_nothing max_products err :
  counters_consistent max_products
    {| Scraper.products_found := 0; Scraper.products_new := 0;
       Scraper.products_filtered := 0; Scraper.products_notified := 0;
       Scraper.sellers_new := 0; Scraper.sellers_updated := 0;
       Scraper.error := err |}.
Proof. unfold counters_consistent. cbn. repeat split; lia. Qed.

Lemma length_slice_to {A} (n : Z) (l : list A) :
  0 <= n -> Z.of_nat (length (Scraper.slice_to n l)) <= n.
Proof.
  intros Hn. unfold Scraper.slice_to.
  destruct (Z.leb_spec 0 n) as [_|Hlt]; [|lia].
  rewrite length_firstn. lia.
Qed.

(** PASO 1 from a state whose last log row is the one just opened. *)
Lemma fetch_step_outcome e search w w1 :
  scraping_logs (db w1) = scraping_logs (db w) ++ [opened_log e search w] ->
  exists a w2,
    Scraper.fetch_step e (Scraper.next_id slog_id (scraping_logs (db w))) search w1
      = (Return a, w2) /\
    _settings (requester w2) = _settings (requester w1) /\
    match a with
    | inl r =>
        scraping_logs (db w2) = scraping_logs (db w) ++ [run_log_row e search w r] /\
        r = {| Scraper.products_found := 0; Scraper.products_new := 0;
               Scraper.products_filtered := 0; Scraper.products_notified := 0;
               Scraper.sellers_new := 0; Scraper.sellers_updated := 0;
               Scraper.error := Scraper.error r |}
    | inr fetched =>
        scraping_logs (db w2) = scraping_logs (db w1) /\
        fetched <> [] /\
        (0 <= max_products_per_search (_settings (requester w1)) ->
         Z.of_nat (length fetched)
           <= max_products_per_search (_settings (requester w1)))
    end.
Proof.
  intros Hlogs. unfold Scraper.fetch_step, try_except, bind.
  pose proof (scrape_catalog_context e (Scraper.catalog_request search) w1) as [L2 S2].
  destruct (Client.scrape_catalog e (Scraper.catalog_request search) w1)
    as [[l|ex] w2] eqn:Hcat; cbn [snd] in L2, S2.
  - unfold get_world, ret. unfold Client.get_max_products. rewrite S2.
    set (max_products := max_products_per_search (_settings (requester w1))).
    set (fetched := if max_products <? Z.of_nat (length (rev l))
                    then Scraper.slice_to max_products (rev l) else rev l).
    assert (Hlen : 0 <= max_products -> Z.of_nat (length fetched) <= max_products).
    { intros Hmax. unfold fetched.
      destruct (Z.ltb_spec max_products (Z.of_nat (length (rev l)))) as [Hlt|Hge];
        [apply length_slice_to; exact Hmax | exact Hge]. }
    destruct fetched as [|p fetched'] eqn:Hf.
    + destruct (finish_log_row e search w w2 "success" 0 None 0 0 0 0)
        as (w3 & E & L3 & _ & R3); [congruence|].
      rewrite E. exists (inl Scraper._build_empty_result), w3.
      split; [reflexivity|]. split; [rewrite R3; exact S2|]. split; [exact L3 | reflexivity].
    + exists (inr (p :: fetched')), w2. split; [reflexivity|]. split; [exact S2|].
      split; [exact L2|]. split; [discriminate | exact Hlen].
  - destruct (finish_log_row e search w w2 "failed" 0 (Some (str ex)) 0 0 0 0)
      as (w3 & E & L3 & _ & R3); [congruence|].
    rewrite E. exists (inl (Scraper._build_error_result (str ex))), w3.
    split; [reflexivity|]. split; [rewrite R3; exact S2|]. split; [|reflexivity].
    rewrite L3. unfold run_log_row, Scraper._build_error_result. cbn.
    destruct (Str.truthy (str ex)); reflexivity.
Qed.

Lemma filter_products_totals fm items s :
  let kept := fst (Filter.filter_products fm items s) in
  let st := snd (Filter.filter_products fm items s) in
  Filter.total st = Z.of_nat (length items) /\
  0 <= Filter.rejected st /\
  Z.of_nat (length kept) + Filter.rejected st = Filter.total st.
Proof.
  unfold Filter.filter_products.
  pose proof (filter_loop_statistics fm s items [] [] []) as H. cbv zeta in H.
  destruct (fold_left (Filter.filter_step fm s) items ([], [], [])) as [[a r] rs].
  cbn [fst snd Filter.total Filter.accepted Filter.rejected length] in *.
  destruct H as (H1 & _). lia.
Qed.

Lemma save_products_rows e search pd w rows w' :
  Scraper.save_products e search pd w = (Return rows, w') ->
  scraping_logs (db w') = scraping_logs (db w) /\
  _settings (requester w') = _settings (requester w) /\
  (length rows <= length pd)%nat.
Proof.
  unfold Scraper.save_products, bind, read_db, update_db, modify, ret, raise.
  destruct (bool_decide _); intros H; [|discriminate].
  injection H as <- <-. split; [reflexivity|]. split; [reflexivity|].
  rewrite <- (length_map product_fields), new_products_fields, length_map,
    pending_products_spec, length_map.
  unfold new_items. apply List.filter_length_le.
Qed.

Lemma send_notifications_bound e rows w :
  exists notified w',
    Scraper.send_notifications e rows w = (Return notified, w') /\
    0 <= notified <= Z.of_nat (length rows).
Proof.
  unfold Scraper.send_notifications. destruct rows as [|r rows].
  { exists 0, w. split; [reflexivity | cbn; lia]. }
  set (l := r :: rows). set (nm := Notify._load_config (db w)).
  assert (Hnm : Notify.new_manager w = (Return nm, w)) by reflexivity.
  destruct (notify_loop_counts e nm (map product_id l) 0 0 w) as (w' & E).
  assert (Hnp : exists st,
            Notify.notify_products e nm (map product_id l) w = (Return st, w') /\
            0 <= Notify.send_success st <= Z.of_nat (length l)).
  { unfold Notify.notify_products. rewrite (bind_return _ _ _ _ _ E).
    eexists. split; [reflexivity|]. cbn [Notify.send_success fst].
    pose proof (List.filter_length_le (delivered e nm) (map product_id l)) as Hle.
    rewrite length_map in Hle. lia. }
  destruct Hnp as (st & Hnp & Hbound).
  unfold try_except. rewrite (bind_return _ _ _ _ _ Hnm).
  destruct (Notify.any_active nm).
  - rewrite (bind_return _ _ _ _ _ Hnp). exists (Notify.send_success st), w'.
    split; [reflexivity | exact Hbound].
  - exists 0, w. split; [reflexivity | lia].
Qed.

(** What a run returns and leaves in the run log. *)
Lemma scrape_and_save_outcome e self search w :
  exists r w',
    Scraper.scrape_and_save e self search w = (Return r, w') /\
    scraping_logs (db w') = scraping_logs (db w) ++ [run_log_row e search w r] /\
    counters_consistent (max_products_per_search (_settings (requester w))) r.
Proof.
  unfold Scraper.scrape_and_save.
  rewrite (bind_return _ _ _ _ _ (open_log_spec e search w)).
  set (log := Scraper.next_id slog_id (scraping_logs (db w))).
  set (max_products := max_products_per_search (_settings (requester w))).
  assert (L1 : scraping_logs (db (log_opened e search w))
               = scraping_logs (db w) ++ [opened_log e search w]) by reflexivity.
  destruct (fetch_step_outcome e search w _ L1) as (a & w2 & E2 & S2 & Ha).
  fold log in E2. rewrite (bind_return _ _ _ _ _ E2).
  change (_settings (requester (log_opened e search w)))
    with (_settings (requester w)) in S2, Ha.
  destruct a as [early | fetched].
  { destruct Ha as [L2 Hr]. exists early, w2. split; [reflexivity|].
    split; [exact L2|]. rewrite Hr. apply counters_of_nothing. }
  destruct Ha as (L2 & Hne & Hmax). fold max_products in Hmax. rewrite L1 in L2.
  pose proof (filter_products_totals (Scraper.filter_manager self) fetched (Some search))
    as Hstats. cbv zeta in Hstats.
  destruct (Filter.filter_products (Scraper.filter_manager self) fetched (Some search))
    as [kept st]. cbn [fst snd] in Hstats. destruct Hstats as (Htot & Hrej & Hsum).
  destruct kept as [|p0 kept'] eqn:Hkept.
  { destruct (finish_log_row e search w w2 "success" 0 None (Filter.rejected st) 0 0 0 L2)
      as (w3 & E3 & L3 & _).
    fold log in E3. rewrite (bind_return _ _ _ _ _ E3).
    eexists _, w3. split; [reflexivity|]. split; [exact L3|].
    unfold counters_consistent. cbn [Scraper.products_found Scraper.products_new
      Scraper.products_filtered Scraper.products_notified Scraper.sellers_new
      Scraper.sellers_updated]. cbn [length] in Hsum. repeat split; lia. }
  rewrite <- Hkept in *. clear Hkept p0 kept'.
  unfold Scraper.seller_step.
  destruct (seller_loop_progress e
              (utcnow e - Scraper.days Scraper.UPDATE_SELLER_AFTER_DAYS)
              (remove_dups (map pc_seller_vinted_id kept)) (0, 0) w2)
    as (counts & w3 & E3 & P3).
  pose proof (seller_loop_context e
                (utcnow e - Scraper.days Scraper.UPDATE_SELLER_AFTER_DAYS)
                (remove_dups (map pc_seller_vinted_id kept)) (0, 0) w2) as [L3 S3].
  rewrite E3 in L3, S3. cbn [snd] in L3, S3.
  assert (Hc3 : 0 <= fst counts /\ 0 <= snd counts).
  { unfold seller_progress in P3. cbn [fst snd] in P3. lia. }
  clear P3.
  rewrite (bind_return _ _ _ _ _ E3).
  rewrite L2 in L3. rewrite S2 in S3.
  unfold Scraper.save_step.
  destruct (Scraper.save_products e search kept w3) as [[rows|ex] w4] eqn:E4.
  2:{ pose proof (save_products_raises _ _ _ _ _ _ E4) as ->.
      destruct (finish_log_row e search w w3 "failed" 0 (Some (str ex)) 0 0 0 0 L3)
        as (w5 & E5 & L5 & _).
      fold log in E5.
      erewrite bind_return;
        [|erewrite try_except_raise;
            [rewrite (bind_return _ _ _ _ _ E5); reflexivity
            |rewrite (bind_raise _ _ _ _ _ E4); reflexivity]].
      eexists _, w5. split; [reflexivity|]. split.
      - rewrite L5. unfold run_log_row, Scraper._build_error_result. cbn.
        destruct (Str.truthy (str ex)); reflexivity.
      - apply counters_of_nothing. }
  erewrite bind_return;
    [|erewrite try_except_return; [reflexivity|rewrite (bind_return _ _ _ _ _ E4); reflexivity]].
  destruct (save_products_rows _ _ _ _ _ _ E4) as (L4 & S4 & Hrows).
  rewrite L3 in L4.
  assert (Hsend : exists notified w5,
            (if 0 <? Z.of_nat (length rows)
             then Scraper.send_notifications e rows else ret 0) w4
              = (Return notified, w5) /\
            0 <= notified <= Z.of_nat (length rows) /\
            scraping_logs (db w5) = scraping_logs (db w4)).
  { destruct (0 <? Z.of_nat (length rows)).
    - destruct (send_notifications_bound e rows w4) as (n & w5 & E5 & Hn).
      pose proof (send_notifications_context e rows w4) as [L5 _].
      rewrite E5 in L5. exists n, w5. repeat split; try assumption; lia.
    - exists 0, w4. repeat split; try reflexivity; lia. }
  destruct Hsend as (notified & w5 & E5 & Hn & L5).
  rewrite (bind_return _ _ _ _ _ E5). rewrite L4 in L5.
  destruct (finish_log_row e search w w5 "success" (Z.of_nat (length rows)) None
              (Filter.rejected st) notified (fst counts) (snd counts) L5)
    as (w6 & E6 & L6 & _).
  fold log in E6. rewrite (bind_return _ _ _ _ _ E6).
  eexists _, w6. split; [reflexivity|]. split; [exact L6|].
  unfold counters_consistent. cbn [Scraper.products_found Scraper.products_new
    Scraper.products_filtered Scraper.products_notified Scraper.sellers_new
    Scraper.sellers_updated].
  repeat split; lia.
Qed.

(** X13. Every run returns a result and leaves exactly one row more in
    the run log, closed: its status is [failed] when the result carries an
    error and [success] otherwise (never [running]), with the finish time,
    the error text, and the counters of the result; its [products_found]
    column holds the [products_new] of the result. The rows of earlier runs
    are untouched. *)
Theorem run_log_is_closed_with_the_result (e : env) (self : Scraper.VintedScraper)
    (search : Search) (w : world) :
  exists r w',
    Scraper.scrape_and_save e self search w = (Return r, w') /\
    scraping_logs (db w') = scraping_logs (db w) ++ [run_log_row e search w r].
Proof.
  destruct (scrape_and_save_outcome e self search w) as (r & w' & E & L & _).
  exists r, w'. split; assumption.
Qed.

(** X14. The counters of the result of a run are consistent: the items
    filtered out are at most the items found, the new products at most the
    items that passed the filters, the products notified at most the new
    products, no counter is negative, and the items found are at most the
    configured maximum when that is not negative. *)
Theorem run_counters_are_consistent (e : env) (self : Scraper.VintedScraper)
    (search : Search) (w : world) :
  exists r,
    fst (Scraper.scrape_and_save e self search w) = Return r /\
    counters_consistent (max_products_per_search (_settings (requester w))) r.
Proof.
  destruct (scrape_and_save_outcome e self search w) as (r & w' & E & _ & C).
  exists r. rewrite E. split; [reflexivity | exact C].
Qed.
End RunOutcome.

(** ** Job runs, their log and their alerts *)

Section FurtherScheduler.
Import Scheduler.

(** X15. Whatever the catalog, the seller profiles and the notification
    services answer, the [try] suite of a job run raises exactly when the
    row of the search is missing, or the search is inactive and the run is
    not manual, and then with the corresponding [ValueError]; a run of an
    existing search that may run always completes. *)
Theorem job_fails_only_without_a_runnable_search (e : env) (search_id : Z)
    (manual : bool) (w : world) :
  try_outcome e search_id manual w
  = match find_search search_id (db w) with
    | None =>
        Raise (ValueError ("Búsqueda #" +:+ show search_id +:+ " no encontrada"))
    | Some search =>
        if negb (search_is_active search) && negb manual
        then Raise (ValueError ("Búsqueda '" +:+ search_name search +:+ "' está desactivada"))
        else Return tt
    end.
Proof.
  unfold try_outcome.
  rewrite (bind_return _ _ _ _ _ (scheduler_open_log_spec e search_id w)).
  unfold search_job_try. unfold bind at 1, read_db at 1.
  change (find_search search_id (db (job_opened e search_id w)))
    with (find_search search_id (db w)).
  destruct (find_search search_id (db w)) as [search|]; [|reflexivity].
  destruct (negb (search_is_active search) && negb manual); [reflexivity|].
  match goal with
  | |- fst (?m ?w0) = _ =>
      assert (Hr : returns m) by returns_auto; destruct (Hr w0) as [[] Ha]
  end.
  exact Ha.
Qed.

Lemma alert_channel_spec e b c sid w :
  exists w',
    alert_channel e b c sid w = (Return tt, w') /\
    same_but_trace w w' /\
    trace w' = (if b then match c with
                          | Telegram => trace w
                          | _ => AlertSend c sid :: trace w
                          end
                else trace w).
Proof.
  unfold alert_channel, same_but_trace. destruct b.
  2:{ exists w. repeat split; reflexivity. }
  unfold try_except, bind, emit, modify, raise, ret.
  destruct c; [|destruct (post_alert e Discord)|destruct (post_alert e Webhook)];
    eexists; repeat split; reflexivity.
Qed.

Lemma same_but_trace_trans w1 w2 w3 :
  same_but_trace w1 w2 -> same_but_trace w2 w3 -> same_but_trace w1 w3.
Proof. intros (?&?&?&?) (?&?&?&?). repeat split; congruence. Qed.

Lemma check_and_notify_trace (e : env) (search_id : Z)
    (error_msg : string) (w : world) :
  exists w',
  _check_and_notify_error e search_id error_msg w = (Return tt, w') /\
  same_but_trace w w' /\
  trace w'
  = (if alert_due search_id (error_count search_id w) (db w)
     then map (fun c => AlertSend c search_id) (rev (alert_channels (db w)))
          ++ AlertAttempt search_id (error_count search_id w) :: trace w
     else trace w).
Proof.
  unfold _check_and_notify_error, alert_due, error_count, same_but_trace.
  unfold try_except at 1. unfold bind at 1. unfold read_db at 1.
  destruct (settings (db w)) as [st|] eqn:Hst; [|exists w; repeat split; reflexivity].
  destruct (scheduler_error_notifications_enabled st); cbn [negb andb];
    [|exists w; repeat split; reflexivity].
  unfold bind at 1, get_world at 1.
  destruct (default 0 (_error_counts w !! search_id) <? _);
    [exists w; repeat split; reflexivity|].
  cbn [negb andb].
  destruct (find_search search_id (db w)) as [search|];
    [|exists w; repeat split; reflexivity].
  unfold bind at 1, emit at 1, modify at 1.
  set (w0 := {| db := db w; requester := requester w; jobs := jobs w;
                _error_counts := _error_counts w;
                trace := AlertAttempt search_id (default 0 (_error_counts w !! search_id))
                         :: trace w |}).
  assert (Hnm : Notify.new_manager w0 = (Return (Notify._load_config (db w)), w0))
    by reflexivity.
  destruct (alert_channel_spec e
              (Str.truthy_opt (telegram_bot_token st) && Str.truthy_opt (telegram_chat_id st))
              Telegram search_id w0) as (w1 & E1 & S1 & T1).
  destruct (alert_channel_spec e (Str.truthy_opt (discord_webhook_url st))
              Discord search_id w1) as (w2 & E2 & S2 & T2).
  destruct (alert_channel_spec e (Str.truthy_opt (webhook_url st))
              Webhook search_id w2) as (w3 & E3 & S3 & T3).
  unfold try_except.
  rewrite (bind_return _ _ _ _ _ Hnm), (bind_return _ _ _ _ _ E1),
    (bind_return _ _ _ _ _ E2), E3.
  exists w3. split; [reflexivity|].
  pose proof (same_but_trace_trans _ _ _ S1 (same_but_trace_trans _ _ _ S2 S3))
    as (D & R & J & C).
  split; [repeat split; assumption|].
  rewrite T3, T2, T1. unfold alert_channels. rewrite Hst.
  destruct (Str.truthy_opt (telegram_bot_token st) && Str.truthy_opt (telegram_chat_id st)),
    (Str.truthy_opt (discord_webhook_url st)), (Str.truthy_opt (webhook_url st));
    reflexivity.
Qed.

(** X16. [_check_and_notify_error] never raises and changes nothing but
    the record of the calls made. When an alert is due (settings row
    present, alerts enabled, counter at or above the threshold, which is 3
    when the column is 0, and the row of the search present) it makes one
    alert attempt and then one send to the Discord webhook and one to the
    generic webhook, each when its URL is set, in that order and whatever
    the earlier one did; nothing is ever sent to Telegram, also when it is
    configured, because the notifier has no method for a text. When no
    alert is due it makes no call. *)
Theorem alert_reaches_every_configured_channel (e : env) (search_id : Z)
    (error_msg : string) (w : world) :
  let out := _check_and_notify_error e search_id error_msg w in
  fst out = Return tt /\
  same_but_trace w (snd out) /\
  trace (snd out)
  = (if alert_due search_id (error_count search_id w) (db w)
     then map (fun c => AlertSend c search_id) (rev (alert_channels (db w)))
          ++ AlertAttempt search_id (error_count search_id w) :: trace w
     else trace w).
Proof.
  intros out. subst out.
  destruct (check_and_notify_trace e search_id error_msg w) as (w' & E & S & T).
  rewrite E. repeat split; try apply S. exact T.
Qed.

Lemma same_job_logs_refl w : same_job_logs w w.
Proof. reflexivity. Qed.

Lemma same_job_logs_trans w1 w2 w3 :
  same_job_logs w1 w2 -> same_job_logs w2 w3 -> same_job_logs w1 w3.
Proof. unfold same_job_logs. congruence. Qed.

Ltac job_logs_frame :=
  unfold update_db, emit, Client._update_headers, Client._configure_proxy,
    Client._refresh_cookies, emit;
  repeat stable_step same_job_logs_refl same_job_logs_trans products_base.

Lemma get_loop_same_job_logs e url remaining :
  forall tried, stable same_job_logs (Client.get_loop e url remaining tried).
Proof.
  induction remaining as [|remaining IH]; intros tried; cbn [Client.get_loop];
    job_logs_frame.
Qed.
#[local] Hint Resolve get_loop_same_job_logs : frame.

Lemma seller_loop_same_job_logs e th ids :
  forall counts, stable same_job_logs (Scraper.seller_loop e th ids counts).
Proof.
  induction ids as [|v ids IH]; intros counts; cbn [Scraper.seller_loop];
    unfold Scraper.seller_body, Scraper.commit_sellers, Client.get_seller_info,
      Client.get; job_logs_frame.
Qed.
#[local] Hint Resolve seller_loop_same_job_logs : frame.

Lemma notify_loop_same_job_logs e nm ps :
  forall a b, stable same_job_logs (Notify.notify_loop e nm ps a b).
Proof.
  induction ps as [|p ps IH]; intros a b; cbn [Notify.notify_loop];
    unfold Notify.notify_product, Notify.channel_block, Notify._log_notification;
    job_logs_frame.
Qed.
#[local] Hint Resolve notify_loop_same_job_logs : frame.

Lemma scrape_and_save_same_job_logs e self search :
  stable same_job_logs (Scraper.scrape_and_save e self search).
Proof.
  unfold Scraper.scrape_and_save, Scraper.open_log, Scraper.fetch_step,
    Scraper._finish_log, Scraper.seller_step, Scraper.save_step,
    Scraper.save_products, Scraper.send_notifications, Notify.new_manager,
    Notify.notify_products, Client.scrape_catalog, Client.get.
  job_logs_frame.
Qed.

Lemma new_scraper_same_job_logs : stable same_job_logs Scraper.new_scraper.
Proof. unfold Scraper.new_scraper, Client.new_requester. job_logs_frame. Qed.

Lemma update_log_row log f w logs row0 :
  scheduler_logs (db w) = logs ++ [row0] ->
  jlog_id row0 = log ->
  (forall l, In l logs -> jlog_id l < log) ->
  exists w',
    update_log log f w = (Return tt, w') /\
    scheduler_logs (db w') = logs ++ [f row0] /\
    scraping_logs (db w') = scraping_logs (db w) /\
    _error_counts w' = _error_counts w /\ trace w' = trace w /\
    searches (db w') = searches (db w) /\ settings (db w') = settings (db w).
Proof.
  intros H Hid Hold. unfold update_log, update_db, modify.
  eexists. split; [reflexivity|]. split; [|repeat split; reflexivity].
  cbn [db set_db set_scheduler_logs scheduler_logs].
  rewrite H, map_app. cbn [map]. rewrite Hid, Z.eqb_refl. f_equal.
  rewrite <- (map_id logs) at 2. apply map_ext_in. intros l Hl.
  specialize (Hold l Hl). destruct (jlog_id l =? log) eqn:E; [|reflexivity].
  apply Z.eqb_eq in E. lia.
Qed.

(** X17. Every run of a search job leaves exactly one row more in the job
    log, closed: started and finished now, with status [success] when the
    [try] suite completed and [error] with the text of the exception when it
    raised (never [running]), and an [error_count] equal to the counter of
    the search after the run. After a success its product counters are
    those of the run log row of that run; a failing run writes neither a
    run log nor a product. *)
Theorem every_run_leaves_one_closed_job_log (e : env) (search_id : Z)
    (manual : bool) (w : world) :
  let w' := after_run e search_id manual w in
  exists row,
    scheduler_logs (db w') = scheduler_logs (db w) ++ [row] /\
    jlog_id row = Scraper.next_id jlog_id (scheduler_logs (db w)) /\
    jlog_search_id row = Some search_id /\
    jlog_started_at row = utcnow e /\
    jlog_finished_at row = Some (utcnow e) /\
    jlog_status row
    = match try_outcome e search_id manual w with
      | Return _ => "success"
      | Raise _ => "error"
      end /\
    jlog_error_message row
    = match try_outcome e search_id manual w with
      | Return _ => None
      | Raise ex => Some (str ex)
      end /\
    jlog_error_count row = error_count search_id w' /\
    match try_outcome e search_id manual w with
    | Return _ =>
        exists run,
          Scraper.latest_log w' = Some run /\
          slog_search_id run = search_id /\
          jlog_products_new row = slog_products_found run /\
          jlog_products_filtered row = slog_products_filtered run /\
          jlog_products_notified row = slog_products_notified run
    | Raise _ =>
        scraping_logs (db w') = scraping_logs (db w) /\
        products (db w') = products (db w)
    end.
Proof.
  intros w'. subst w'.
  unfold after_run, _run_search_job, try_outcome.
  rewrite !(bind_return _ _ _ _ _ (scheduler_open_log_spec e search_id w)).
  set (log := Scraper.next_id jlog_id (scheduler_logs (db w))).
  set (w0 := job_opened e search_id w).
  set (row0 := {| jlog_id := log; jlog_search_id := Some search_id;
                  jlog_job_type := "search"; jlog_started_at := utcnow e;
                  jlog_finished_at := None; jlog_status := "running";
                  jlog_products_found := 0; jlog_products_new := 0;
                  jlog_products_filtered := 0; jlog_products_notified := 0;
                  jlog_error_message := None; jlog_error_count := 0 |}).
  assert (L0 : scheduler_logs (db w0) = scheduler_logs (db w) ++ [row0]) by reflexivity.
  assert (Hold : forall l, In l (scheduler_logs (db w)) -> jlog_id l < log)
    by (intros l Hl; apply next_id_above; exact Hl).
  destruct (search_job_try e search_id manual log w0) as [[[]|ex] w1] eqn:E.
  - rewrite (try_except_return _ _ _ _ _ E). cbn [fst snd].
    unfold search_job_try in E. unfold bind at 1, read_db at 1 in E.
    destruct (find_search search_id (db w0)) as [search|] eqn:Hfind; [|discriminate].
    destruct (negb (search_is_active search) && negb manual); [discriminate|].
    destruct (step_run same_job_logs Scraper.new_scraper w0
                new_scraper_returns new_scraper_same_job_logs)
      as (scraper & wa & Ea & La).
    rewrite (bind_return _ _ _ _ _ Ea) in E.
    destruct (scrape_and_save_outcome e scraper search wa) as (r & wb & Eb & Sb & _).
    pose proof (scrape_and_save_same_job_logs e scraper search wa) as Lb.
    rewrite Eb in Lb. cbn [snd] in Lb.
    rewrite (bind_return _ _ _ _ _ Eb) in E.
    unfold same_job_logs in La, Lb. rewrite La, L0 in Lb.
    match type of E with
    | context [update_log log ?f] =>
        destruct (update_log_row log f wb _ row0 Lb eq_refl Hold)
          as (wc & Ec & Lc & Sc & Cc & _)
    end.
    rewrite (bind_return _ _ _ _ _ Ec) in E.
    unfold bind, modify, update_search, update_db, modify in E.
    injection E as <-.
    eexists. split; [cbn [db set_db set_searches set_error_counts scheduler_logs];
                     exact Lc|].
    cbn [jlog_id jlog_search_id jlog_started_at jlog_finished_at jlog_status
           jlog_error_message jlog_error_count jlog_products_new
           jlog_products_filtered jlog_products_notified row0].
    repeat (split; [reflexivity|]). split.
    + unfold error_count. cbn [_error_counts set_db set_error_counts].
      rewrite lookup_insert_eq. reflexivity.
    + exists (run_log_row e search wa r). split.
      * unfold Scraper.latest_log.
        cbn [db set_db set_searches set_error_counts scraping_logs].
        rewrite Sc, Sb. apply last_snoc.
      * cbn [run_log_row slog_search_id slog_products_found slog_products_filtered
               slog_products_notified].
        split; [|repeat split; reflexivity].
        apply find_some in Hfind as [_ Hid]. apply Z.eqb_eq in Hid. exact Hid.
  - rewrite (try_except_raise _ _ _ _ _ E). cbn [fst].
    pose proof (search_job_try_raises _ _ _ _ _ _ _ E) as ->.
    assert (Hex : exists we row,
              search_job_except e search_id log ex w0 = (Return tt, we) /\
              scheduler_logs (db we) = scheduler_logs (db w) ++ [row] /\
              jlog_id row = log /\ jlog_search_id row = Some search_id /\
              jlog_started_at row = utcnow e /\
              jlog_finished_at row = Some (utcnow e) /\
              jlog_status row = "error" /\
              jlog_error_message row = Some (str ex) /\
              jlog_error_count row = default 0 (_error_counts we !! search_id) /\
              scraping_logs (db we) = scraping_logs (db w) /\
              products (db we) = products (db w)).
    { unfold search_job_except.
      unfold bind at 1, modify at 1. unfold bind at 1, get_world at 1.
      set (wc := set_error_counts (count_error search_id (_error_counts w0)) w0).
      assert (Lc0 : scheduler_logs (db wc) = scheduler_logs (db w) ++ [row0])
        by reflexivity.
      match goal with
      | |- context [update_log log ?f] =>
          destruct (update_log_row log f wc _ row0 Lc0 eq_refl Hold)
            as (wd & Ed & Ld & Sd & Cd & _)
      end.
      rewrite (bind_return _ _ _ _ _ Ed).
      match goal with
      | |- context [_check_and_notify_error e search_id ?msg wd] =>
          destruct (check_and_notify_trace e search_id msg wd)
            as (we & Ee & (De & _ & _ & Ce) & _)
      end.
      rewrite Ee. eexists we, _. split; [reflexivity|].
      split; [rewrite De; exact Ld|].
      cbn [jlog_id jlog_search_id jlog_started_at jlog_finished_at jlog_status
             jlog_error_message jlog_error_count row0].
      repeat (split; [reflexivity|]).
      split; [rewrite Ce, Cd; reflexivity|].
      rewrite De. split; [exact Sd|].
      unfold update_log, update_db, modify in Ed. injection Ed as <-. reflexivity. }
    destruct Hex as (we & row & Ee & Le & H1 & H2 & H3 & H4 & H5 & H6 & H7 & H8 & H9).
    rewrite Ee. cbn [snd]. exists row. unfold error_count. cbv beta iota.
    repeat (split; [assumption|]). assumption.
Qed.
End FurtherScheduler.

(** ** The maintenance jobs *)

Section MaintenanceProperties.
Import Maintenance.

Lemma filter_none_removed {A} (f : A -> bool) (l : list A) :
  length (List.filter f l) = 0%nat -> List.filter (fun x => negb (f x)) l = l.
Proof.
  induction l as [|x l IH]; [reflexivity|]. cbn [List.filter].
  destruct (f x); cbn [negb length]; [discriminate|].
  intros H. rewrite IH by exact H. reflexivity.
Qed.

Lemma maintenance_open_log_spec e job_type w :
  exists w1,
    open_log e job_type w
      = (Return (Scraper.next_id jlog_id (scheduler_logs (db w))), w1) /\
    scheduler_logs (db w1)
    = scheduler_logs (db w)
      ++ [{| jlog_id := Scraper.next_id jlog_id (scheduler_logs (db w));
             jlog_search_id := None; jlog_job_type := job_type;
             jlog_started_at := utcnow e; jlog_finished_at := None;
             jlog_status := "running";
             jlog_products_found := 0; jlog_products_new := 0;
             jlog_products_filtered := 0; jlog_products_notified := 0;
             jlog_error_message := None; jlog_error_count := 0 |}] /\
    products (db w1) = products (db w) /\ settings (db w1) = settings (db w).
Proof.
  exists (snd (open_log e job_type w)).
  split; [reflexivity|]. split; [reflexivity|]. split; reflexivity.
Qed.

Lemma close_log_row e job_type status error_message w w1 :
  scheduler_logs (db w1)
  = scheduler_logs (db w)
    ++ [{| jlog_id := Scraper.next_id jlog_id (scheduler_logs (db w));
           jlog_search_id := None; jlog_job_type := job_type;
           jlog_started_at := utcnow e; jlog_finished_at := None;
           jlog_status := "running";
           jlog_products_found := 0; jlog_products_new := 0;
           jlog_products_filtered := 0; jlog_products_notified := 0;
           jlog_error_message := None; jlog_error_count := 0 |}] ->
  exists w2,
    close_log e (Scraper.next_id jlog_id (scheduler_logs (db w))) status error_message w1
      = (Return tt, w2) /\
    scheduler_logs (db w2)
    = scheduler_logs (db w) ++ [maintenance_log_row e job_type w status error_message] /\
    products (db w2) = products (db w1) /\ settings (db w2) = settings (db w1).
Proof.
  intros H. unfold close_log.
  match goal with
  | |- context [Scheduler.update_log ?log ?f] =>
      destruct (update_log_row log f w1 _ _ H eq_refl) as (w2 & E & L & _)
  end.
  { intros l Hl. apply next_id_above. exact Hl. }
  exists w2. split; [exact E|]. split.
  - rewrite L. unfold maintenance_log_row. cbn. destruct error_message; reflexivity.
  - unfold Scheduler.update_log, update_db, modify in E. injection E as <-.
    split; reflexivity.
Qed.

(** The subtraction of a timedelta returns the difference when that is
    representable and raises [OverflowError] otherwise; the state is left
    alone. *)
Lemma minus_timedelta_spec now seconds w :
  minus_timedelta now seconds w
  = (if representable (seconds / 86400) (now - seconds)
     then Return (now - seconds)
     else fst (minus_timedelta now seconds w), w) /\
  (representable (seconds / 86400) (now - seconds) = false ->
   exists msg, fst (minus_timedelta now seconds w) = Raise (OverflowError msg)).
Proof.
  unfold minus_timedelta, representable, DATETIME_MIN, DATETIME_MAX, raise, ret.
  cbv zeta. generalize (seconds / 86400) (now - seconds). intros d t.
  destruct (Z.leb_spec (-999999999) d) as [H1|H1]; cbn [andb].
  2:{ replace (999999999 <? d) with false by (symmetry; apply Z.ltb_ge; lia).
      replace (2147483647 <? d) with false by (symmetry; apply Z.ltb_ge; lia).
      replace (d <? -999999999) with true by (symmetry; apply Z.ltb_lt; lia).
      destruct (d <? -2147483648); cbn [orb fst];
        (split; [reflexivity | intros _; eexists; reflexivity]). }
  replace (d <? -999999999) with false by (symmetry; apply Z.ltb_ge; lia).
  replace (d <? -2147483648) with false by (symmetry; apply Z.ltb_ge; lia).
  destruct (Z.leb_spec d 999999999) as [H2|H2]; cbn [andb orb].
  2:{ replace (999999999 <? d) with true by (symmetry; apply Z.ltb_lt; lia).
      destruct (2147483647 <? d); cbn [orb fst];
        (split; [reflexivity | intros _; eexists; reflexivity]). }
  replace (999999999 <? d) with false by (symmetry; apply Z.ltb_ge; lia).
  replace (2147483647 <? d) with false by (symmetry; apply Z.ltb_ge; lia).
  destruct (Z.leb_spec (-62135596800) t) as [H3|H3]; cbn [andb orb].
  2:{ replace (t <? -62135596800) with true by (symmetry; apply Z.ltb_lt; lia).
      cbn [orb fst]. split; [reflexivity | intros _; eexists; reflexivity]. }
  replace (t <? -62135596800) with false by (symmetry; apply Z.ltb_ge; lia).
  destruct (Z.leb_spec t 253402300799) as [H4|H4]; cbn [andb orb].
  - replace (253402300799 <? t) with false by (symmetry; apply Z.ltb_ge; lia).
    split; [reflexivity | discriminate].
  - replace (253402300799 <? t) with true by (symmetry; apply Z.ltb_lt; lia).
    cbn [fst]. split; [reflexivity | intros _; eexists; reflexivity].
Qed.

(** What the cleanup job does. *)
Lemma cleanup_outcome e days w :
  let cutoff_date := utcnow e - days * 86400 in
  let acts := job_enabled (db w) days in
  let fails := acts && negb (representable days cutoff_date) in
  exists w' error_message,
    _cleanup_old_products e days w = (Return tt, w') /\
    products (db w')
    = (if acts && representable days cutoff_date
       then List.filter (fun p => negb (product_found_at p <? cutoff_date))
                        (products (db w))
       else products (db w)) /\
    scheduler_logs (db w')
    = scheduler_logs (db w)
      ++ [maintenance_log_row e "cleanup" w
            (if fails then "error" else "success") error_message] /\
    (error_message = None <-> fails = false) /\
    settings (db w') = settings (db w).
Proof.
  intros cutoff_date acts fails. subst cutoff_date acts fails.
  unfold _cleanup_old_products, job_enabled.
  destruct (maintenance_open_log_spec e "cleanup" w) as (w1 & E1 & L1 & P1 & S1).
  rewrite (bind_return _ _ _ _ _ E1).
  unfold try_except. unfold bind at 1, read_db at 1. rewrite S1.
  destruct (close_log_row e "cleanup" "success" None w w1 L1) as (w2 & E2 & L2 & P2 & S2).
  destruct (settings (db w)) as [st|] eqn:Hst.
  2:{ rewrite E2. exists w2, None. cbn [andb]. split; [reflexivity|].
      repeat split; congruence. }
  destruct (days =? 0); cbn [negb andb].
  { rewrite E2. exists w2, None. split; [reflexivity|]. repeat split; congruence. }
  destruct (minus_timedelta_spec (utcnow e) (Scraper.days days) w1) as [Em Hraise].
  unfold Scraper.days in *. rewrite Z.div_mul in * by lia.
  unfold bind at 1. rewrite Em.
  destruct (representable days (utcnow e - days * 86400)) eqn:Hrep; cbn [negb].
  2:{ destruct (Hraise eq_refl) as [msg ->].
      destruct (close_log_row e "cleanup" "error" (Some (str (OverflowError msg))) w w1 L1)
        as (w3 & E3 & L3 & P3 & S3).
      rewrite E3. exists w3, (Some (str (OverflowError msg))).
      split; [reflexivity|]. split; [congruence|]. split; [exact L3|].
      split; [split; discriminate | congruence]. }
  rewrite P1.
  destruct (Nat.eqb _ 0) eqn:Hn.
  { rewrite E2. exists w2, None. split; [reflexivity|]. split; [|repeat split; congruence].
    apply Nat.eqb_eq in Hn. rewrite (filter_none_removed _ _ Hn). congruence. }
  unfold bind at 1, update_db at 1, modify at 1.
  match goal with
  | |- context [close_log e _ "success" None ?w3] =>
      destruct (close_log_row e "cleanup" "success" None w w3 L1)
        as (w4 & E4 & L4 & P4 & S4)
  end.
  rewrite E4. exists w4, None. split; [reflexivity|].
  split; [|split; [exact L4|split; [split; reflexivity|]]].
  - rewrite P4. cbn [db set_db Notify.set_products products]. rewrite P1. reflexivity.
  - rewrite S4. cbn [db set_db Notify.set_products settings]. congruence.
Qed.

Lemma filter_filter_same {A} (f : A -> bool) (l : list A) :
  List.filter f (List.filter f l) = List.filter f l.
Proof.
  induction l as [|x l IH]; [reflexivity|]. cbn [List.filter].
  destruct (f x) eqn:E; [cbn [List.filter]; rewrite E, IH|]; auto.
Qed.

(** X18. The cleanup job never raises and leaves one closed job log row
    of type [cleanup]. It acts when the settings row exists and the number
    of days is not 0. When it acts and the runtime can compute now minus
    that many days, it deletes exactly the products found before that
    instant, keeps the others in order and closes the row as [success];
    run again at the same instant it deletes nothing more. When it acts
    and the subtraction overflows (the days exceed what a timedelta holds,
    or the instant falls outside the years 1 to 9999, as for 1000000
    days), it deletes nothing and closes the row as [error] with the text
    of the exception. When it does not act it deletes nothing and closes
    the row as [success]. *)
Theorem cleanup_deletes_exactly_the_old_products (e : env)
    (auto_delete_products_days : Z) (w : world) :
  let out := _cleanup_old_products e auto_delete_products_days w in
  let cutoff_date := utcnow e - auto_delete_products_days * 86400 in
  let acts := job_enabled (db w) auto_delete_products_days in
  let overflows := negb (representable auto_delete_products_days cutoff_date) in
  fst out = Return tt /\
  products (db (snd out))
  = (if acts && negb overflows
     then List.filter (fun p => negb (product_found_at p <? cutoff_date))
                      (products (db w))
     else products (db w)) /\
  (exists error_message,
     scheduler_logs (db (snd out))
     = scheduler_logs (db w)
       ++ [maintenance_log_row e "cleanup" w
             (if acts && overflows then "error" else "success") error_message] /\
     (error_message = None <-> acts && overflows = false)) /\
  products (db (snd (_cleanup_old_products e auto_delete_products_days (snd out))))
  = products (db (snd out)).
Proof.
  intros out cutoff_date acts overflows. subst out cutoff_date acts overflows.
  destruct (cleanup_outcome e auto_delete_products_days w)
    as (w1 & msg1 & E1 & P1 & L1 & M1 & S1).
  destruct (cleanup_outcome e auto_delete_products_days w1)
    as (w2 & msg2 & E2 & P2 & _ & _ & _).
  rewrite E1. cbn [fst snd]. rewrite E2. cbn [snd].
  rewrite negb_involutive.
  split; [reflexivity|]. split; [exact P1|]. split; [exists msg1; split; assumption|].
  rewrite P2. unfold job_enabled in *. rewrite S1.
  destruct (settings (db w)); [|reflexivity].
  destruct (negb (auto_delete_products_days =? 0)); [|reflexivity].
  cbn [andb] in *.
  destruct (representable _ _); [|reflexivity].
  rewrite P1. apply filter_filter_same.
Qed.

Lemma mark_outcome e hrs w :
  let cutoff_date := utcnow e - hrs * 3600 in
  let acts := job_enabled (db w) hrs in
  let fails := acts && negb (representable (hrs / 24) cutoff_date) in
  exists w' error_message,
    _mark_old_products_as_notified e hrs w = (Return tt, w') /\
    products (db w')
    = (if acts && representable (hrs / 24) cutoff_date
       then map (fun p =>
                   if negb (product_is_notified p)
                      && (product_found_at p <? cutoff_date)
                   then Notify.mark_notified (utcnow e) p else p)
                (products (db w))
       else products (db w)) /\
    scheduler_logs (db w')
    = scheduler_logs (db w)
      ++ [maintenance_log_row e "maintenance" w
            (if fails then "error" else "success") error_message] /\
    (error_message = None <-> fails = false).
Proof.
  intros cutoff_date acts fails. subst cutoff_date acts fails.
  unfold _mark_old_products_as_notified, job_enabled.
  destruct (maintenance_open_log_spec e "maintenance" w) as (w1 & E1 & L1 & P1 & S1).
  rewrite (bind_return _ _ _ _ _ E1).
  unfold try_except. unfold bind at 1, read_db at 1. rewrite S1.
  destruct (close_log_row e "maintenance" "success" None w w1 L1)
    as (w2 & E2 & L2 & P2 & S2).
  destruct (settings (db w)) as [st|] eqn:Hst.
  2:{ rewrite E2. exists w2, None. cbn [andb]. split; [reflexivity|].
      repeat split; congruence. }
  destruct (hrs =? 0); cbn [negb andb].
  { rewrite E2. exists w2, None. split; [reflexivity|]. repeat split; congruence. }
  destruct (minus_timedelta_spec (utcnow e) (hours hrs) w1) as [Em Hraise].
  unfold hours in *.
  assert (Hd : hrs * 3600 / 86400 = hrs / 24).
  { change 86400 with (3600 * 24). rewrite <- Z.div_div by lia.
    rewrite Z.div_mul by lia. reflexivity. }
  rewrite Hd in *. clear Hd.
  unfold bind at 1. rewrite Em.
  destruct (representable (hrs / 24) (utcnow e - hrs * 3600)) eqn:Hrep; cbn [negb].
  2:{ destruct (Hraise eq_refl) as [msg ->].
      destruct (close_log_row e "maintenance" "error"
                  (Some (str (OverflowError msg))) w w1 L1)
        as (w3 & E3 & L3 & P3 & S3).
      rewrite E3. exists w3, (Some (str (OverflowError msg))).
      split; [reflexivity|]. split; [congruence|]. split; [exact L3|].
      split; discriminate. }
  unfold bind at 1, update_db at 1, modify at 1.
  match goal with
  | |- context [close_log e _ "success" None ?w3] =>
      destruct (close_log_row e "maintenance" "success" None w w3 L1)
        as (w4 & E4 & L4 & P4 & S4)
  end.
  rewrite E4. exists w4, None. split; [reflexivity|].
  split; [|split; [exact L4|split; reflexivity]].
  rewrite P4. cbn [db set_db Notify.set_products products]. rewrite P1. reflexivity.
Qed.

(** X19. The marking job never raises, leaves one closed job log row of
    type [maintenance] and keeps every product row in place. It acts when
    the settings row exists and the number of hours is not 0. When it acts
    and the runtime can compute now minus that many hours, every product
    that was not notified and was found before that instant is marked
    (flag set, [notified_at] now, the other columns kept), every other row
    is left as it is, and the log row is closed as [success]. When it acts
    and the subtraction overflows, no row changes and the log row is closed
    as [error] with the text of the exception. When it does not act no row
    changes and the log row is closed as [success]. *)
Theorem mark_job_marks_exactly_the_old_unnotified (e : env)
    (auto_mark_notified_hours : Z) (w : world) :
  let out := _mark_old_products_as_notified e auto_mark_notified_hours w in
  let cutoff_date := utcnow e - auto_mark_notified_hours * 3600 in
  let acts := job_enabled (db w) auto_mark_notified_hours in
  let overflows := negb (representable (auto_mark_notified_hours / 24) cutoff_date) in
  fst out = Return tt /\
  Forall2
    (fun p q =>
       if acts && negb overflows
          && negb (product_is_notified p) && (product_found_at p <? cutoff_date)
       then marked_delivered (utcnow e) p q
       else q = p)
    (products (db w)) (products (db (snd out))) /\
  (exists error_message,
     scheduler_logs (db (snd out))
     = scheduler_logs (db w)
       ++ [maintenance_log_row e "maintenance" w
             (if acts && overflows then "error" else "success") error_message] /\
     (error_message = None <-> acts && overflows = false)).
Proof.
  intros out cutoff_date acts overflows. subst out cutoff_date acts overflows.
  destruct (mark_outcome e auto_mark_notified_hours w) as (w1 & msg & E1 & P1 & L1 & M1).
  rewrite E1. cbn [fst snd]. rewrite negb_involutive.
  split; [reflexivity|]. split; [|exists msg; split; assumption].
  rewrite P1. clear E1 P1 L1 M1.
  destruct (job_enabled (db w) auto_mark_notified_hours
            && representable (auto_mark_notified_hours / 24)
                 (utcnow e - auto_mark_notified_hours * 3600)).
  - cbn [andb]. induction (products (db w)) as [|p l IH]; cbn [map]; [constructor|].
    constructor; [|exact IH].
    destruct (negb (product_is_notified p) && _); [apply mark_notified_marked|reflexivity].
  - cbn [andb]. induction (products (db w)) as [|p l IH]; [constructor|].
    constructor; [reflexivity | exact IH].
Qed.
End MaintenanceProperties.

(** ** Further examples *)

(** X2, at a concrete input: of the three lines of the settings the blank
    one is dropped and the third is kept as the word [replica]. *)
Lemma global_filter_entries_are_clean_witness :
  Filter._global_banned_words (Filter._load_config Cases.store_with_words)
  = ["fake"; "replica"] /\
  "replica" <> "" /\ Str.lower "replica" = "replica" /\ Str.strip "replica" = "replica".
Proof.
  split; [vm_compute; reflexivity|].
  apply (global_filter_entries_are_clean Cases.store_with_words "replica").
  left. vm_compute. right. left. reflexivity.
Defined.

(** X3, at a concrete input with letters beyond ASCII: the line that is
    a no-break space alone is no entry, and the title in capitals is
    rejected for the word of the other line. *)
Lemma banned_word_in_title_is_rejected_witness :
  length (Filter._global_banned_words (Filter._load_config Cases.store_with_latin_words))
  = 1%nat /\
  exists why,
    Filter.filter_product (Filter._load_config Cases.store_with_latin_words)
      (Sample.item "1" Cases.latin_title 100 "9") None = (false, Some why).
Proof.
  split; [vm_compute; reflexivity|].
  destruct (banned_word_in_title_is_rejected Cases.store_with_latin_words
              Cases.settings_with_latin_words Cases.latin_words_text
              (String Cases.no_break_space
                 ("Caf" +:+ String (ascii_of_nat 233) (String Cases.no_break_space "")))
              (Sample.item "1" Cases.latin_title 100 "9") None)
    as (why & H & _).
  - reflexivity.
  - reflexivity.
  - vm_compute. right. left. reflexivity.
  - vm_compute. discriminate.
  - vm_compute. reflexivity.
  - exists why. exact H.
Defined.

(** X4, at a concrete input: the sample search has no list of its own. *)
Lemma search_rules_only_restrict_witness :
  Filter.filter_product (Filter._load_config Cases.store_with_words)
    (Sample.item "1" "a fake" 100 "9") (Some (Sample.search7 true))
  = Filter.filter_product (Filter._load_config Cases.store_with_words)
      (Sample.item "1" "a fake" 100 "9") None.
Proof.
  apply (search_rules_only_restrict (Filter._load_config Cases.store_with_words)
           (Sample.item "1" "a fake" 100 "9") (Sample.search7 true));
    reflexivity.
Defined.

(** X5, at a concrete input. *)
Lemma no_settings_no_global_filters_witness :
  fst (Filter.filter_products (Filter._load_config Cases.store_without_settings)
         [Sample.item "1" "a fake" 100 "9"; Sample.item "2" "b" 1 "9"] None)
  = [Sample.item "1" "a fake" 100 "9"; Sample.item "2" "b" 1 "9"].
Proof.
  rewrite (no_settings_no_global_filters Cases.store_without_settings
             [Sample.item "1" "a fake" 100 "9"; Sample.item "2" "b" 1 "9"]);
    reflexivity.
Defined.

(** X6, at a concrete input: a request by a new requester whose settings
    name the User-Agent among their additional headers; the session sends
    the value of that header. *)
Lemma requester_stays_consistent_witness :
  requester_ok
    (requester (snd (Client.get Sample.e_blocked (CatalogByParams "nike")
                       (snd (Client.new_requester
                               (Sample.start Cases.store_with_headers)))))) /\
  session_user_agent
    (requester (snd (Client.get Sample.e_blocked (CatalogByParams "nike")
                       (snd (Client.new_requester
                               (Sample.start Cases.store_with_headers))))))
  = "my bot".
Proof.
  split.
  - apply (requester_stays_consistent Sample.e_blocked (CatalogByParams "nike")
             (snd (Client.new_requester (Sample.start Cases.store_with_headers)))).
    apply (requester_stays_consistent Sample.e_blocked (CatalogByParams "nike")
             (Sample.start Cases.store_with_headers)).
  - vm_compute. reflexivity.
Defined.

(** X7, at a concrete input: three agents, the index at 1. *)
Lemma user_agents_rotate_round_robin_witness :
  user_agents_served 3 Cases.three_agents = (["b"; "c"; "a"], Cases.three_agents).
Proof.
  apply (user_agents_rotate_round_robin Cases.three_agents);
    [reflexivity | vm_compute; lia | vm_compute; lia].
Defined.

(** X10, at concrete inputs: a page with two new items, and a page that
    lists one new item twice. *)
Lemma save_products_needs_distinct_new_keys_witness :
  (exists rows w',
     Scraper.save_products Sample.e_ok (Sample.search7 true)
       [Sample.item "1" "a" 100 "9"; Sample.item "2" "b" 200 "9"] Sample.w_active
     = (Return rows, w') /\
     map product_fields rows
     = [Sample.item "1" "a" 100 "9"; Sample.item "2" "b" 200 "9"]) /\
  Scraper.save_products Sample.e_ok (Sample.search7 true)
    [Sample.item "1" "a" 100 "9"; Sample.item "1" "b" 200 "9"] Sample.w_active
  = (Raise (IntegrityError "UNIQUE constraint failed: products.vinted_id"),
     Sample.w_active).
Proof.
  split.
  - destruct (proj1 (save_products_needs_distinct_new_keys Sample.e_ok
                       (Sample.search7 true)
                       [Sample.item "1" "a" 100 "9"; Sample.item "2" "b" 200 "9"]
                       Sample.w_active (NoDup_nil_2 : Scraper.unique_products Sample.w_active)))
      as (rows & w' & H & Hf & _).
    + apply (bool_decide_unpack _). vm_compute. exact I.
    + exists rows, w'. split; [exact H | exact Hf].
  - apply (proj2 (save_products_needs_distinct_new_keys Sample.e_ok
                    (Sample.search7 true)
                    [Sample.item "1" "a" 100 "9"; Sample.item "1" "b" 200 "9"]
                    Sample.w_active (NoDup_nil_2 : Scraper.unique_products Sample.w_active))).
    intros Hnd. pose proof (bool_decide_pack _ Hnd) as Hb. vm_compute in Hb. exact Hb.
Defined.

(** X12, at a concrete input: the seller of the sample catalog is not
    stored yet. *)
Lemma unknown_seller_is_inserted_once_witness :
  exists w2,
    Scraper.seller_body Sample.e_ok 0 (Some "9") (0, 0) Sample.w_active
      = (Return (1, 0), w2) /\
    sellers (db w2)
    = [Scraper.new_seller 1000000 1 (Sample.seller_doc "9" "ana" 3)].
Proof.
  edestruct (proj1 (unknown_seller_is_inserted_once Sample.e_ok Sample.w_active
                      (Some "9") (0, 0) 0 eq_refl (NoDup_nil_2 : NoDup (seller_keys Sample.w_active))))
    as (w2 & H & Hs & _).
  - vm_compute. reflexivity.
  - vm_compute. intros [].
  - exists w2. split; [exact H | exact Hs].
Defined.

(** X8, at a concrete input: Telegram succeeds and Discord raises. *)
Lemma notify_product_leaves_audit_rows_witness :
  notifications
    (db (snd (Notify.notify_product Sample.e_discord_down Sample.telegram_and_discord 1
                Sample.w_product)))
  = [ {| notification_product_id := 1; notification_channel := "telegram";
         notification_status := "sent"; notification_error_message := None |};
      {| notification_product_id := 1; notification_channel := "discord";
         notification_status := "failed";
         notification_error_message := Some "discord unreachable" |} ] /\
  Forall2 (marked_delivered 1000000) [Sample.stored_product]
    (products (db (snd (Notify.notify_product Sample.e_discord_down
                          Sample.telegram_and_discord 1 Sample.w_product)))).
Proof.
  pose proof (notify_product_leaves_audit_rows Sample.e_discord_down
                Sample.telegram_and_discord 1 Sample.w_product) as H.
  cbv zeta in H. destruct H as (Hn & Hp & _).
  split; [exact Hn|].
  change (products (db Sample.w_product)) with [Sample.stored_product] in Hp.
  apply Forall2_cons_inv_l in Hp as (p' & l' & Hm & Hl & ->).
  apply Forall2_nil_inv_l in Hl as ->.
  constructor; [exact Hm | constructor].
Defined.

(** X16, at a concrete input: Telegram and Discord are configured and the
    counter of search 7 stands at 3; the alert goes to Discord only. *)
Lemma alert_reaches_every_configured_channel_witness :
  trace (snd (Scheduler._check_and_notify_error Sample.e_ok 7 "timed out"
                Cases.w_failed_thrice))
  = [AlertSend Discord 7; AlertAttempt 7 3].
Proof.
  pose proof (alert_reaches_every_configured_channel Sample.e_ok 7 "timed out"
                Cases.w_failed_thrice) as H.
  cbv zeta in H. destruct H as (_ & _ & Ht).
  rewrite Ht. vm_compute. reflexivity.
Defined.

(** X18, at concrete inputs: with one day the product found a million
    seconds before is deleted and the row says [success]; with a million
    days the subtraction overflows, nothing is deleted and the row says
    [error]. *)
Lemma cleanup_deletes_exactly_the_old_products_witness :
  (products (db (snd (Maintenance._cleanup_old_products Cases.e_later 1
                        Sample.w_product))) = [] /\
   (jlog_status <$> last (scheduler_logs
                            (db (snd (Maintenance._cleanup_old_products Cases.e_later 1
                                        Sample.w_product)))))
   = Some "success") /\
  (products (db (snd (Maintenance._cleanup_old_products Cases.e_later 1000000
                        Sample.w_product))) = [Sample.stored_product] /\
   (jlog_status <$> last (scheduler_logs
                            (db (snd (Maintenance._cleanup_old_products Cases.e_later
                                        1000000 Sample.w_product)))))
   = Some "error").
Proof.
  split.
  - pose proof (cleanup_deletes_exactly_the_old_products Cases.e_later 1
                  Sample.w_product) as H.
    cbv zeta in H. destruct H as (_ & Hp & (msg & Hl & _) & _).
    rewrite Hp, Hl. split; vm_compute; reflexivity.
  - pose proof (cleanup_deletes_exactly_the_old_products Cases.e_later 1000000
                  Sample.w_product) as H.
    cbv zeta in H. destruct H as (_ & Hp & (msg & Hl & _) & _).
    rewrite Hp, Hl. split; vm_compute; reflexivity.
Defined.

(** X19, at concrete inputs: with 24 hours the product found a million
    seconds before is marked; with 24 million hours the subtraction
    overflows, the product is left as it is and the row says [error]. *)
Lemma mark_job_marks_exactly_the_old_unnotified_witness :
  Forall2 (marked_delivered 2000000) [Sample.stored_product]
    (products (db (snd (Maintenance._mark_old_products_as_notified Cases.e_later 24
                          Sample.w_product)))) /\
  products (db (snd (Maintenance._mark_old_products_as_notified Cases.e_later 24000000
                       Sample.w_product))) = [Sample.stored_product] /\
  (jlog_status <$> last (scheduler_logs
                           (db (snd (Maintenance._mark_old_products_as_notified
                                       Cases.e_later 24000000 Sample.w_product)))))
  = Some "error".
Proof.
  split; [|split].
  - pose proof (mark_job_marks_exactly_the_old_unnotified Cases.e_later 24
                  Sample.w_product) as H.
    cbv zeta in H. destruct H as (_ & Hp & _).
    change (products (db Sample.w_product)) with [Sample.stored_product] in Hp.
    apply Forall2_cons_inv_l in Hp as (p' & l' & Hm & Hl & ->).
    apply Forall2_nil_inv_l in Hl as ->.
    constructor; [exact Hm | constructor].
  - pose proof (mark_job_marks_exactly_the_old_unnotified Cases.e_later 24000000
                  Sample.w_product) as H.
    cbv zeta in H. destruct H as (_ & Hp & _).
    change (products (db Sample.w_product)) with [Sample.stored_product] in Hp.
    apply Forall2_cons_inv_l in Hp as (p' & l' & Hm & Hl & ->).
    apply Forall2_nil_inv_l in Hl as ->.
    f_equal. exact Hm.
  - pose proof (mark_job_marks_exactly_the_old_unnotified Cases.e_later 24000000
                  Sample.w_product) as H.
    cbv zeta in H. destruct H as (_ & _ & (msg & Hl & _)).
    rewrite Hl. vm_compute. reflexivity.
Defined.
